(** * Online Exam Management API: accounts, tokens, access guard and
      role-enforced CRUD handlers.

    A shallow embedding of [models.py], [schemas.py], [auth_utils.py],
    [routes/auth.py], [routes/students.py] and [app.py].

    Conventions of the embedding:
    - Python [int] is [Z]; a [str] is the [string] of its UTF-8 bytes, and
      what the code does character by character ([len], [strip]) is done
      here on the characters those bytes encode; [Optional[T]] is
      [option T]; [float] columns carry [PrimFloat.float] values, never
      computed on.
    - [datetime.utcnow()] is read from an explicit [now : Z] argument, in
      whole seconds since the epoch (the granularity at which the token
      library serialises [exp]); a [timedelta] is a [Z] number of seconds.
    - A SQLAlchemy session is a state/exception monad [M] over the committed
      database [DB]: a handler returns its outcome together with the
      database as committed when it returned or raised. *)

From Stdlib Require Import ZArith String Ascii List Bool Lia Permutation.
From Stdlib Require Import Floats.PrimFloat.
Import ListNotations.
Local Open Scope string_scope.
Local Open Scope Z_scope.

(** ** Python helpers *)

(** [x in [..]] on strings. *)
Definition str_in (x : string) (l : list string) : bool :=
  existsb (String.eqb x) l.

(** Truthiness of a [str] and of an [int]. *)
Definition truthy_str (s : string) : bool := negb (String.eqb s "").
Definition truthy_int (n : Z) : bool := negb (n =? 0).

(** Truthiness of a value read with [dict.get]: [None] is falsy. *)
Definition truthy_opt {A} (t : A -> bool) (o : option A) : bool :=
  match o with Some a => t a | None => false end.

(** [==] between SQL columns and Python values. *)
Definition opt_str_eqb (a b : option string) : bool :=
  match a, b with
  | Some x, Some y => String.eqb x y
  | _, _ => false
  end.

Definition opt_Z_eqb (a : option Z) (b : Z) : bool :=
  match a with Some x => x =? b | None => false end.

(** *** Characters

    [chr(cp)]: the UTF-8 encoding of one code point. *)
Definition byte (n : Z) : ascii := ascii_of_nat (Z.to_nat n).

Definition chr (cp : Z) : string :=
  if cp <? 128 then String (byte cp) EmptyString
  else if cp <? 2048 then
    String (byte (192 + cp / 64))
      (String (byte (128 + cp mod 64)) EmptyString)
  else if cp <? 65536 then
    String (byte (224 + cp / 4096))
      (String (byte (128 + (cp / 64) mod 64))
         (String (byte (128 + cp mod 64)) EmptyString))
  else
    String (byte (240 + cp / 262144))
      (String (byte (128 + (cp / 4096) mod 64))
         (String (byte (128 + (cp / 64) mod 64))
            (String (byte (128 + cp mod 64)) EmptyString))).

(** A continuation byte, [10xxxxxx]. *)
Definition is_continuation (b : ascii) : bool :=
  let n := Z.of_nat (nat_of_ascii b) in (128 <=? n) && (n <? 192).

(** The characters of a [str]: each a leading byte with the continuation
    bytes that follow it. *)
Fixpoint chars (s : string) : list string :=
  match s with
  | EmptyString => []
  | String b rest =>
      match chars rest with
      | String b' c :: cs =>
          if is_continuation b' then String b (String b' c) :: cs
          else String b EmptyString :: String b' c :: cs
      | cs => String b EmptyString :: cs
      end
  end.

(** ["".join(cs)]. *)
Definition join (cs : list string) : string :=
  fold_right String.append EmptyString cs.

(** [len(s)], in characters. *)
Definition len (s : string) : Z := Z.of_nat (length (chars s)).

(** The characters [str.strip()] removes: those [str.isspace] holds of. *)
Definition whitespace : list string :=
  map chr
    [9; 10; 11; 12; 13; 28; 29; 30; 31; 32; 133; 160; 5760;
     8192; 8193; 8194; 8195; 8196; 8197; 8198; 8199; 8200; 8201; 8202;
     8232; 8233; 8239; 8287; 12288].

Definition isspace (c : string) : bool := existsb (String.eqb c) whitespace.

Fixpoint lstrip_chars (l : list string) : list string :=
  match l with
  | [] => []
  | c :: l' => if isspace c then lstrip_chars l' else l
  end.

Definition rstrip_chars (l : list string) : list string :=
  rev (lstrip_chars (rev l)).

(** [str.strip()]. *)
Definition strip (s : string) : string :=
  join (rstrip_chars (lstrip_chars (chars s))).

(** [t] is [s] without its leading and trailing white space: the
    characters of [s] are a run of white space, the characters of [t], and
    a run of white space, and [t] neither starts nor ends with one. *)
Definition stripped (s t : string) : Prop :=
  exists P T Q,
    chars s = (P ++ T ++ Q)%list
    /\ t = join T
    /\ Forall (fun c => isspace c = true) P
    /\ Forall (fun c => isspace c = true) Q
    /\ (forall c T', T = c :: T' -> isspace c = false)
    /\ (forall c T', T = (T' ++ [c])%list -> isspace c = false).

(** [str(x)] inside an f-string, for an [Optional[str]]. *)
Definition fmt_opt_str (o : option string) : string :=
  match o with Some s => s | None => "None" end.

(** [a or b] on an optional [timedelta]: [None] and the zero delta are
    falsy. *)
Definition timedelta_or (a : option Z) (b : Z) : Z :=
  match a with
  | Some d => if d =? 0 then b else d
  | None => b
  end.

Definition minutes (m : Z) : Z := 60 * m.

(** ** models.py *)

Module Account.
Record t := mk {
  id : Z;
  contact : string;
  fullname : string;
  password_hash : string;
  role : string;
  created_at : Z
}.
End Account.

Module Student.
Record t := mk {
  id : Z;
  student_number : string;
  name : string;
  email : option string;
  age : option Z;
  grade : option float;
  created_at : Z;
  account_id : option Z
}.
End Student.

Module Exam.
Record t := mk {
  id : Z;
  title : string;
  total_marks : Z;
  created_at : Z
}.
End Exam.

Module Result.
Record t := mk {
  id : Z;
  student_id : Z;
  exam_id : Z;
  score : float;
  taken_at : Z
}.
End Result.

(** ** schemas.py *)

Record UserRegister := {
  ur_contact : string;
  ur_fullname : string;
  ur_password : string;
  ur_role : string
}.

Record UserLogin := {
  ul_contact : string;
  ul_password : string
}.

Record StudentCreate := {
  sc_student_number : string;
  sc_name : string;
  sc_email : option string;
  sc_age : Z;
  sc_grade : option float
}.

Record ExamCreate := {
  ec_title : string;
  ec_total_marks : Z
}.

Record ResultCreate := {
  rc_student_id : Z;
  rc_exam_id : Z;
  rc_score : float
}.

Record ResultOut := {
  ro_id : Z;
  ro_student_id : Z;
  ro_student_name : string;
  ro_exam_id : Z;
  ro_exam_title : string;
  ro_score : float
}.

(** ** The database behind a session

    One list of rows per table, in insertion order, and the next value of
    each table's id sequence. *)

Record DB := {
  accounts : list Account.t;
  students : list Student.t;
  exams : list Exam.t;
  results : list Result.t;
  accounts_seq : Z;
  students_seq : Z;
  exams_seq : Z;
  results_seq : Z
}.

(** ** Errors and the session monad *)

(** [HTTPException] is what the handlers raise themselves; [IntegrityError]
    is what [db.commit()] raises when a constraint of [models.py] is
    violated; [AttributeError] is an attribute read on [None]. *)
Inductive error :=
| HTTPException (status_code : Z) (detail : string)
| IntegrityError
| AttributeError.

Inductive outcome (A : Type) :=
| Ok (a : A)
| Raise (e : error).
Arguments Ok {A} a.
Arguments Raise {A} e.

Definition M (A : Type) : Type := DB -> outcome A * DB.

Definition ret {A} (a : A) : M A := fun db => (Ok a, db).
Definition raise {A} (e : error) : M A := fun db => (Raise e, db).
Definition bind {A B} (m : M A) (k : A -> M B) : M B :=
  fun db =>
    match m db with
    | (Ok a, db') => k a db'
    | (Raise e, db') => (Raise e, db')
    end.

(** Run a read-only query against the session. *)
Definition query {A} (q : DB -> A) : M A := fun db => (Ok (q db), db).

Notation "x <- m ;; k" := (bind m (fun x => k))
  (at level 61, m at next level, right associativity).
Notation "m ;;; k" := (bind m (fun _ => k))
  (at level 61, right associativity).

(** [if cond: raise e]. *)
Definition raise_if (cond : bool) (e : error) : M unit :=
  if cond then raise e else ret tt.

(** [x = q.first(); if not x: raise e]. *)
Definition first_or_raise {A} (q : DB -> option A) (e : error) : M A :=
  fun db => match q db with
            | Some a => (Ok a, db)
            | None => (Raise e, db)
            end.

(** ** Constraints of [models.py], checked by [db.commit()]

    Primary keys and the [unique=True] columns admit no duplicate (SQL
    [NULL]s never collide); a [ForeignKey] column must point to an existing
    row, and a row that is still referenced cannot be deleted.  A commit
    that raises leaves the rows of every table as they were.

    Out of the model: the column types ([String(n)] lengths, the range of
    [Integer]), so a write the engine refuses for its data goes through
    here; the value a refused [INSERT] may still draw from an id sequence;
    and the order in which a query without [ORDER BY] lists its rows, a
    table being kept in insertion order here.  The properties below are
    stated accordingly: about what a write does when it succeeds or about
    the errors the code and the constraints above raise, about rows rather
    than sequences, and about listings up to their order. *)

Definition has_account (db : DB) (i : Z) : bool :=
  existsb (fun a => Account.id a =? i) (accounts db).
Definition has_student (db : DB) (i : Z) : bool :=
  existsb (fun s => Student.id s =? i) (students db).
Definition has_exam (db : DB) (i : Z) : bool :=
  existsb (fun e => Exam.id e =? i) (exams db).
Definition has_result (db : DB) (i : Z) : bool :=
  existsb (fun r => Result.id r =? i) (results db).

Definition set_accounts (db : DB) (l : list Account.t) (n : Z) : DB :=
  {| accounts := l; students := students db; exams := exams db;
     results := results db; accounts_seq := n;
     students_seq := students_seq db; exams_seq := exams_seq db;
     results_seq := results_seq db |}.
Definition set_students (db : DB) (l : list Student.t) (n : Z) : DB :=
  {| accounts := accounts db; students := l; exams := exams db;
     results := results db; accounts_seq := accounts_seq db;
     students_seq := n; exams_seq := exams_seq db;
     results_seq := results_seq db |}.
Definition set_exams (db : DB) (l : list Exam.t) (n : Z) : DB :=
  {| accounts := accounts db; students := students db; exams := l;
     results := results db; accounts_seq := accounts_seq db;
     students_seq := students_seq db; exams_seq := n;
     results_seq := results_seq db |}.
Definition set_results (db : DB) (l : list Result.t) (n : Z) : DB :=
  {| accounts := accounts db; students := students db; exams := exams db;
     results := l; accounts_seq := accounts_seq db;
     students_seq := students_seq db; exams_seq := exams_seq db;
     results_seq := n |}.

(** Is the student row [s] admissible next to the rows [others]? *)
Definition student_row_ok (db : DB) (others : list Student.t)
    (s : Student.t) : bool :=
  negb (existsb (fun x => Student.id x =? Student.id s) others)
  && negb (existsb (fun x => String.eqb (Student.student_number x)
                                        (Student.student_number s)) others)
  && match Student.account_id s with
     | None => true
     | Some a =>
         has_account db a
         && negb (existsb (fun x => opt_Z_eqb (Student.account_id x) a) others)
     end.

Definition result_row_ok (db : DB) (others : list Result.t)
    (r : Result.t) : bool :=
  negb (existsb (fun x => Result.id x =? Result.id r) others)
  && has_student db (Result.student_id r)
  && has_exam db (Result.exam_id r).

(** [db.add(row); db.commit(); db.refresh(row)]: the row gets the next id
    of its table. *)
Definition insert_account (row : Z -> Account.t) : M Account.t :=
  fun db =>
    let a := row (accounts_seq db) in
    if has_account db (Account.id a)
       || existsb (fun x => String.eqb (Account.contact x) (Account.contact a))
                  (accounts db)
    then (Raise IntegrityError, db)
    else (Ok a, set_accounts db (accounts db ++ [a]) (accounts_seq db + 1)).

Definition insert_student (row : Z -> Student.t) : M Student.t :=
  fun db =>
    let s := row (students_seq db) in
    if student_row_ok db (students db) s
    then (Ok s, set_students db (students db ++ [s]) (students_seq db + 1))
    else (Raise IntegrityError, db).

Definition insert_exam (row : Z -> Exam.t) : M Exam.t :=
  fun db =>
    let e := row (exams_seq db) in
    if has_exam db (Exam.id e)
    then (Raise IntegrityError, db)
    else (Ok e, set_exams db (exams db ++ [e]) (exams_seq db + 1)).

Definition insert_result (row : Z -> Result.t) : M Result.t :=
  fun db =>
    let r := row (results_seq db) in
    if result_row_ok db (results db) r
    then (Ok r, set_results db (results db ++ [r]) (results_seq db + 1))
    else (Raise IntegrityError, db).

(** Attribute writes on a loaded row followed by
    [db.commit(); db.refresh(row)]: the row with that primary key is
    rewritten in place. *)
Definition update_student_row (s : Student.t) : M Student.t :=
  fun db =>
    let others :=
      filter (fun x => negb (Student.id x =? Student.id s)) (students db) in
    if student_row_ok db others s
    then (Ok s,
          set_students db
            (map (fun x => if Student.id x =? Student.id s then s else x)
                 (students db))
            (students_seq db))
    else (Raise IntegrityError, db).

Definition update_exam_row (e : Exam.t) : M Exam.t :=
  fun db =>
    (Ok e,
     set_exams db
       (map (fun x => if Exam.id x =? Exam.id e then e else x) (exams db))
       (exams_seq db)).

Definition update_result_row (r : Result.t) : M Result.t :=
  fun db =>
    let others :=
      filter (fun x => negb (Result.id x =? Result.id r)) (results db) in
    if result_row_ok db others r
    then (Ok r,
          set_results db
            (map (fun x => if Result.id x =? Result.id r then r else x)
                 (results db))
            (results_seq db))
    else (Raise IntegrityError, db).

(** [db.delete(row); db.commit()]. *)
Definition delete_student_row (s : Student.t) : M unit :=
  fun db =>
    if existsb (fun r => Result.student_id r =? Student.id s) (results db)
    then (Raise IntegrityError, db)
    else (Ok tt,
          set_students db
            (filter (fun x => negb (Student.id x =? Student.id s))
                    (students db))
            (students_seq db)).

Definition delete_exam_row (e : Exam.t) : M unit :=
  fun db =>
    if existsb (fun r => Result.exam_id r =? Exam.id e) (results db)
    then (Raise IntegrityError, db)
    else (Ok tt,
          set_exams db
            (filter (fun x => negb (Exam.id x =? Exam.id e)) (exams db))
            (exams_seq db)).

Definition delete_result_row (r : Result.t) : M unit :=
  fun db =>
    (Ok tt,
     set_results db
       (filter (fun x => negb (Result.id x =? Result.id r)) (results db))
       (results_seq db)).

(** The queries the handlers run, each ending in [.first()]. *)
Definition account_by_id (i : Z) (db : DB) : option Account.t :=
  find (fun a => Account.id a =? i) (accounts db).
Definition account_by_contact (c : option string) (db : DB)
    : option Account.t :=
  find (fun a => opt_str_eqb (Some (Account.contact a)) c) (accounts db).
Definition account_by_id_contact (i : Z) (c : string) (db : DB)
    : option Account.t :=
  find (fun a => (Account.id a =? i) && String.eqb (Account.contact a) c)
       (accounts db).
Definition student_by_id (i : Z) (db : DB) : option Student.t :=
  find (fun s => Student.id s =? i) (students db).
Definition student_by_account (i : Z) (db : DB) : option Student.t :=
  find (fun s => opt_Z_eqb (Student.account_id s) i) (students db).
Definition exam_by_id (i : Z) (db : DB) : option Exam.t :=
  find (fun e => Exam.id e =? i) (exams db).
Definition result_by_id (i : Z) (db : DB) : option Result.t :=
  find (fun r => Result.id r =? i) (results db).

(** ** Tokens

    The claim set of a token: the keys the code writes and reads, each
    possibly absent as [dict.get] sees it. *)
Record Claims := {
  sub : option string;
  user_id : option Z;
  role : option string;
  exp : option Z
}.

(** ** Configuration and external primitives

    The values read from the environment at import time, the signature
    primitive of the token library and the password context. *)
Class Env := {
  SECRET_KEY : string;
  ACCESS_TOKEN_EXPIRE_MINUTES : Z;
  (** the signature of a claim set under a key, with [ALGORITHM] *)
  jws_sign : string -> Claims -> string;
  (** [pwd_context.hash] and [pwd_context.verify] *)
  pwd_hash : string -> string;
  pwd_verify : string -> string -> bool
}.

(** A bearer credential is a signed claim set or a string that does not
    parse as one. *)
Inductive Token :=
| Jws (payload : Claims) (signature : string)
| Malformed (raw : string).

(** [jwt.get_unverified_claims(token)]. *)
Definition get_unverified_claims (token : Token) : option Claims :=
  match token with
  | Jws c _ => Some c
  | Malformed _ => None
  end.

Section Jwt.
Context {env : Env}.

(** [jwt.encode(claims, key, algorithm=ALGORITHM)]. *)
Definition jwt_encode (c : Claims) (key : string) : Token :=
  Jws c (jws_sign key c).

(** [jwt.decode(token, key, algorithms=[ALGORITHM])] at time [now]:
    [None] stands for [JWTError] (bad structure, bad signature, or an
    [exp] claim in the past). *)
Definition jwt_decode (now : Z) (token : Token) (key : string)
    : option Claims :=
  match token with
  | Malformed _ => None
  | Jws c sg =>
      if String.eqb sg (jws_sign key c) then
        match exp c with
        | Some e => if e <? now then None else Some c
        | None => Some c
        end
      else None
  end.
End Jwt.

(** ** auth_utils.py *)
Module auth_utils.
Section WithEnv.
Context {env : Env}.

Definition hash_password (password : string) : string :=
  pwd_hash password.

Definition verify_password (plain_password hashed_password : string)
    : bool :=
  pwd_verify plain_password hashed_password.

Definition create_access_token (now : Z) (user_id : Z) (contact : string)
    (role : string) (expires_delta : option Z) : Token :=
  let expire :=
    now + timedelta_or expires_delta (minutes ACCESS_TOKEN_EXPIRE_MINUTES) in
  let to_encode :=
    {| sub := Some contact; user_id := Some user_id; role := Some role;
       exp := Some expire |} in
  jwt_encode to_encode SECRET_KEY.

Definition get_current_account (now : Z) (token : Token) : M Account.t :=
  match jwt_decode now token SECRET_KEY with
  | None => raise (HTTPException 401 "Invalid token")
  | Some payload =>
      let contact := sub payload in
      let user_id := user_id payload in
      let role := role payload in
      match contact, user_id with
      | Some c, Some u =>
          if truthy_str c && truthy_int u && truthy_opt truthy_str role
          then first_or_raise (account_by_id_contact u c)
                 (HTTPException 401 "Account not found")
          else raise (HTTPException 401 "Invalid token payload")
      | _, _ => raise (HTTPException 401 "Invalid token payload")
      end
  end.
End WithEnv.
End auth_utils.

(** ** routes/auth.py *)
Module routes_auth.
Section WithEnv.
Context {env : Env}.

(** The response body of [register] and [login] ([schemas.Token]). *)
Record TokenOut := {
  access_token : Token;
  token_type : string;
  out_role : string;
  out_user_id : Z
}.

Definition hash_password (password : string) : M string :=
  if negb (truthy_str password) || (len password <? 6)
  then raise (HTTPException 400 "Password must be at least 6 characters")
  else ret (pwd_hash password).

Definition verify_password (plain_password hashed_password : string)
    : bool :=
  pwd_verify plain_password hashed_password.

Definition create_access_token (now : Z) (data : Claims)
    (expires_delta : option Z) : Token :=
  let expire :=
    now + timedelta_or expires_delta (minutes ACCESS_TOKEN_EXPIRE_MINUTES) in
  let to_encode :=
    {| sub := sub data; user_id := user_id data; role := role data;
       exp := Some expire |} in
  jwt_encode to_encode SECRET_KEY.

(** [UserRegister.validate_role], its [ValueError] turned into a 400 by
    the caller. *)
Definition validate_role (data : UserRegister) : M unit :=
  raise_if (negb (str_in (ur_role data) ["student"; "teacher"]))
    (HTTPException 400 "Role must be 'student' or 'teacher'").

Definition token_for (now : Z) (account : Account.t) : TokenOut :=
  let token :=
    create_access_token now
      {| sub := Some (Account.contact account);
         user_id := Some (Account.id account);
         role := Some (Account.role account);
         exp := None |}
      None in
  {| access_token := token; token_type := "bearer";
     out_role := Account.role account;
     out_user_id := Account.id account |}.

Definition register (now : Z) (data : UserRegister) : M TokenOut :=
  validate_role data ;;;
  existing <- query (account_by_contact (Some (ur_contact data))) ;;
  raise_if (match existing with Some _ => true | None => false end)
    (HTTPException 400 "Contact already registered") ;;;
  password_hash <- hash_password (ur_password data) ;;
  account <- insert_account (fun id =>
    Account.mk id (ur_contact data) (strip (ur_fullname data))
      password_hash (ur_role data) now) ;;
  (if String.eqb (ur_role data) "student" then
     insert_student (fun id =>
       Student.mk id (Account.contact account) (Account.fullname account)
         (Some (Account.contact account)) None None now
         (Some (Account.id account))) ;;;
     ret tt
   else ret tt) ;;;
  ret (token_for now account).

Definition login (now : Z) (data : UserLogin) : M TokenOut :=
  raise_if (negb (truthy_str (ul_contact data))
            || negb (truthy_str (ul_password data)))
    (HTTPException 400 "Contact and password are required") ;;;
  account <- query (account_by_contact (Some (ul_contact data))) ;;
  match account with
  | None => raise (HTTPException 401 "Invalid credentials")
  | Some account =>
      if negb (verify_password (ul_password data)
                 (Account.password_hash account))
      then raise (HTTPException 401 "Invalid credentials")
      else ret (token_for now account)
  end.
End WithEnv.
End routes_auth.

(** ** routes/students.py

    The router's dependency [verify_token] is imported from a module that
    does not define it; the handlers are embedded over the identity it
    hands them, a mapping with the keys [role] and [user_id]. *)
Module routes_students.
Record Identity := {
  id_role : string;
  id_user_id : Z
}.

Definition get_students (user : Identity) : M (list Student.t) :=
  if String.eqb (id_role user) "student" then
    student <- query (student_by_account (id_user_id user)) ;;
    ret (match student with Some s => [s] | None => [] end)
  else query students.

Definition add_student (now : Z) (student : StudentCreate)
    (user : Identity) : M Student.t :=
  raise_if (negb (String.eqb (id_role user) "admin"))
    (HTTPException 403 "Only admin can add students") ;;;
  insert_student (fun id =>
    Student.mk id (sc_student_number student) (sc_name student)
      (sc_email student) (Some (sc_age student)) (sc_grade student) now
      None).
End routes_students.

(** ** app.py *)
Module app.
Section WithEnv.
Context {env : Env}.

Definition create_access_token (now : Z) (data : Claims)
    (expires_minutes : Z) : Token :=
  let expire := now + minutes expires_minutes in
  let to_encode :=
    {| sub := sub data; user_id := user_id data; role := role data;
       exp := Some expire |} in
  jwt_encode to_encode SECRET_KEY.

Definition get_current_account (now : Z) (token : Token) : M Account.t :=
  match jwt_decode now token SECRET_KEY with
  | None => raise (HTTPException 401 "Invalid token")
  | Some payload =>
      match user_id payload with
      | Some user_id =>
          if negb (truthy_int user_id)
          then raise (HTTPException 401 "Invalid token")
          else first_or_raise (account_by_id user_id)
                 (HTTPException 401 "Account not found")
      | None => raise (HTTPException 401 "Invalid token")
      end
  end.

(** [current_user.role not in ["admin", "teacher"]]. *)
Definition no_permission (current_user : Account.t) : bool :=
  negb (str_in (Account.role current_user) ["admin"; "teacher"]).

(** *** Seeding the administrator

    The startup hook.  [ADMIN_CONTACT], [ADMIN_NAME] and [ADMIN_PASSWORD]
    are read from the environment when it runs and are arguments here;
    [created_at] takes the column default, the current time. *)
Definition seed_admin (now : Z)
    (admin_contact admin_name admin_password : string) : M unit :=
  existing <- query (account_by_contact (Some admin_contact)) ;;
  match existing with
  | Some _ => ret tt
  | None =>
      insert_account (fun id =>
        Account.mk id admin_contact admin_name (pwd_hash admin_password)
          "admin" now) ;;;
      ret tt
  end.

(** *** Students *)

Definition get_students (current_user : Account.t) : M (list Student.t) :=
  if String.eqb (Account.role current_user) "student" then
    student <- query (student_by_account (Account.id current_user)) ;;
    ret (match student with Some s => [s] | None => [] end)
  else query students.

Definition add_student (now : Z) (student : StudentCreate)
    (current_user : Account.t) : M Student.t :=
  raise_if (no_permission current_user)
    (HTTPException 403 "No permission") ;;;
  account <- first_or_raise (account_by_contact (sc_email student))
    (HTTPException 400
       ("No account found for " ++ fmt_opt_str (sc_email student)
        ++ ". Please create the account first.")) ;;
  insert_student (fun id =>
    Student.mk id (sc_student_number student) (sc_name student)
      (sc_email student) (Some (sc_age student)) (sc_grade student) now
      (Some (Account.id account))).

(** [for k, v in student.dict().items(): setattr(s, k, v)]. *)
Definition setattr_student (s : Student.t) (student : StudentCreate)
    : Student.t :=
  Student.mk (Student.id s) (sc_student_number student) (sc_name student)
    (sc_email student) (Some (sc_age student)) (sc_grade student)
    (Student.created_at s) (Student.account_id s).

Definition update_student (student_id : Z) (student : StudentCreate)
    (current_user : Account.t) : M Student.t :=
  s <- first_or_raise (student_by_id student_id)
         (HTTPException 404 "Student not found") ;;
  raise_if (no_permission current_user)
    (HTTPException 403 "No permission") ;;;
  update_student_row (setattr_student s student).

Definition delete_student (student_id : Z) (current_user : Account.t)
    : M string :=
  s <- first_or_raise (student_by_id student_id)
         (HTTPException 404 "Student not found") ;;
  raise_if (no_permission current_user)
    (HTTPException 403 "No permission") ;;;
  delete_student_row s ;;;
  ret "Student deleted".

(** *** Exams *)

Definition get_exams (current_user : Account.t) : M (list Exam.t) :=
  query exams.

Definition add_exam (now : Z) (exam : ExamCreate)
    (current_user : Account.t) : M Exam.t :=
  raise_if (no_permission current_user)
    (HTTPException 403 "No permission") ;;;
  insert_exam (fun id => Exam.mk id (ec_title exam) (ec_total_marks exam) now).

Definition setattr_exam (e : Exam.t) (exam : ExamCreate) : Exam.t :=
  Exam.mk (Exam.id e) (ec_title exam) (ec_total_marks exam)
    (Exam.created_at e).

Definition update_exam (exam_id : Z) (exam : ExamCreate)
    (current_user : Account.t) : M Exam.t :=
  e <- first_or_raise (exam_by_id exam_id)
         (HTTPException 404 "Exam not found") ;;
  raise_if (no_permission current_user)
    (HTTPException 403 "No permission") ;;;
  update_exam_row (setattr_exam e exam).

Definition delete_exam (exam_id : Z) (current_user : Account.t)
    : M string :=
  e <- first_or_raise (exam_by_id exam_id)
         (HTTPException 404 "Exam not found") ;;
  raise_if (no_permission current_user)
    (HTTPException 403 "No permission") ;;;
  delete_exam_row e ;;;
  ret "Exam deleted".

(** *** Results *)

(** The relationships [Result.student] and [Result.exam]. *)
Definition result_student (db : DB) (r : Result.t) : option Student.t :=
  student_by_id (Result.student_id r) db.
Definition result_exam (db : DB) (r : Result.t) : option Exam.t :=
  exam_by_id (Result.exam_id r) db.

(** The [ResultOut] built by [get_results], with ["Unknown"] for a
    missing relative. *)
Definition result_out_or_unknown (db : DB) (r : Result.t) : ResultOut :=
  {| ro_id := Result.id r;
     ro_student_id := Result.student_id r;
     ro_student_name :=
       match result_student db r with
       | Some s => Student.name s
       | None => "Unknown"
       end;
     ro_exam_id := Result.exam_id r;
     ro_exam_title :=
       match result_exam db r with
       | Some e => Exam.title e
       | None => "Unknown"
       end;
     ro_score := Result.score r |}.

Definition get_results (current_user : Account.t) : M (list ResultOut) :=
  db <- query (fun db => db) ;;
  if String.eqb (Account.role current_user) "student" then
    match student_by_account (Account.id current_user) db with
    | None => ret []
    | Some student =>
        ret (map (result_out_or_unknown db)
               (filter (fun r => Result.student_id r =? Student.id student)
                       (results db)))
    end
  else ret (map (result_out_or_unknown db) (results db)).

(** The [ResultOut] built by [add_result] and [update_result], which read
    [.name] and [.title] off the relatives unguarded. *)
Definition result_out (r : Result.t) : M ResultOut :=
  db <- query (fun db => db) ;;
  match result_student db r, result_exam db r with
  | Some s, Some e =>
      ret {| ro_id := Result.id r;
             ro_student_id := Result.student_id r;
             ro_student_name := Student.name s;
             ro_exam_id := Result.exam_id r;
             ro_exam_title := Exam.title e;
             ro_score := Result.score r |}
  | _, _ => raise AttributeError
  end.

Definition add_result (now : Z) (result : ResultCreate)
    (current_user : Account.t) : M ResultOut :=
  raise_if (no_permission current_user)
    (HTTPException 403 "No permission") ;;;
  student <- first_or_raise (student_by_id (rc_student_id result))
               (HTTPException 404 "Student not found") ;;
  exam <- first_or_raise (exam_by_id (rc_exam_id result))
            (HTTPException 404 "Exam not found") ;;
  new_result <- insert_result (fun id =>
    Result.mk id (Student.id student) (Exam.id exam) (rc_score result)
      now) ;;
  result_out new_result.

Definition update_result (result_id : Z) (result : ResultCreate)
    (current_user : Account.t) : M ResultOut :=
  r <- first_or_raise (result_by_id result_id)
         (HTTPException 404 "Result not found") ;;
  raise_if (no_permission current_user)
    (HTTPException 403 "No permission") ;;;
  student <- first_or_raise (student_by_id (rc_student_id result))
               (HTTPException 404 "Student not found") ;;
  exam <- first_or_raise (exam_by_id (rc_exam_id result))
            (HTTPException 404 "Exam not found") ;;
  r' <- update_result_row
          (Result.mk (Result.id r) (Student.id student) (Exam.id exam)
             (rc_score result) (Result.taken_at r)) ;;
  result_out r'.

Definition delete_result (result_id : Z) (current_user : Account.t)
    : M string :=
  r <- first_or_raise (result_by_id result_id)
         (HTTPException 404 "Result not found") ;;
  raise_if (no_permission current_user)
    (HTTPException 403 "No permission") ;;;
  delete_result_row r ;;;
  ret "Result deleted".

(** *** The protected routes

    Every route above declares
    [current_user: Account = Depends(get_current_account)]: the guard
    runs on the request's bearer token and the handler runs on the
    account it returns. *)
Inductive Operation :=
| GET_students
| POST_students (student : StudentCreate)
| PUT_students (student_id : Z) (student : StudentCreate)
| DELETE_students (student_id : Z)
| GET_exams
| POST_exams (exam : ExamCreate)
| PUT_exams (exam_id : Z) (exam : ExamCreate)
| DELETE_exams (exam_id : Z)
| GET_results
| POST_results (result : ResultCreate)
| PUT_results (result_id : Z) (result : ResultCreate)
| DELETE_results (result_id : Z).

Inductive Response :=
| StudentList (l : list Student.t)
| StudentRow (s : Student.t)
| ExamList (l : list Exam.t)
| ExamRow (e : Exam.t)
| ResultList (l : list ResultOut)
| ResultRow (r : ResultOut)
| Message (message : string).

Definition fmap {A B} (f : A -> B) (m : M A) : M B :=
  x <- m ;; ret (f x).

Definition handler (now : Z) (op : Operation) (current_user : Account.t)
    : M Response :=
  match op with
  | GET_students => fmap StudentList (get_students current_user)
  | POST_students s => fmap StudentRow (add_student now s current_user)
  | PUT_students i s => fmap StudentRow (update_student i s current_user)
  | DELETE_students i => fmap Message (delete_student i current_user)
  | GET_exams => fmap ExamList (get_exams current_user)
  | POST_exams e => fmap ExamRow (add_exam now e current_user)
  | PUT_exams i e => fmap ExamRow (update_exam i e current_user)
  | DELETE_exams i => fmap Message (delete_exam i current_user)
  | GET_results => fmap ResultList (get_results current_user)
  | POST_results r => fmap ResultRow (add_result now r current_user)
  | PUT_results i r => fmap ResultRow (update_result i r current_user)
  | DELETE_results i => fmap Message (delete_result i current_user)
  end.

Definition route (now : Z) (token : Token) (op : Operation) : M Response :=
  current_user <- get_current_account now token ;;
  handler now op current_user.
End WithEnv.
End app.

(** ** A concrete deployment

    The defaults of the three settings blocks, a toy signature and a toy
    password context, and a small database: the seeded administrator, a
    teacher, and two students with their accounts and results. *)
Module Demo.
#[local] Instance env : Env := {|
  SECRET_KEY := "supersecretkey123";
  ACCESS_TOKEN_EXPIRE_MINUTES := 30;
  jws_sign := fun key c =>
    key ++ "/" ++ fmt_opt_str (sub c) ++ "/" ++ fmt_opt_str (role c);
  pwd_hash := fun p => "argon2:" ++ p;
  pwd_verify := fun p h => String.eqb h ("argon2:" ++ p)
|}.

Definition admin : Account.t :=
  Account.mk 1 "admin@example.com" "Administrator" "argon2:admin123"
    "admin" 0.
Definition teacher : Account.t :=
  Account.mk 2 "t1@x.com" "Tom" "argon2:teach123" "teacher" 10.
Definition ann_account : Account.t :=
  Account.mk 3 "s1@x.com" "Ann" "argon2:pass123" "student" 20.
Definition bob_account : Account.t :=
  Account.mk 4 "s2@x.com" "Bob" "argon2:pass456" "student" 30.

Definition ann : Student.t :=
  Student.mk 1 "s1@x.com" "Ann" (Some "s1@x.com") None None 20 (Some 3).
Definition bob : Student.t :=
  Student.mk 2 "2024-002" "Bob" (Some "s2@x.com") (Some 17) None 40
    (Some 4).

Definition midterm : Exam.t := Exam.mk 1 "Midterm" 100 50.
Definition final : Exam.t := Exam.mk 2 "Final" 100 60.

Definition r1 : Result.t := Result.mk 1 1 1 88.5%float 70.
Definition r2 : Result.t := Result.mk 2 2 1 61%float 71.
Definition r3 : Result.t := Result.mk 3 1 2 92%float 80.

Definition db : DB :=
  {| accounts := [admin; teacher; ann_account; bob_account];
     students := [ann; bob];
     exams := [midterm; final];
     results := [r1; r2; r3];
     accounts_seq := 5; students_seq := 3; exams_seq := 3;
     results_seq := 4 |}.

(** A token for an account id that is not in [db]. *)
Definition ghost_token : Token :=
  auth_utils.create_access_token 100 9 "gone@x.com" "student" None.

(** A correctly signed token whose [user_id] claim is [0]. *)
Definition zero_token : Token :=
  auth_utils.create_access_token 100 0 "s1@x.com" "student" None.

Definition new_student : StudentCreate :=
  {| sc_student_number := "2024-003"; sc_name := "Cy";
     sc_email := Some "cy@x.com"; sc_age := 16; sc_grade := None |}.

Definition ann_update : StudentCreate :=
  {| sc_student_number := "2024-001"; sc_name := "Ann Lee";
     sc_email := Some "ann@x.com"; sc_age := 18;
     sc_grade := Some 9.5%float |}.

(** The full name is padded with a no-break space, an em space and plain
    spaces. *)
Definition zed_registration : UserRegister :=
  {| ur_contact := "s9@x.com";
     ur_fullname :=
       (chr 160 ++ chr 8195 ++ " Zed Poe " ++ chr 8195)%string;
     ur_password := "pass123"; ur_role := "student" |}.

(** A password of five characters in fifteen bytes, and one of six. *)
Definition five_euros : string :=
  (chr 8364 ++ chr 8364 ++ chr 8364 ++ chr 8364 ++ chr 8364)%string.
Definition six_euros : string := (five_euros ++ chr 8364)%string.

Definition five_euro_registration : UserRegister :=
  {| ur_contact := "s8@x.com"; ur_fullname := "Al";
     ur_password := five_euros; ur_role := "teacher" |}.
Definition six_euro_registration : UserRegister :=
  {| ur_contact := "s8@x.com"; ur_fullname := "Al";
     ur_password := six_euros; ur_role := "teacher" |}.

(** A registration that reuses Ann's contact and asks for the admin
    role. *)
Definition admin_registration : UserRegister :=
  {| ur_contact := "s1@x.com"; ur_fullname := "Ann"; ur_password := "pass123";
     ur_role := "admin" |}.

Definition ann_again : UserRegister :=
  {| ur_contact := "s1@x.com"; ur_fullname := "Ann"; ur_password := "pass123";
     ur_role := "student" |}.

Definition ann_wrong_password : UserLogin :=
  {| ul_contact := "s1@x.com"; ul_password := "wrong" |}.

Definition nobody_login : UserLogin :=
  {| ul_contact := "nobody@x.com"; ul_password := "wrong" |}.

(** Results that point to a missing student and exam, and to a known
    student and a missing exam. *)
Definition dangling_result : ResultCreate :=
  {| rc_student_id := 77; rc_exam_id := 78; rc_score := 50%float |}.

Definition examless_result : ResultCreate :=
  {| rc_student_id := 1; rc_exam_id := 78; rc_score := 50%float |}.

Definition nobody_empty_password : UserLogin :=
  {| ul_contact := "nobody@x.com"; ul_password := "" |}.

(** The tokens [login] hands the admin, the teacher and Ann at second
    100. *)
Definition admin_token : Token :=
  routes_auth.access_token (routes_auth.token_for 100 admin).
Definition teacher_token : Token :=
  routes_auth.access_token (routes_auth.token_for 100 teacher).
Definition ann_token : Token :=
  routes_auth.access_token (routes_auth.token_for 100 ann_account).

(** A registration under a contact that is Bob's student number. *)
Definition clash_registration : UserRegister :=
  {| ur_contact := "2024-002"; ur_fullname := "Bo"; ur_password := "pass789";
     ur_role := "student" |}.

(** A student submitted without an email, and an update that would give
    Ann the student number of Bob. *)
Definition no_email_student : StudentCreate :=
  {| sc_student_number := "2024-004"; sc_name := "Di"; sc_email := None;
     sc_age := 15; sc_grade := None |}.

Definition ann_takes_bobs_number : StudentCreate :=
  {| sc_student_number := "2024-002"; sc_name := "Ann";
     sc_email := Some "s1@x.com"; sc_age := 18; sc_grade := None |}.

Definition quiz : ExamCreate :=
  {| ec_title := "Quiz"; ec_total_marks := 20 |}.

Definition ann_final_retake : ResultCreate :=
  {| rc_student_id := 1; rc_exam_id := 2; rc_score := 95%float |}.
End Demo.

(** How [PUT /students/{student_id}] with body [student] relates a row of
    the students table before the call to the row at the same position
    after it. *)
Definition student_row_after (student_id : Z) (student : StudentCreate)
    (old new : Student.t) : Prop :=
  if Student.id old =? student_id then
    Student.id new = Student.id old
    /\ Student.account_id new = Student.account_id old
    /\ Student.created_at new = Student.created_at old
    /\ Student.student_number new = sc_student_number student
    /\ Student.name new = sc_name student
    /\ Student.email new = sc_email student
    /\ Student.age new = Some (sc_age student)
    /\ Student.grade new = sc_grade student
  else new = old.

(** How [PUT /results/{result_id}] with body [result] relates a row of
    the results table before the call to the row at the same position
    after it. *)
Definition result_row_after (result_id : Z) (result : ResultCreate)
    (old new : Result.t) : Prop :=
  if Result.id old =? result_id then
    Result.id new = Result.id old
    /\ Result.taken_at new = Result.taken_at old
    /\ Result.student_id new = rc_student_id result
    /\ Result.exam_id new = rc_exam_id result
    /\ Result.score new = rc_score result
  else new = old.

(** ** Database invariants

    What the constraints of [models.py] promise of a committed database:
    distinct primary keys, distinct account contacts, distinct student
    numbers, at most one Student row per account. *)
Definition keys_ok (db : DB) : Prop :=
  NoDup (map Account.id (accounts db))
  /\ NoDup (map Account.contact (accounts db))
  /\ NoDup (map Student.id (students db))
  /\ NoDup (map Student.student_number (students db))
  /\ (forall x y a,
        In x (students db) -> In y (students db) ->
        Student.account_id x = Some a -> Student.account_id y = Some a ->
        x = y)
  /\ NoDup (map Exam.id (exams db))
  /\ NoDup (map Result.id (results db)).

(** Every foreign key points to a row. *)
Definition refs_ok (db : DB) : Prop :=
  (forall s a, In s (students db) -> Student.account_id s = Some a ->
               has_account db a = true)
  /\ (forall r, In r (results db) ->
                has_student db (Result.student_id r) = true
                /\ has_exam db (Result.exam_id r) = true).

(** An operation keeps [P] whatever it returns or raises. *)
Definition preserves (P : DB -> Prop) {A} (m : M A) : Prop :=
  forall db, P db -> P (snd (m db)).

(** An operation never writes. *)
Definition read_only {A} (m : M A) : Prop :=
  forall db, snd (m db) = db.

(** An operation that raises has written nothing. *)
Definition fails_clean {A} (m : M A) : Prop :=
  forall db e db', m db = (Raise e, db') -> db' = db.

(** The routes that only read: the three [GET]s. *)
Definition is_get (op : app.Operation) : bool :=
  match op with
  | app.GET_students | app.GET_exams | app.GET_results => true
  | _ => false
  end.

(** * Properties *)

(** ** Queries *)

Lemma find_all_false {A} (f : A -> bool) (l : list A) :
  (forall x, In x l -> f x = false) -> find f l = None.
Proof.
  induction l as [|a l IH]; simpl; intros Hall; [reflexivity|].
  rewrite (Hall a (or_introl eq_refl)).
  apply IH. intros x Hx. apply Hall. now right.
Qed.

Lemma find_exists {A} (f : A -> bool) (l : list A) (x : A) :
  In x l -> f x = true -> exists y, find f l = Some y.
Proof.
  induction l as [|a l IH]; simpl; intros Hin Hf; [contradiction|].
  destruct (f a) eqn:Ea; [now exists a|].
  destruct Hin as [->|Hin]; [congruence|]. now apply IH.
Qed.

Lemma account_by_id_absent db i :
  (forall a, In a (accounts db) -> Account.id a <> i) ->
  account_by_id i db = None.
Proof.
  intros Hno. apply find_all_false. intros a Ha.
  apply Z.eqb_neq. now apply Hno.
Qed.

Lemma account_by_id_contact_absent db i c :
  (forall a, In a (accounts db) -> Account.id a <> i) ->
  account_by_id_contact i c db = None.
Proof.
  intros Hno. apply find_all_false. intros a Ha.
  apply andb_false_iff. left. apply Z.eqb_neq. now apply Hno.
Qed.

Lemma truthy_int_nonzero n : n <> 0 -> truthy_int n = true.
Proof.
  intros Hn. unfold truthy_int. apply negb_true_iff. now apply Z.eqb_neq.
Qed.

Lemma truthy_str_nonempty s : s <> "" -> truthy_str s = true.
Proof.
  intros Hs. unfold truthy_str. apply negb_true_iff. now apply String.eqb_neq.
Qed.

(** ** The access guard *)

Section Guard.
Context {env : Env}.

(** Whatever the token, the guard of [app.py] either returns an account
    of the store or fails with status 401, and never writes. *)
Lemma app_guard_unauthenticated now token db :
  (exists a, app.get_current_account now token db = (Ok a, db)
             /\ In a (accounts db))
  \/ (exists detail,
        app.get_current_account now token db
        = (Raise (HTTPException 401 detail), db)).
Proof.
  unfold app.get_current_account.
  destruct (jwt_decode now token SECRET_KEY) as [p|];
    [|right; eexists; reflexivity].
  destruct (user_id p) as [u|]; [|right; eexists; reflexivity].
  destruct (negb (truthy_int u)); [right; eexists; reflexivity|].
  unfold first_or_raise, account_by_id.
  destruct (find _ (accounts db)) as [a|] eqn:Ef;
    [|right; eexists; reflexivity].
  left. exists a. split; [reflexivity|].
  now apply find_some in Ef.
Qed.

(** A request whose guard fails never reaches its handler. *)
Lemma route_guard_failure now token op db e db' :
  app.get_current_account now token db = (Raise e, db') ->
  app.route now token op db = (Raise e, db').
Proof.
  intros Hg. unfold app.route, bind. now rewrite Hg.
Qed.
End Guard.

Lemma jwt_decode_claims {env : Env} now token key payload :
  jwt_decode now token key = Some payload ->
  get_unverified_claims token = Some payload.
Proof.
  unfold jwt_decode. destruct token as [c sg|raw]; [|discriminate].
  destruct (String.eqb sg (jws_sign key c)); [|discriminate].
  destruct (exp c) as [e|]; [destruct (e <? now)|]; simpl; congruence.
Qed.

Lemma app_guard_missing_account {env : Env} now token db :
  (forall payload a,
     get_unverified_claims token = Some payload ->
     In a (accounts db) -> user_id payload <> Some (Account.id a)) ->
  exists detail,
    app.get_current_account now token db
    = (Raise (HTTPException 401 detail), db)
    /\ (jwt_decode now token SECRET_KEY = None -> detail = "Invalid token")
    /\ (forall payload,
          jwt_decode now token SECRET_KEY = Some payload ->
          (truthy_opt truthy_int (user_id payload) = true ->
           detail = "Account not found")
          /\ (truthy_opt truthy_int (user_id payload) = false ->
              detail = "Invalid token")).
Proof.
  intros Habsent. unfold app.get_current_account.
  destruct (jwt_decode now token SECRET_KEY) as [p|] eqn:Hdec.
  - pose proof (jwt_decode_claims _ _ _ _ Hdec) as Hclaims.
    destruct (user_id p) as [u|] eqn:Hu.
    + destruct (truthy_int u) eqn:Ht; simpl.
      * unfold first_or_raise. rewrite account_by_id_absent.
        -- eexists. split; [reflexivity|]. split; [discriminate|].
           intros p' [= <-]. rewrite Hu. simpl. rewrite Ht.
           split; [reflexivity|discriminate].
        -- intros a Ha E. apply (Habsent p a Hclaims Ha). congruence.
      * eexists. split; [reflexivity|]. split; [reflexivity|].
        intros p' [= <-]. rewrite Hu. simpl. rewrite Ht.
        split; [discriminate|reflexivity].
    + eexists. split; [reflexivity|]. split; [reflexivity|].
      intros p' [= <-]. rewrite Hu. simpl.
      split; [discriminate|reflexivity].
  - eexists. split; [reflexivity|]. split; [reflexivity|discriminate].
Qed.

(** The claims the stricter guard requires: [all([contact, user_id,
    role])]. *)
Lemma auth_utils_guard_missing_account {env : Env} now token db :
  (forall payload a,
     get_unverified_claims token = Some payload ->
     In a (accounts db) -> user_id payload <> Some (Account.id a)) ->
  exists detail,
    auth_utils.get_current_account now token db
    = (Raise (HTTPException 401 detail), db)
    /\ (jwt_decode now token SECRET_KEY = None -> detail = "Invalid token")
    /\ (forall payload,
          jwt_decode now token SECRET_KEY = Some payload ->
          let complete :=
            truthy_opt truthy_str (sub payload)
            && truthy_opt truthy_int (user_id payload)
            && truthy_opt truthy_str (role payload) in
          (complete = true -> detail = "Account not found")
          /\ (complete = false -> detail = "Invalid token payload")).
Proof.
  intros Habsent. unfold auth_utils.get_current_account.
  destruct (jwt_decode now token SECRET_KEY) as [p|] eqn:Hdec;
    [|eexists; split; [reflexivity|split; [reflexivity|discriminate]]].
  pose proof (jwt_decode_claims _ _ _ _ Hdec) as Hclaims.
  destruct (sub p) as [c|] eqn:Hc;
    [|eexists; split; [reflexivity|split; [discriminate|]];
      intros p' [= <-]; rewrite Hc; simpl;
      split; [discriminate|reflexivity]].
  destruct (user_id p) as [u|] eqn:Hu;
    [|eexists; split; [reflexivity|split; [discriminate|]];
      intros p' [= <-]; rewrite Hc, Hu; simpl; rewrite andb_false_r;
      split; [discriminate|reflexivity]].
  destruct (truthy_str c && truthy_int u && truthy_opt truthy_str (role p))
    eqn:Hall.
  - unfold first_or_raise. rewrite account_by_id_contact_absent.
    + eexists. split; [reflexivity|]. split; [discriminate|].
      intros p' [= <-]. rewrite Hc, Hu. simpl. rewrite Hall.
      split; [reflexivity|discriminate].
    + intros a Ha E. apply (Habsent p a Hclaims Ha). congruence.
  - eexists. split; [reflexivity|]. split; [discriminate|].
    intros p' [= <-]. rewrite Hc, Hu. simpl. rewrite Hall.
    split; [discriminate|reflexivity].
Qed.

(** C1 (as amended).  A token whose [user_id] claim is the id of no
    account in the store is rejected with status 401, whatever its
    signature and expiry, and the store is left as it was: by the guard of
    [app.py], by every protected route of [app.py] (whose handler never
    runs), and by the stricter guard of [auth_utils.py].  The detail is
    fixed by the token:
    - a token that does not decode (bad structure or signature, expired)
      gets "Invalid token" from both guards;
    - a token that decodes gets "Account not found" from [app.py] when its
      [user_id] claim is present and non-zero, and "Invalid token" when it
      is 0 or absent;
    - a token that decodes gets "Account not found" from [auth_utils.py]
      when its [sub], [user_id] and [role] claims are all present and
      truthy, and "Invalid token payload" otherwise. *)
Theorem guard_account_not_found {env : Env} now token db :
  (forall payload a,
     get_unverified_claims token = Some payload ->
     In a (accounts db) -> user_id payload <> Some (Account.id a)) ->
  (exists detail,
     app.get_current_account now token db
     = (Raise (HTTPException 401 detail), db)
     /\ (forall op,
           app.route now token op db
           = (Raise (HTTPException 401 detail), db))
     /\ (jwt_decode now token SECRET_KEY = None -> detail = "Invalid token")
     /\ (forall payload,
           jwt_decode now token SECRET_KEY = Some payload ->
           (truthy_opt truthy_int (user_id payload) = true ->
            detail = "Account not found")
           /\ (truthy_opt truthy_int (user_id payload) = false ->
               detail = "Invalid token")))
  /\ (exists detail,
        auth_utils.get_current_account now token db
        = (Raise (HTTPException 401 detail), db)
        /\ (jwt_decode now token SECRET_KEY = None ->
            detail = "Invalid token")
        /\ (forall payload,
              jwt_decode now token SECRET_KEY = Some payload ->
              let complete :=
                truthy_opt truthy_str (sub payload)
                && truthy_opt truthy_int (user_id payload)
                && truthy_opt truthy_str (role payload) in
              (complete = true -> detail = "Account not found")
              /\ (complete = false -> detail = "Invalid token payload"))).
Proof.
  intros Habsent. split.
  - destruct (app_guard_missing_account now token db Habsent)
      as (detail & Hguard & Hnone & Hsome).
    exists detail. split; [exact Hguard|]. split; [|split; assumption].
    intros op. now apply route_guard_failure.
  - now apply auth_utils_guard_missing_account.
Qed.

Section GuardChecks.
#[local] Existing Instance Demo.env.

Lemma guard_account_not_found_witness :
  (app.get_current_account 200 Demo.ghost_token Demo.db
   = (Raise (HTTPException 401 "Account not found"), Demo.db)
   /\ app.route 200 Demo.ghost_token (app.DELETE_students 1) Demo.db
      = (Raise (HTTPException 401 "Account not found"), Demo.db)
   /\ auth_utils.get_current_account 200 Demo.ghost_token Demo.db
      = (Raise (HTTPException 401 "Account not found"), Demo.db))
  /\ (app.get_current_account 200 Demo.zero_token Demo.db
      = (Raise (HTTPException 401 "Invalid token"), Demo.db)
      /\ auth_utils.get_current_account 200 Demo.zero_token Demo.db
         = (Raise (HTTPException 401 "Invalid token payload"), Demo.db))
  /\ (app.get_current_account 5000 Demo.ghost_token Demo.db
      = (Raise (HTTPException 401 "Invalid token"), Demo.db)
      /\ auth_utils.get_current_account 5000 Demo.ghost_token Demo.db
         = (Raise (HTTPException 401 "Invalid token"), Demo.db)).
Proof.
  assert (Hghost : forall payload a,
            get_unverified_claims Demo.ghost_token = Some payload ->
            In a (accounts Demo.db) ->
            user_id payload <> Some (Account.id a)).
  { intros payload a [= <-]. simpl.
    intros [<-|[<-|[<-|[<-|[]]]]]; simpl; discriminate. }
  assert (Hzero : forall payload a,
            get_unverified_claims Demo.zero_token = Some payload ->
            In a (accounts Demo.db) ->
            user_id payload <> Some (Account.id a)).
  { intros payload a [= <-]. simpl.
    intros [<-|[<-|[<-|[<-|[]]]]]; simpl; discriminate. }
  split; [|split].
  - destruct (guard_account_not_found 200 Demo.ghost_token Demo.db Hghost)
      as [(d1 & Hg1 & Hr1 & _ & Hd1) (d2 & Hg2 & _ & Hd2)].
    rewrite (Hr1 (app.DELETE_students 1)), Hg1, Hg2.
    rewrite (proj1 (Hd1 _ eq_refl) eq_refl), (proj1 (Hd2 _ eq_refl) eq_refl).
    repeat split.
  - destruct (guard_account_not_found 200 Demo.zero_token Demo.db Hzero)
      as [(d1 & Hg1 & _ & _ & Hd1) (d2 & Hg2 & _ & Hd2)].
    rewrite Hg1, Hg2.
    rewrite (proj2 (Hd1 _ eq_refl) eq_refl), (proj2 (Hd2 _ eq_refl) eq_refl).
    split; reflexivity.
  - destruct (guard_account_not_found 5000 Demo.ghost_token Demo.db Hghost)
      as [(d1 & Hg1 & _ & Hn1 & _) (d2 & Hg2 & Hn2 & _)].
    rewrite Hg1, Hg2, (Hn1 eq_refl), (Hn2 eq_refl).
    split; reflexivity.
Defined.

(** C1 (as stated) fails on a token whose [user_id] claim is [0]: it is
    correctly signed and unexpired, no account has id 0, and the guard
    answers 401 "Invalid token", not 401 "Account not found". *)
Lemma guard_zero_user_id_counterexample :
  jwt_decode 200 Demo.zero_token SECRET_KEY
  = Some {| sub := Some "s1@x.com"; user_id := Some 0;
            role := Some "student"; exp := Some 1900 |}
  /\ (forall a, In a (accounts Demo.db) -> Account.id a <> 0)
  /\ app.get_current_account 200 Demo.zero_token Demo.db
     = (Raise (HTTPException 401 "Invalid token"), Demo.db)
  /\ app.get_current_account 200 Demo.zero_token Demo.db
     <> (Raise (HTTPException 401 "Account not found"), Demo.db)
  /\ auth_utils.get_current_account 200 Demo.zero_token Demo.db
     = (Raise (HTTPException 401 "Invalid token payload"), Demo.db).
Proof.
  split; [reflexivity|]. split.
  - simpl. intros a [<-|[<-|[<-|[<-|[]]]]]; simpl; lia.
  - split; [reflexivity|]. split; [|reflexivity].
    vm_compute. discriminate.
Defined.
End GuardChecks.

(** ** Listing results *)

Lemma opt_Z_eqb_spec (o : option Z) (i : Z) :
  opt_Z_eqb o i = true <-> o = Some i.
Proof.
  destruct o as [x|]; simpl.
  - rewrite Z.eqb_eq. split; congruence.
  - split; discriminate.
Qed.

Lemma student_by_account_unlinked db i :
  (forall s, In s (students db) -> Student.account_id s <> Some i) ->
  student_by_account i db = None.
Proof.
  intros Hno. apply find_all_false. intros s Hs.
  destruct (opt_Z_eqb (Student.account_id s) i) eqn:E; [|reflexivity].
  apply opt_Z_eqb_spec in E. now apply Hno in E.
Qed.

Lemma student_by_account_linked db i s :
  In s (students db) ->
  Student.account_id s = Some i ->
  exists s', student_by_account i db = Some s'
             /\ In s' (students db) /\ Student.account_id s' = Some i.
Proof.
  intros Hin Hacc.
  destruct (find_exists (fun x => opt_Z_eqb (Student.account_id x) i)
              (students db) s Hin) as [s' Hs'].
  { now apply opt_Z_eqb_spec. }
  exists s'. split; [exact Hs'|].
  apply find_some in Hs'. destruct Hs' as [Hin' E].
  split; [exact Hin'|]. now apply opt_Z_eqb_spec.
Qed.

(** The rows served to a student with a linked Student row. *)
Lemma get_results_linked (current_user : Account.t) (db : DB) s :
  Account.role current_user = "student" ->
  In s (students db) ->
  Student.account_id s = Some (Account.id current_user) ->
  (forall s', In s' (students db) ->
              Student.account_id s' = Some (Account.id current_user) ->
              Student.id s' = Student.id s) ->
  app.get_results current_user db
  = (Ok (map (app.result_out_or_unknown db)
           (filter (fun r => Result.student_id r =? Student.id s)
                   (results db))),
     db).
Proof.
  intros Hrole Hin Hacc Huniq.
  unfold app.get_results, bind, query, ret. rewrite Hrole. simpl.
  destruct (student_by_account_linked db _ s Hin Hacc)
    as (s' & Hfind & Hin' & Hacc').
  rewrite Hfind. now rewrite (Huniq s' Hin' Hacc').
Qed.

(** Read extensionally: a student sees a row iff it is one of their own. *)
Lemma get_results_student_rows (current_user : Account.t) (db : DB) s :
  Account.role current_user = "student" ->
  In s (students db) ->
  Student.account_id s = Some (Account.id current_user) ->
  (forall s', In s' (students db) ->
              Student.account_id s' = Some (Account.id current_user) ->
              Student.id s' = Student.id s) ->
  exists rows,
    app.get_results current_user db
    = (Ok (map (app.result_out_or_unknown db) rows), db)
    /\ forall r, In r rows
                 <-> In r (results db) /\ Result.student_id r = Student.id s.
Proof.
  intros Hrole Hin Hacc Huniq.
  eexists. split.
  - now apply get_results_linked with (s := s).
  - intros r. rewrite filter_In, Z.eqb_eq. tauto.
Qed.

(** C2.  What [GET /results] returns, never writing to the store, the
    order of the rows left open:
    - to a student whose account no Student row is linked to, the empty
      list;
    - to a student whose account the Student row [s] is linked to, one row
      for each Result row whose [student_id] is the id of [s], and no
      other;
    - to an admin or a teacher, one row for each Result row of the table.
    The row returned for a Result row carries its id, student id, exam id
    and score, with the name of the student and the title of the exam of
    those ids, or "Unknown" where there is none. *)
Theorem get_results_scope (current_user : Account.t) (db : DB) :
  let row_of (r : Result.t) : ResultOut :=
    {| ro_id := Result.id r;
       ro_student_id := Result.student_id r;
       ro_student_name :=
         match student_by_id (Result.student_id r) db with
         | Some s => Student.name s
         | None => "Unknown"
         end;
       ro_exam_id := Result.exam_id r;
       ro_exam_title :=
         match exam_by_id (Result.exam_id r) db with
         | Some e => Exam.title e
         | None => "Unknown"
         end;
       ro_score := Result.score r |} in
  (Account.role current_user = "student" ->
   (forall s, In s (students db) ->
              Student.account_id s <> Some (Account.id current_user)) ->
   app.get_results current_user db = (Ok [], db))
  /\ (Account.role current_user = "student" ->
      forall s,
        In s (students db) ->
        Student.account_id s = Some (Account.id current_user) ->
        (forall s', In s' (students db) ->
                    Student.account_id s' = Some (Account.id current_user) ->
                    Student.id s' = Student.id s) ->
        exists rows,
          app.get_results current_user db = (Ok rows, db)
          /\ Permutation rows
               (map row_of
                  (filter (fun r => Result.student_id r =? Student.id s)
                          (results db))))
  /\ (Account.role current_user = "admin"
      \/ Account.role current_user = "teacher" ->
      exists rows,
        app.get_results current_user db = (Ok rows, db)
        /\ Permutation rows (map row_of (results db))).
Proof.
  intros row_of. split; [|split].
  - intros Hrole Hno.
    unfold app.get_results, bind, query, ret. rewrite Hrole. simpl.
    now rewrite student_by_account_unlinked.
  - intros Hrole s Hin Hacc Huniq. eexists. split.
    + now apply get_results_linked with (s := s).
    + apply Permutation_refl.
  - intros Hrole. eexists. split.
    + unfold app.get_results, bind, query, ret.
      destruct Hrole as [Hrole|Hrole]; rewrite Hrole; reflexivity.
    + apply Permutation_refl.
Qed.

Section ResultsChecks.
#[local] Existing Instance Demo.env.

Lemma get_results_scope_witness :
  app.get_results (Account.mk 7 "s7@x.com" "Sev" "argon2:x" "student" 0)
    Demo.db = (Ok [], Demo.db)
  /\ (exists rows,
        app.get_results Demo.ann_account Demo.db = (Ok rows, Demo.db)
        /\ Permutation rows
             [ {| ro_id := 1; ro_student_id := 1; ro_student_name := "Ann";
                  ro_exam_id := 1; ro_exam_title := "Midterm";
                  ro_score := 88.5%float |};
               {| ro_id := 3; ro_student_id := 1; ro_student_name := "Ann";
                  ro_exam_id := 2; ro_exam_title := "Final";
                  ro_score := 92%float |} ])
  /\ (exists rows,
        app.get_results Demo.teacher Demo.db = (Ok rows, Demo.db)
        /\ Permutation rows
             [ {| ro_id := 1; ro_student_id := 1; ro_student_name := "Ann";
                  ro_exam_id := 1; ro_exam_title := "Midterm";
                  ro_score := 88.5%float |};
               {| ro_id := 2; ro_student_id := 2; ro_student_name := "Bob";
                  ro_exam_id := 1; ro_exam_title := "Midterm";
                  ro_score := 61%float |};
               {| ro_id := 3; ro_student_id := 1; ro_student_name := "Ann";
                  ro_exam_id := 2; ro_exam_title := "Final";
                  ro_score := 92%float |} ]).
Proof.
  split; [|split].
  - apply (proj1 (get_results_scope
                    (Account.mk 7 "s7@x.com" "Sev" "argon2:x" "student" 0)
                    Demo.db)).
    + reflexivity.
    + simpl. intros s [<-|[<-|[]]]; simpl; discriminate.
  - apply (proj1 (proj2 (get_results_scope Demo.ann_account Demo.db))
             eq_refl Demo.ann).
    + simpl. now left.
    + reflexivity.
    + simpl. intros s' [<-|[<-|[]]]; simpl; [reflexivity|discriminate].
  - apply (proj2 (proj2 (get_results_scope Demo.teacher Demo.db))).
    right. reflexivity.
Defined.
End ResultsChecks.

(** ** Creating a student directly *)

Lemma opt_str_eqb_eq (a b : option string) :
  opt_str_eqb a b = true -> a = b.
Proof.
  destruct a as [x|], b as [y|]; simpl; try discriminate.
  intros E. apply String.eqb_eq in E. now subst.
Qed.

Lemma account_by_contact_absent db c :
  (forall a, In a (accounts db) -> Some (Account.contact a) <> c) ->
  account_by_contact c db = None.
Proof.
  intros Hno. apply find_all_false. intros a Ha.
  destruct (opt_str_eqb (Some (Account.contact a)) c) eqn:E; [|reflexivity].
  apply opt_str_eqb_eq in E. now apply Hno in E.
Qed.

Lemma account_by_contact_found db c a :
  account_by_contact c db = Some a ->
  In a (accounts db) /\ Some (Account.contact a) = c.
Proof.
  intros Hf. apply find_some in Hf. destruct Hf as [Hin E].
  split; [exact Hin|]. now apply opt_str_eqb_eq.
Qed.

Lemma staff_has_permission (current_user : Account.t) :
  Account.role current_user = "admin"
  \/ Account.role current_user = "teacher" ->
  app.no_permission current_user = false.
Proof.
  unfold app.no_permission. now intros [->| ->].
Qed.

Lemma insert_student_ok row s db db' :
  insert_student row db = (Ok s, db') ->
  s = row (students_seq db) /\ students db' = (students db ++ [s])%list
  /\ accounts db' = accounts db.
Proof.
  unfold insert_student.
  destruct (student_row_ok db (students db) (row (students_seq db)));
    [|discriminate].
  intros E. injection E as <- <-. now repeat split.
Qed.


Section AddStudentChecks.
#[local] Existing Instance Demo.env.


End AddStudentChecks.

(** ** Registration and login *)

(** *** What [strip] removes *)

Lemma join_chars (s : string) : join (chars s) = s.
Proof.
  induction s as [|b rest IH]; [reflexivity|].
  simpl. destruct (chars rest) as [|[|b' c] cs]; simpl in *.
  - now rewrite <- IH.
  - now rewrite <- IH.
  - destruct (is_continuation b'); simpl; now rewrite <- IH.
Qed.

Lemma lstrip_chars_spec (l : list string) :
  exists P,
    l = (P ++ lstrip_chars l)%list
    /\ Forall (fun c => isspace c = true) P
    /\ (forall c L, lstrip_chars l = c :: L -> isspace c = false).
Proof.
  induction l as [|c l IH]; simpl.
  - exists []. split; [reflexivity|]. split; [constructor|discriminate].
  - destruct (isspace c) eqn:Ec.
    + destruct IH as (P & Hl & HP & Hhd).
      exists (c :: P). split; [simpl; now rewrite <- Hl|].
      split; [now constructor|exact Hhd].
    + exists []. split; [reflexivity|]. split; [constructor|].
      intros c' L [= <- _]. exact Ec.
Qed.

Lemma rstrip_chars_spec (l : list string) :
  exists Q,
    l = (rstrip_chars l ++ Q)%list
    /\ Forall (fun c => isspace c = true) Q
    /\ (forall c T, rstrip_chars l = (T ++ [c])%list -> isspace c = false).
Proof.
  unfold rstrip_chars.
  destruct (lstrip_chars_spec (rev l)) as (P & Hl & HP & Hhd).
  exists (rev P). split; [|split].
  - rewrite <- rev_app_distr, <- Hl. now rewrite rev_involutive.
  - apply Forall_rev. exact HP.
  - intros c T HT. apply (Hhd c (rev T)).
    rewrite <- (rev_involutive (lstrip_chars (rev l))), HT.
    now rewrite rev_app_distr.
Qed.

Lemma strip_stripped (s : string) : stripped s (strip s).
Proof.
  unfold stripped, strip.
  destruct (lstrip_chars_spec (chars s)) as (P & Hs & HP & Hhd).
  destruct (rstrip_chars_spec (lstrip_chars (chars s)))
    as (Q & HL & HQ & Hlast).
  exists P, (rstrip_chars (lstrip_chars (chars s))), Q.
  split; [now rewrite <- HL|]. split; [reflexivity|].
  split; [exact HP|]. split; [exact HQ|]. split; [|exact Hlast].
  intros c T' HT. apply (Hhd c (T' ++ Q)%list).
  rewrite HL at 1. now rewrite HT.
Qed.

Lemma insert_account_ok row a db db' :
  insert_account row db = (Ok a, db') ->
  a = row (accounts_seq db) /\ accounts db' = (accounts db ++ [a])%list
  /\ students db' = students db /\ students_seq db' = students_seq db.
Proof.
  unfold insert_account.
  destruct (has_account db _ || existsb _ (accounts db)); [discriminate|].
  intros E. injection E as <- <-. now repeat split.
Qed.

(** C4.  A successful [register] appends exactly one account, the one its
    response names, whose full name is the submitted one without its
    leading and trailing white space.  With role "student" it also appends
    exactly one Student row, whose student number and email are the
    registered contact, whose name is that trimmed full name and whose
    [account_id] is the new account's id; with role "teacher" the students
    table is left as it was. *)
Theorem register_student_record {env : Env} now (data : UserRegister)
    (db db' : DB) (out : routes_auth.TokenOut) :
  routes_auth.register now data db = (Ok out, db') ->
  exists account,
    accounts db' = (accounts db ++ [account])%list
    /\ Account.id account = routes_auth.out_user_id out
    /\ Account.contact account = ur_contact data
    /\ Account.fullname account = strip (ur_fullname data)
    /\ stripped (ur_fullname data) (Account.fullname account)
    /\ (ur_role data = "student" ->
        exists s,
          students db' = (students db ++ [s])%list
          /\ Student.student_number s = ur_contact data
          /\ Student.email s = Some (ur_contact data)
          /\ Student.name s = Account.fullname account
          /\ stripped (ur_fullname data) (Student.name s)
          /\ Student.account_id s = Some (Account.id account))
    /\ (ur_role data = "teacher" -> students db' = students db).
Proof.
  unfold routes_auth.register, routes_auth.validate_role,
    routes_auth.hash_password, bind, raise_if, query, ret, raise.
  destruct (negb (str_in (ur_role data) ["student"; "teacher"]));
    [discriminate|].
  destruct (account_by_contact (Some (ur_contact data)) db); [discriminate|].
  destruct (negb (truthy_str (ur_password data)) || _); [discriminate|].
  destruct (insert_account _ db) as [[account|e] db1] eqn:Eacc;
    [|discriminate].
  apply insert_account_ok in Eacc.
  destruct Eacc as (Hacc & Haccs & Hst & Hseq).
  pose proof (strip_stripped (ur_fullname data)) as Hstrip.
  destruct (String.eqb (ur_role data) "student") eqn:Erole.
  - destruct (insert_student _ db1) as [[s|e] db2] eqn:Est; [|discriminate].
    apply insert_student_ok in Est. destruct Est as (Hs & Hsts & Haccs2).
    intros E. injection E as <- <-.
    exists account. rewrite Haccs2, Haccs, Hsts, Hst.
    split; [reflexivity|]. split; [reflexivity|].
    split; [now rewrite Hacc|]. split; [now rewrite Hacc|].
    split; [now rewrite Hacc|].
    split.
    + intros _. exists s. split; [reflexivity|].
      rewrite Hs. simpl. rewrite Hacc. simpl. now repeat split.
    + intros Ht. rewrite Ht in Erole. discriminate.
  - intros E. injection E as <- <-.
    exists account. rewrite Haccs, Hst.
    split; [reflexivity|]. split; [reflexivity|].
    split; [now rewrite Hacc|]. split; [now rewrite Hacc|].
    split; [now rewrite Hacc|].
    split.
    + intros Hs. rewrite Hs in Erole. discriminate.
    + reflexivity.
Qed.

Section RegisterChecks.
#[local] Existing Instance Demo.env.

Lemma register_student_record_witness :
  exists out db',
    routes_auth.register 100 Demo.zed_registration Demo.db = (Ok out, db')
    /\ exists account,
         accounts db' = (accounts Demo.db ++ [account])%list
         /\ Account.id account = routes_auth.out_user_id out
         /\ Account.contact account = "s9@x.com"
         /\ Account.fullname account = "Zed Poe"
         /\ (exists s,
               students db' = (students Demo.db ++ [s])%list
               /\ Student.student_number s = "s9@x.com"
               /\ Student.email s = Some "s9@x.com"
               /\ Student.name s = "Zed Poe"
               /\ Student.account_id s = Some (Account.id account)).
Proof.
  eexists. eexists. split; [reflexivity|].
  destruct (register_student_record (env := Demo.env) 100
              Demo.zed_registration Demo.db _ _ eq_refl)
    as (account & Haccs & Hid & Hc & Hname & _ & Hstudent & _).
  exists account.
  split; [exact Haccs|]. split; [exact Hid|]. split; [exact Hc|].
  split; [exact Hname|].
  destruct (Hstudent eq_refl) as (s & Hsts & Hnum & Hemail & Hsname & _ & Hl).
  exists s. split; [exact Hsts|]. split; [exact Hnum|].
  split; [exact Hemail|]. split; [|exact Hl].
  rewrite Hsname. exact Hname.
Defined.
End RegisterChecks.

Lemma account_by_contact_known db c a :
  In a (accounts db) -> Account.contact a = c ->
  exists a', account_by_contact (Some c) db = Some a'
             /\ In a' (accounts db) /\ Account.contact a' = c.
Proof.
  intros Hin Hc.
  destruct (find_exists (fun x => opt_str_eqb (Some (Account.contact x))
                                    (Some c)) (accounts db) a Hin)
    as [a' Ha'].
  { simpl. now apply String.eqb_eq. }
  exists a'. split; [exact Ha'|].
  apply account_by_contact_found in Ha'. destruct Ha' as [Hin' E].
  split; [exact Hin'|]. congruence.
Qed.

Section Login.
Context {env : Env}.

(** A login that leaves a field empty is refused before any lookup. *)
Lemma login_missing_field now (data : UserLogin) db :
  ul_contact data = "" \/ ul_password data = "" ->
  routes_auth.login now data db
  = (Raise (HTTPException 400 "Contact and password are required"), db).
Proof.
  unfold routes_auth.login, bind, raise_if, truthy_str.
  intros [-> | ->]; simpl; [reflexivity|].
  now rewrite orb_true_r.
Qed.

Lemma login_fields_present (data : UserLogin) :
  ul_contact data <> "" -> ul_password data <> "" ->
  negb (truthy_str (ul_contact data)) || negb (truthy_str (ul_password data))
  = false.
Proof.
  intros Hc Hp.
  now rewrite (truthy_str_nonempty _ Hc), (truthy_str_nonempty _ Hp).
Qed.
End Login.

(** C5 (as amended).  A login that supplies a non-empty contact and a
    non-empty password fails with 401 "Invalid credentials", the store
    untouched, both when no account has the contact and when the account
    that has it does not verify the password: the two failures are the
    same response. *)
Theorem login_invalid_credentials {env : Env} now (data : UserLogin) db :
  ul_contact data <> "" ->
  ul_password data <> "" ->
  ((forall a, In a (accounts db) -> Account.contact a <> ul_contact data) ->
   routes_auth.login now data db
   = (Raise (HTTPException 401 "Invalid credentials"), db))
  /\ (forall a,
        In a (accounts db) ->
        Account.contact a = ul_contact data ->
        (forall a', In a' (accounts db) ->
                    Account.contact a' = ul_contact data ->
                    pwd_verify (ul_password data) (Account.password_hash a')
                    = false) ->
        routes_auth.login now data db
        = (Raise (HTTPException 401 "Invalid credentials"), db)).
Proof.
  intros Hc Hp. split.
  - intros Hunknown.
    unfold routes_auth.login, bind, raise_if, query.
    rewrite (login_fields_present _ Hc Hp). simpl.
    rewrite account_by_contact_absent; [reflexivity|].
    intros a Ha E. apply (Hunknown a Ha). congruence.
  - intros a Ha Hca Hbad.
    unfold routes_auth.login, bind, raise_if, query.
    rewrite (login_fields_present _ Hc Hp). simpl.
    destruct (account_by_contact_known db _ a Ha Hca)
      as (a' & Hfind & Hin' & Hc').
    rewrite Hfind. unfold routes_auth.verify_password.
    now rewrite (Hbad a' Hin' Hc').
Qed.

Section LoginChecks.
#[local] Existing Instance Demo.env.

Lemma login_invalid_credentials_witness :
  routes_auth.login 100 Demo.nobody_login Demo.db
  = (Raise (HTTPException 401 "Invalid credentials"), Demo.db)
  /\ routes_auth.login 100 Demo.ann_wrong_password Demo.db
     = (Raise (HTTPException 401 "Invalid credentials"), Demo.db).
Proof.
  split.
  - apply (proj1 (login_invalid_credentials 100 Demo.nobody_login Demo.db
                    ltac:(discriminate) ltac:(discriminate))).
    simpl. intros a [<-|[<-|[<-|[<-|[]]]]]; simpl; discriminate.
  - apply (proj2 (login_invalid_credentials 100 Demo.ann_wrong_password
                    Demo.db ltac:(discriminate) ltac:(discriminate))
             Demo.ann_account).
    + simpl. tauto.
    + reflexivity.
    + simpl. intros a' [<-|[<-|[<-|[<-|[]]]]]; simpl;
        solve [discriminate | reflexivity].
Defined.

(** C5 (as stated) fails on an empty password: the contact is unknown, or
    known with a password that does not verify, and the answer is
    400 "Contact and password are required", not 401. *)
Lemma login_empty_password_counterexample :
  (forall a, In a (accounts Demo.db) ->
             Account.contact a <> ul_contact Demo.nobody_empty_password)
  /\ routes_auth.login 100 Demo.nobody_empty_password Demo.db
     = (Raise (HTTPException 400 "Contact and password are required"),
        Demo.db)
  /\ routes_auth.login 100 Demo.nobody_empty_password Demo.db
     <> (Raise (HTTPException 401 "Invalid credentials"), Demo.db)
  /\ account_by_contact (Some "s1@x.com") Demo.db = Some Demo.ann_account
  /\ routes_auth.verify_password ""
       (Account.password_hash Demo.ann_account) = false
  /\ routes_auth.login 100 {| ul_contact := "s1@x.com"; ul_password := "" |}
       Demo.db
     = (Raise (HTTPException 400 "Contact and password are required"),
        Demo.db).
Proof.
  split.
  - simpl. intros a [<-|[<-|[<-|[<-|[]]]]]; simpl; discriminate.
  - split; [reflexivity|]. split; [|repeat split].
    vm_compute. discriminate.
Defined.
End LoginChecks.

(** C6 (as amended).  A [register] call whose contact already belongs to
    an account fails with status 400 and leaves the store as it was: no
    account and no Student row is added.  When the role asked for is
    "student" or "teacher" the detail is "Contact already registered"; for
    any other role the role check, which runs first, answers
    "Role must be 'student' or 'teacher'". *)
Theorem register_duplicate_contact {env : Env} now (data : UserRegister)
    db a :
  In a (accounts db) ->
  Account.contact a = ur_contact data ->
  (ur_role data = "student" \/ ur_role data = "teacher" ->
   routes_auth.register now data db
   = (Raise (HTTPException 400 "Contact already registered"), db))
  /\ (ur_role data <> "student" -> ur_role data <> "teacher" ->
      routes_auth.register now data db
      = (Raise (HTTPException 400 "Role must be 'student' or 'teacher'"),
         db)).
Proof.
  intros Hin Hc.
  unfold routes_auth.register, routes_auth.validate_role, bind, raise_if,
    query.
  split.
  - intros Hrole.
    assert (Hvalid : negb (str_in (ur_role data) ["student"; "teacher"])
                     = false)
      by (now destruct Hrole as [-> | ->]).
    rewrite Hvalid. simpl.
    destruct (account_by_contact_known db _ a Hin Hc) as (a' & Hfind & _).
    now rewrite Hfind.
  - intros Hs Ht. unfold str_in. simpl.
    apply String.eqb_neq in Hs, Ht. now rewrite Hs, Ht.
Qed.

Section DuplicateChecks.
#[local] Existing Instance Demo.env.

Lemma register_duplicate_contact_witness :
  routes_auth.register 100 Demo.ann_again Demo.db
  = (Raise (HTTPException 400 "Contact already registered"), Demo.db)
  /\ routes_auth.register 100 Demo.admin_registration Demo.db
     = (Raise (HTTPException 400 "Role must be 'student' or 'teacher'"),
        Demo.db).
Proof.
  split.
  - apply (proj1 (register_duplicate_contact 100 Demo.ann_again Demo.db
                    Demo.ann_account ltac:(simpl; tauto) eq_refl)).
    left. reflexivity.
  - apply (proj2 (register_duplicate_contact 100 Demo.admin_registration
                    Demo.db Demo.ann_account ltac:(simpl; tauto) eq_refl));
      discriminate.
Defined.

(** C6 (as stated) fails when the role is not one that may self-register:
    the contact is taken, and the call is refused for its role, the role
    check running first. *)
Lemma register_admin_role_counterexample :
  In Demo.ann_account (accounts Demo.db)
  /\ Account.contact Demo.ann_account = ur_contact Demo.admin_registration
  /\ routes_auth.register 100 Demo.admin_registration Demo.db
     = (Raise (HTTPException 400 "Role must be 'student' or 'teacher'"),
        Demo.db)
  /\ routes_auth.register 100 Demo.admin_registration Demo.db
     <> (Raise (HTTPException 400 "Contact already registered"), Demo.db).
Proof.
  split; [simpl; tauto|]. split; [reflexivity|]. split; [reflexivity|].
  vm_compute. discriminate.
Defined.
End DuplicateChecks.

(** ** Updates and deletions: existence first, permission second *)

Lemma other_role_no_permission (current_user : Account.t) :
  Account.role current_user <> "admin" ->
  Account.role current_user <> "teacher" ->
  app.no_permission current_user = true.
Proof.
  intros Ha Ht. unfold app.no_permission, str_in. simpl.
  apply String.eqb_neq in Ha, Ht. now rewrite Ha, Ht.
Qed.

Section ById.
Variables (A : Type) (key : A -> Z) (l : list A) (i : Z).

Lemma by_id_absent :
  (forall x, In x l -> key x <> i) -> find (fun x => key x =? i) l = None.
Proof.
  intros Hno. apply find_all_false. intros x Hx.
  apply Z.eqb_neq. now apply Hno.
Qed.

Lemma by_id_present x :
  In x l -> key x = i -> exists y, find (fun x => key x =? i) l = Some y.
Proof.
  intros Hin Hk. apply find_exists with (x := x); [exact Hin|].
  now apply Z.eqb_eq.
Qed.
End ById.

(** How a handler that starts with
    [x = q.first(); if not x: raise 404; if no permission: raise 403]
    ends in the two cases of interest. *)
Lemma lookup_then_gate {A B} (q : DB -> option A) (k : A -> M B)
    (current_user : Account.t) not_found db :
  let h := x <- first_or_raise q not_found ;;
           raise_if (app.no_permission current_user)
             (HTTPException 403 "No permission") ;;;
           k x in
  (q db = None -> h db = (Raise not_found, db))
  /\ ((exists x, q db = Some x) ->
      app.no_permission current_user = true ->
      h db = (Raise (HTTPException 403 "No permission"), db)).
Proof.
  simpl. unfold bind, first_or_raise, raise_if. split.
  - now intros ->.
  - intros [x ->] ->. reflexivity.
Qed.

(** C7.  [PUT] and [DELETE] on students, exams and results: when no row has
    the target id the handler fails with 404, whoever is calling; when a
    row has it and the caller is neither admin nor teacher the handler
    fails with 403.  Either way the store is left as it was. *)
Theorem mutation_checks_existence_first (current_user : Account.t)
    (db : DB) (target : Z) :
  ((forall s, In s (students db) -> Student.id s <> target) ->
   (forall student,
      app.update_student target student current_user db
      = (Raise (HTTPException 404 "Student not found"), db))
   /\ app.delete_student target current_user db
      = (Raise (HTTPException 404 "Student not found"), db))
  /\ ((forall e, In e (exams db) -> Exam.id e <> target) ->
      (forall exam,
         app.update_exam target exam current_user db
         = (Raise (HTTPException 404 "Exam not found"), db))
      /\ app.delete_exam target current_user db
         = (Raise (HTTPException 404 "Exam not found"), db))
  /\ ((forall r, In r (results db) -> Result.id r <> target) ->
      (forall result,
         app.update_result target result current_user db
         = (Raise (HTTPException 404 "Result not found"), db))
      /\ app.delete_result target current_user db
         = (Raise (HTTPException 404 "Result not found"), db))
  /\ (Account.role current_user <> "admin" ->
      Account.role current_user <> "teacher" ->
      ((exists s, In s (students db) /\ Student.id s = target) ->
       (forall student,
          app.update_student target student current_user db
          = (Raise (HTTPException 403 "No permission"), db))
       /\ app.delete_student target current_user db
          = (Raise (HTTPException 403 "No permission"), db))
      /\ ((exists e, In e (exams db) /\ Exam.id e = target) ->
          (forall exam,
             app.update_exam target exam current_user db
             = (Raise (HTTPException 403 "No permission"), db))
          /\ app.delete_exam target current_user db
             = (Raise (HTTPException 403 "No permission"), db))
      /\ ((exists r, In r (results db) /\ Result.id r = target) ->
          (forall result,
             app.update_result target result current_user db
             = (Raise (HTTPException 403 "No permission"), db))
          /\ app.delete_result target current_user db
             = (Raise (HTTPException 403 "No permission"), db))).
Proof.
  split; [|split; [|split]].
  - intros Hno.
    assert (Hq : student_by_id target db = None) by now apply by_id_absent.
    split; [intros student|]; now apply lookup_then_gate.
  - intros Hno.
    assert (Hq : exam_by_id target db = None) by now apply by_id_absent.
    split; [intros exam|]; now apply lookup_then_gate.
  - intros Hno.
    assert (Hq : result_by_id target db = None) by now apply by_id_absent.
    split; [intros result|]; now apply lookup_then_gate.
  - intros Ha Ht.
    pose proof (other_role_no_permission _ Ha Ht) as Hperm.
    split; [|split].
    + intros (s & Hin & Hid).
      assert (Hq : exists y, student_by_id target db = Some y)
        by now apply by_id_present with (x := s).
      split; [intros student|]; now apply lookup_then_gate.
    + intros (e & Hin & Hid).
      assert (Hq : exists y, exam_by_id target db = Some y)
        by now apply by_id_present with (x := e).
      split; [intros exam|]; now apply lookup_then_gate.
    + intros (r & Hin & Hid).
      assert (Hq : exists y, result_by_id target db = Some y)
        by now apply by_id_present with (x := r).
      split; [intros result|]; now apply lookup_then_gate.
Qed.

Section MutationChecks.
#[local] Existing Instance Demo.env.

Lemma mutation_checks_existence_first_witness :
  (app.delete_student 99 Demo.ann_account Demo.db
   = (Raise (HTTPException 404 "Student not found"), Demo.db)
   /\ app.delete_exam 99 Demo.admin Demo.db
      = (Raise (HTTPException 404 "Exam not found"), Demo.db)
   /\ app.delete_result 99 Demo.teacher Demo.db
      = (Raise (HTTPException 404 "Result not found"), Demo.db))
  /\ (app.update_student 1 Demo.ann_update Demo.ann_account Demo.db
      = (Raise (HTTPException 403 "No permission"), Demo.db)
      /\ app.delete_exam 1 Demo.ann_account Demo.db
         = (Raise (HTTPException 403 "No permission"), Demo.db)
      /\ app.delete_result 1 Demo.ann_account Demo.db
         = (Raise (HTTPException 403 "No permission"), Demo.db)).
Proof.
  split; [split; [|split]|].
  - apply (proj1 (mutation_checks_existence_first Demo.ann_account Demo.db
                    99)).
    simpl. intros s [<-|[<-|[]]]; simpl; lia.
  - apply (proj1 (proj2 (mutation_checks_existence_first Demo.admin Demo.db
                           99))).
    simpl. intros e [<-|[<-|[]]]; simpl; lia.
  - apply (proj1 (proj2 (proj2 (mutation_checks_existence_first Demo.teacher
                                  Demo.db 99)))).
    simpl. intros r [<-|[<-|[<-|[]]]]; simpl; lia.
  - pose proof (proj2 (proj2 (proj2 (mutation_checks_existence_first
                                       Demo.ann_account Demo.db 1)))
                  ltac:(discriminate) ltac:(discriminate)) as (Hs & He & Hr).
    split; [|split].
    + apply Hs. exists Demo.ann. simpl. tauto.
    + apply He. exists Demo.midterm. simpl. tauto.
    + apply Hr. exists Demo.r1. simpl. tauto.
Defined.
End MutationChecks.

(** ** Writing results: student before exam *)

Lemma student_query_present db i s :
  student_by_id i db = Some s ->
  exists s, In s (students db) /\ Student.id s = i.
Proof.
  intros Hf. apply find_some in Hf. destruct Hf as [Hin E].
  exists s. split; [exact Hin|]. now apply Z.eqb_eq.
Qed.

Lemma exam_query_present db i e :
  exam_by_id i db = Some e ->
  exists e, In e (exams db) /\ Exam.id e = i.
Proof.
  intros Hf. apply find_some in Hf. destruct Hf as [Hin E].
  exists e. split; [exact Hin|]. now apply Z.eqb_eq.
Qed.

Section ResultWrites.
Variables (current_user : Account.t) (result : ResultCreate) (db : DB).
Hypothesis staff :
  Account.role current_user = "admin"
  \/ Account.role current_user = "teacher".

(** The two checks shared by [add_result] and [update_result], followed by
    any write [k]. *)
Lemma student_then_exam {B} (k : Student.t -> Exam.t -> M B) :
  let h :=
    student <- first_or_raise (student_by_id (rc_student_id result))
                 (HTTPException 404 "Student not found") ;;
    exam <- first_or_raise (exam_by_id (rc_exam_id result))
              (HTTPException 404 "Exam not found") ;;
    k student exam in
  ((forall s, In s (students db) -> Student.id s <> rc_student_id result) ->
   h db = (Raise (HTTPException 404 "Student not found"), db))
  /\ ((exists s, In s (students db)
                 /\ Student.id s = rc_student_id result) ->
      (forall e, In e (exams db) -> Exam.id e <> rc_exam_id result) ->
      h db = (Raise (HTTPException 404 "Exam not found"), db))
  /\ (forall out db',
        h db = (Ok out, db') ->
        (exists s, In s (students db)
                   /\ Student.id s = rc_student_id result)
        /\ (exists e, In e (exams db) /\ Exam.id e = rc_exam_id result)).
Proof.
  simpl. unfold bind, first_or_raise. split; [|split].
  - intros Hs. unfold student_by_id. now rewrite by_id_absent.
  - intros (s & Hin & Hid) He.
    destruct (by_id_present _ Student.id (students db) _ s Hin Hid)
      as [s' Hs'].
    unfold student_by_id, exam_by_id. rewrite Hs'. now rewrite by_id_absent.
  - intros out db'.
    destruct (student_by_id _ db) as [s|] eqn:Es; [|discriminate].
    destruct (exam_by_id _ db) as [e|] eqn:Ee; [|discriminate].
    intros _. split; [now apply student_query_present with s
                     |now apply exam_query_present with e].
Qed.

Lemma add_result_gate now :
  app.add_result now result current_user db
  = (student <- first_or_raise (student_by_id (rc_student_id result))
                  (HTTPException 404 "Student not found") ;;
     exam <- first_or_raise (exam_by_id (rc_exam_id result))
               (HTTPException 404 "Exam not found") ;;
     new_result <- insert_result (fun id =>
       Result.mk id (Student.id student) (Exam.id exam) (rc_score result)
         now) ;;
     app.result_out new_result) db.
Proof.
  unfold app.add_result at 1, bind at 1, raise_if.
  now rewrite (staff_has_permission _ staff).
Qed.

Lemma update_result_gate target r :
  result_by_id target db = Some r ->
  app.update_result target result current_user db
  = (student <- first_or_raise (student_by_id (rc_student_id result))
                  (HTTPException 404 "Student not found") ;;
     exam <- first_or_raise (exam_by_id (rc_exam_id result))
               (HTTPException 404 "Exam not found") ;;
     r' <- update_result_row
             (Result.mk (Result.id r) (Student.id student) (Exam.id exam)
                (rc_score result) (Result.taken_at r)) ;;
     app.result_out r') db.
Proof.
  intros Hr.
  unfold app.update_result at 1, bind at 1, first_or_raise at 1.
  rewrite Hr. unfold bind at 1, raise_if.
  now rewrite (staff_has_permission _ staff).
Qed.
End ResultWrites.

(** C8 (as amended).  For an admin or a teacher, creating a result, and
    updating a result that exists, checks the referenced student before the
    referenced exam: with no such student the handler fails with
    404 "Student not found" (whether or not the exam exists); with the
    student present and no such exam it fails with 404 "Exam not found";
    and it succeeds only if both exist.  The failures leave the store as it
    was. *)
Theorem result_write_checks_student_first now (current_user : Account.t)
    (result : ResultCreate) (db : DB) :
  Account.role current_user = "admin"
  \/ Account.role current_user = "teacher" ->
  (((forall s, In s (students db) ->
               Student.id s <> rc_student_id result) ->
    app.add_result now result current_user db
    = (Raise (HTTPException 404 "Student not found"), db))
   /\ ((exists s, In s (students db)
                  /\ Student.id s = rc_student_id result) ->
       (forall e, In e (exams db) -> Exam.id e <> rc_exam_id result) ->
       app.add_result now result current_user db
       = (Raise (HTTPException 404 "Exam not found"), db))
   /\ (forall out db',
         app.add_result now result current_user db = (Ok out, db') ->
         (exists s, In s (students db)
                    /\ Student.id s = rc_student_id result)
         /\ (exists e, In e (exams db) /\ Exam.id e = rc_exam_id result)))
  /\ (forall target,
        (exists r, In r (results db) /\ Result.id r = target) ->
        ((forall s, In s (students db) ->
                    Student.id s <> rc_student_id result) ->
         app.update_result target result current_user db
         = (Raise (HTTPException 404 "Student not found"), db))
        /\ ((exists s, In s (students db)
                       /\ Student.id s = rc_student_id result) ->
            (forall e, In e (exams db) -> Exam.id e <> rc_exam_id result) ->
            app.update_result target result current_user db
            = (Raise (HTTPException 404 "Exam not found"), db))
        /\ (forall out db',
              app.update_result target result current_user db
              = (Ok out, db') ->
              (exists s, In s (students db)
                         /\ Student.id s = rc_student_id result)
              /\ (exists e, In e (exams db)
                            /\ Exam.id e = rc_exam_id result))).
Proof.
  intros Hstaff. split.
  - rewrite (add_result_gate _ _ _ Hstaff). apply student_then_exam.
  - intros target (r & Hin & Hid).
    destruct (by_id_present _ Result.id (results db) _ r Hin Hid)
      as [r' Hr'].
    rewrite (update_result_gate _ _ _ Hstaff target r' Hr').
    apply student_then_exam.
Qed.

Section ResultWriteChecks.
#[local] Existing Instance Demo.env.

Lemma result_write_checks_student_first_witness :
  app.add_result 100 Demo.dangling_result Demo.teacher Demo.db
  = (Raise (HTTPException 404 "Student not found"), Demo.db)
  /\ app.add_result 100 Demo.examless_result Demo.teacher Demo.db
     = (Raise (HTTPException 404 "Exam not found"), Demo.db)
  /\ app.update_result 2 Demo.dangling_result Demo.teacher Demo.db
     = (Raise (HTTPException 404 "Student not found"), Demo.db)
  /\ app.update_result 2 Demo.examless_result Demo.teacher Demo.db
     = (Raise (HTTPException 404 "Exam not found"), Demo.db).
Proof.
  pose proof (result_write_checks_student_first 100 Demo.teacher
                Demo.dangling_result Demo.db (or_intror eq_refl))
    as [(Hadd & _) Hupd].
  pose proof (result_write_checks_student_first 100 Demo.teacher
                Demo.examless_result Demo.db (or_intror eq_refl))
    as [(_ & Hadd' & _) Hupd'].
  assert (Hr2 : exists r, In r (results Demo.db) /\ Result.id r = 2)
    by (exists Demo.r2; simpl; tauto).
  assert (Hno77 : forall s, In s (students Demo.db) -> Student.id s <> 77)
    by (simpl; intros s [<-|[<-|[]]]; simpl; lia).
  assert (Hno78 : forall e, In e (exams Demo.db) -> Exam.id e <> 78)
    by (simpl; intros e [<-|[<-|[]]]; simpl; lia).
  assert (Hs1 : exists s, In s (students Demo.db) /\ Student.id s = 1)
    by (exists Demo.ann; simpl; tauto).
  split; [exact (Hadd Hno77)|].
  split; [exact (Hadd' Hs1 Hno78)|].
  split.
  - exact (proj1 (Hupd 2 Hr2) Hno77).
  - exact (proj1 (proj2 (Hupd' 2 Hr2)) Hs1 Hno78).
Defined.

(** C8 (as stated) fails on the update of a result that does not exist:
    the caller is the admin, the referenced student and exam are both
    missing, and the answer is 404 "Result not found". *)
Lemma update_missing_result_counterexample :
  Account.role Demo.admin = "admin"
  /\ (forall s, In s (students Demo.db) ->
                Student.id s <> rc_student_id Demo.dangling_result)
  /\ (forall e, In e (exams Demo.db) ->
                Exam.id e <> rc_exam_id Demo.dangling_result)
  /\ app.update_result 99 Demo.dangling_result Demo.admin Demo.db
     = (Raise (HTTPException 404 "Result not found"), Demo.db)
  /\ app.update_result 99 Demo.dangling_result Demo.admin Demo.db
     <> (Raise (HTTPException 404 "Student not found"), Demo.db).
Proof.
  split; [reflexivity|]. split.
  - simpl. intros s [<-|[<-|[]]]; simpl; lia.
  - split.
    + simpl. intros e [<-|[<-|[]]]; simpl; lia.
    + split; [reflexivity|]. vm_compute. discriminate.
Defined.
End ResultWriteChecks.

(** ** Issuing and verifying tokens *)

Section Tokens.
Context {env : Env}.

Lemma jwt_round_trip (c : Claims) (key : string) now :
  match exp c with Some e => now <= e | None => True end ->
  jwt_decode now (jwt_encode c key) key = Some c.
Proof.
  unfold jwt_decode, jwt_encode. rewrite String.eqb_refl.
  destruct (exp c) as [e|]; [|reflexivity].
  intros Hle. destruct (e <? now) eqn:E; [|reflexivity].
  apply Z.ltb_lt in E. lia.
Qed.

Lemma jwt_expired (c : Claims) (key : string) now e :
  exp c = Some e -> e < now ->
  jwt_decode now (jwt_encode c key) key = None.
Proof.
  unfold jwt_decode, jwt_encode. rewrite String.eqb_refl.
  intros -> Hlt. apply Z.ltb_lt in Hlt. now rewrite Hlt.
Qed.

(** The token of [auth_utils.py] carries the four claims, expires after
    the lifetime [expires_delta or timedelta(minutes=...)] and, until
    then, decodes under the same key to the claims it was issued with. *)
Lemma auth_utils_token_round_trip now uid contact r expires_delta now' :
  let ttl :=
    timedelta_or expires_delta (minutes ACCESS_TOKEN_EXPIRE_MINUTES) in
  let issued :=
    {| sub := Some contact; user_id := Some uid; role := Some r;
       exp := Some (now + ttl) |} in
  get_unverified_claims
    (auth_utils.create_access_token now uid contact r expires_delta)
  = Some issued
  /\ (now' <= now + ttl ->
      jwt_decode now'
        (auth_utils.create_access_token now uid contact r expires_delta)
        SECRET_KEY
      = Some issued).
Proof.
  intros ttl issued. split; [reflexivity|].
  intros Hle. exact (jwt_round_trip issued SECRET_KEY now' Hle).
Qed.

(** The same for the token [register] and [login] of [routes/auth.py]
    hand out, which is always issued with the default lifetime. *)
Lemma routes_auth_token_round_trip now (account : Account.t) now' :
  let issued :=
    {| sub := Some (Account.contact account);
       user_id := Some (Account.id account);
       role := Some (Account.role account);
       exp := Some (now + minutes ACCESS_TOKEN_EXPIRE_MINUTES) |} in
  now' <= now + minutes ACCESS_TOKEN_EXPIRE_MINUTES ->
  jwt_decode now'
    (routes_auth.access_token (routes_auth.token_for now account))
    SECRET_KEY
  = Some issued.
Proof.
  intros issued Hle. exact (jwt_round_trip issued SECRET_KEY now' Hle).
Qed.
End Tokens.

(** C9, at a zero lifetime.  Asked for [expires_delta = timedelta(0)], the
    [create_access_token] of [auth_utils.py] and of [routes/auth.py] issue
    the very token they issue when no lifetime is given: its [exp] claim
    is [now] plus the default lifetime, not [now].  The
    [create_access_token] of [app.py] does embed [exp = now] for a zero
    lifetime. *)
Theorem create_access_token_zero_delta {env : Env} now uid contact r
    (data : Claims) :
  auth_utils.create_access_token now uid contact r (Some 0)
  = auth_utils.create_access_token now uid contact r None
  /\ get_unverified_claims
       (auth_utils.create_access_token now uid contact r (Some 0))
     = Some {| sub := Some contact; user_id := Some uid; role := Some r;
               exp := Some (now + 60 * ACCESS_TOKEN_EXPIRE_MINUTES) |}
  /\ get_unverified_claims
       (routes_auth.create_access_token now data (Some 0))
     = Some {| sub := sub data; user_id := user_id data; role := role data;
               exp := Some (now + 60 * ACCESS_TOKEN_EXPIRE_MINUTES) |}
  /\ get_unverified_claims (app.create_access_token now data 0)
     = Some {| sub := sub data; user_id := user_id data; role := role data;
               exp := Some now |}.
Proof.
  repeat split.
  unfold app.create_access_token, jwt_encode, minutes. simpl.
  now rewrite Z.add_0_r.
Qed.

Section TokenChecks.
#[local] Existing Instance Demo.env.

(** With the default settings: issued at second 100 for a zero lifetime,
    the token expires at second 1900 and is still accepted at second
    1000. *)
Lemma zero_delta_token_outlives_request :
  get_unverified_claims
    (auth_utils.create_access_token 100 3 "s1@x.com" "student" (Some 0))
  = Some {| sub := Some "s1@x.com"; user_id := Some 3;
            role := Some "student"; exp := Some 1900 |}
  /\ jwt_decode 1000
       (auth_utils.create_access_token 100 3 "s1@x.com" "student" (Some 0))
       SECRET_KEY
     = Some {| sub := Some "s1@x.com"; user_id := Some 3;
               role := Some "student"; exp := Some 1900 |}.
Proof.
  split; reflexivity.
Defined.
End TokenChecks.

(** ** Updating a student: what changes and what does not *)

Lemma NoDup_key_inj {A} (key : A -> Z) (l : list A) x y :
  NoDup (map key l) -> In x l -> In y l -> key x = key y -> x = y.
Proof.
  induction l as [|a l IH]; simpl; intros Hnd Hx Hy Hk; [contradiction|].
  inversion Hnd as [|k ks Hnotin Hnd']; subst.
  destruct Hx as [->|Hx], Hy as [->|Hy].
  - reflexivity.
  - exfalso. apply Hnotin. rewrite Hk. now apply in_map.
  - exfalso. apply Hnotin. rewrite <- Hk. now apply in_map.
  - now apply IH.
Qed.

Lemma Forall2_map_self {A} (R : A -> A -> Prop) (f : A -> A) (l : list A) :
  (forall x, In x l -> R x (f x)) -> Forall2 R l (map f l).
Proof.
  induction l as [|a l IH]; simpl; intros HR; constructor.
  - apply HR. now left.
  - apply IH. intros x Hx. apply HR. now right.
Qed.

(** C10.  After a successful [PUT /students/{student_id}] the accounts,
    exams and results tables are what they were, and so is every Student
    row but the target; the target keeps its id, its account link and its
    creation time and takes its student number, name, email, age and grade
    from the request.  The row returned is the target as stored. *)
Theorem update_student_frame (student_id : Z) (student : StudentCreate)
    (current_user : Account.t) (db db' : DB) (s' : Student.t) :
  NoDup (map Student.id (students db)) ->
  app.update_student student_id student current_user db = (Ok s', db') ->
  accounts db' = accounts db
  /\ exams db' = exams db
  /\ results db' = results db
  /\ Forall2 (student_row_after student_id student)
       (students db) (students db')
  /\ In s' (students db')
  /\ Student.id s' = student_id.
Proof.
  intros Hpk.
  unfold app.update_student, bind, raise_if, first_or_raise.
  destruct (student_by_id student_id db) as [s|] eqn:Es; [|discriminate].
  destruct (app.no_permission current_user); [discriminate|]. simpl.
  unfold update_student_row.
  destruct (student_row_ok db _ _); [|discriminate].
  intros E. injection E as <- <-. simpl.
  apply find_some in Es. destruct Es as [Hin Hid].
  apply Z.eqb_eq in Hid.
  split; [reflexivity|]. split; [reflexivity|]. split; [reflexivity|].
  split; [|split].
  - apply Forall2_map_self. intros x Hx. unfold student_row_after.
    rewrite Hid. destruct (Student.id x =? student_id) eqn:Ex;
      [|reflexivity].
    apply Z.eqb_eq in Ex.
    assert (x = s) as -> by (apply (NoDup_key_inj Student.id (students db));
                             auto; congruence).
    now repeat split.
  - apply in_map_iff. exists s. split; [|exact Hin].
    now rewrite Hid, Z.eqb_refl.
  - exact Hid.
Qed.

Section UpdateStudentChecks.
#[local] Existing Instance Demo.env.

Lemma update_student_frame_witness :
  exists s' db',
    app.update_student 1 Demo.ann_update Demo.admin Demo.db = (Ok s', db')
    /\ accounts db' = accounts Demo.db
    /\ exams db' = exams Demo.db
    /\ results db' = results Demo.db
    /\ Forall2 (student_row_after 1 Demo.ann_update)
         (students Demo.db) (students db')
    /\ In s' (students db')
    /\ Student.id s' = 1.
Proof.
  eexists. eexists. split.
  - reflexivity.
  - apply (update_student_frame 1 Demo.ann_update Demo.admin Demo.db).
    + simpl. repeat constructor; simpl; intuition lia.
    + reflexivity.
Defined.
End UpdateStudentChecks.

(** * Further properties of the handlers *)

(** ** Which operations write, and when *)

Section Effects.
Context {A B : Type}.

Lemma read_only_ret (a : A) : read_only (ret a).
Proof. now intros db. Qed.

Lemma read_only_raise e : read_only (@raise A e).
Proof. now intros db. Qed.

Lemma read_only_query (q : DB -> A) : read_only (query q).
Proof. now intros db. Qed.

Lemma read_only_first_or_raise (q : DB -> option A) e :
  read_only (first_or_raise q e).
Proof. intros db. unfold first_or_raise. now destruct (q db). Qed.

Lemma read_only_bind (m : M A) (k : A -> M B) :
  read_only m -> (forall a, read_only (k a)) -> read_only (bind m k).
Proof.
  intros Hm Hk db. unfold bind. specialize (Hm db).
  destruct (m db) as [[a|e] db1]; simpl in Hm; subst db1;
    [apply Hk|reflexivity].
Qed.

Lemma read_only_fails_clean (m : M A) : read_only m -> fails_clean m.
Proof.
  intros Hm db e db' E. specialize (Hm db). rewrite E in Hm.
  now symmetry.
Qed.

(** Reads first, the one write last. *)
Lemma fails_clean_bind (m : M A) (k : A -> M B) :
  read_only m -> (forall a, fails_clean (k a)) -> fails_clean (bind m k).
Proof.
  intros Hm Hk db e db'. unfold bind. specialize (Hm db).
  destruct (m db) as [[a|e1] db1]; simpl in Hm; subst db1.
  - apply Hk.
  - now intros [= _ <-].
Qed.

(** A write followed by a step that neither raises nor writes. *)
Lemma fails_clean_then (m : M A) (k : A -> M B) :
  fails_clean m ->
  (forall a db db', m db = (Ok a, db') -> exists b, k a db' = (Ok b, db')) ->
  fails_clean (bind m k).
Proof.
  intros Hm Hk db e db'. unfold bind.
  destruct (m db) as [[a|e1] db1] eqn:E.
  - destruct (Hk a db db1 E) as [b ->]. discriminate.
  - intros [= _ <-]. now apply Hm with e1.
Qed.
End Effects.

Lemma read_only_raise_if c e : read_only (raise_if c e).
Proof. intros db. unfold raise_if. now destruct c. Qed.

Lemma fails_clean_fmap {A B} (f : A -> B) (m : M A) :
  fails_clean m -> fails_clean (app.fmap f m).
Proof.
  intros Hm. unfold app.fmap. apply fails_clean_then; [exact Hm|].
  intros a db db' _. now exists (f a).
Qed.

Lemma read_only_fmap {A B} (f : A -> B) (m : M A) :
  read_only m -> read_only (app.fmap f m).
Proof.
  intros Hm. unfold app.fmap. apply read_only_bind; [exact Hm|].
  intros a. apply read_only_ret.
Qed.

Create HintDb effects.
#[local] Hint Resolve read_only_ret read_only_raise read_only_query
  read_only_first_or_raise read_only_raise_if read_only_fails_clean
  : effects.

(** Each commit either goes through or leaves the database alone. *)
Lemma insert_account_clean row : fails_clean (insert_account row).
Proof.
  intros db e db'. unfold insert_account.
  destruct (has_account db _ || _); [|discriminate]. now intros [= _ <-].
Qed.

Lemma insert_student_clean row : fails_clean (insert_student row).
Proof.
  intros db e db'. unfold insert_student.
  destruct (student_row_ok db _ _); [discriminate|]. now intros [= _ <-].
Qed.

Lemma insert_exam_clean row : fails_clean (insert_exam row).
Proof.
  intros db e db'. unfold insert_exam.
  destruct (has_exam db _); [|discriminate]. now intros [= _ <-].
Qed.

Lemma insert_result_clean row : fails_clean (insert_result row).
Proof.
  intros db e db'. unfold insert_result.
  destruct (result_row_ok db _ _); [discriminate|]. now intros [= _ <-].
Qed.

Lemma update_student_row_clean s : fails_clean (update_student_row s).
Proof.
  intros db e db'. unfold update_student_row.
  destruct (student_row_ok db _ _); [discriminate|]. now intros [= _ <-].
Qed.

Lemma update_exam_row_clean e : fails_clean (update_exam_row e).
Proof. intros db e' db'. unfold update_exam_row. discriminate. Qed.

Lemma update_result_row_clean r : fails_clean (update_result_row r).
Proof.
  intros db e db'. unfold update_result_row.
  destruct (result_row_ok db _ _); [discriminate|]. now intros [= _ <-].
Qed.

Lemma delete_student_row_clean s : fails_clean (delete_student_row s).
Proof.
  intros db e db'. unfold delete_student_row.
  destruct (existsb _ (results db)); [|discriminate]. now intros [= _ <-].
Qed.

Lemma delete_exam_row_clean e : fails_clean (delete_exam_row e).
Proof.
  intros db e' db'. unfold delete_exam_row.
  destruct (existsb _ (results db)); [|discriminate]. now intros [= _ <-].
Qed.

Lemma delete_result_row_clean r : fails_clean (delete_result_row r).
Proof. intros db e db'. unfold delete_result_row. discriminate. Qed.

#[local] Hint Resolve insert_account_clean insert_student_clean
  insert_exam_clean insert_result_clean update_student_row_clean
  update_exam_row_clean update_result_row_clean delete_student_row_clean
  delete_exam_row_clean delete_result_row_clean : effects.

Lemma existsb_find {A} (f : A -> bool) (l : list A) :
  existsb f l = true -> exists x, find f l = Some x.
Proof.
  induction l as [|a l IH]; simpl; [discriminate|].
  destruct (f a); [now exists a|]. exact IH.
Qed.

(** A result row whose references resolve renders without error. *)
Lemma result_out_ok db (r : Result.t) :
  has_student db (Result.student_id r) = true ->
  has_exam db (Result.exam_id r) = true ->
  exists s e,
    student_by_id (Result.student_id r) db = Some s
    /\ exam_by_id (Result.exam_id r) db = Some e
    /\ app.result_out r db
       = (Ok {| ro_id := Result.id r;
                ro_student_id := Result.student_id r;
                ro_student_name := Student.name s;
                ro_exam_id := Result.exam_id r;
                ro_exam_title := Exam.title e;
                ro_score := Result.score r |}, db).
Proof.
  intros Hs He.
  apply existsb_find in Hs. destruct Hs as [s Hs].
  apply existsb_find in He. destruct He as [e He].
  exists s, e. split; [exact Hs|]. split; [exact He|].
  unfold app.result_out, bind, query, app.result_student, app.result_exam,
    student_by_id, exam_by_id.
  now rewrite Hs, He.
Qed.

Lemma insert_result_ok row r db db' :
  insert_result row db = (Ok r, db') ->
  r = row (results_seq db)
  /\ db' = set_results db (results db ++ [r])%list (results_seq db + 1)
  /\ has_student db (Result.student_id r) = true
  /\ has_exam db (Result.exam_id r) = true.
Proof.
  unfold insert_result.
  destruct (result_row_ok db _ _) eqn:Eok; [|discriminate].
  intros [= <- <-]. split; [reflexivity|]. split; [reflexivity|].
  unfold result_row_ok in Eok.
  apply andb_true_iff in Eok. destruct Eok as [Eok He].
  apply andb_true_iff in Eok. now destruct Eok as [_ Hs].
Qed.

Lemma update_result_row_ok r r' db db' :
  update_result_row r db = (Ok r', db') ->
  r' = r
  /\ db' = set_results db
             (map (fun x => if Result.id x =? Result.id r then r else x)
                  (results db))
             (results_seq db)
  /\ has_student db (Result.student_id r) = true
  /\ has_exam db (Result.exam_id r) = true.
Proof.
  unfold update_result_row.
  destruct (result_row_ok db _ _) eqn:Eok; [|discriminate].
  intros [= <- <-]. split; [reflexivity|]. split; [reflexivity|].
  unfold result_row_ok in Eok.
  apply andb_true_iff in Eok. destruct Eok as [Eok He].
  apply andb_true_iff in Eok. now destruct Eok as [_ Hs].
Qed.

Section HandlerEffects.
Variable current_user : Account.t.

Ltac sequence :=
  repeat first
    [ apply fails_clean_bind; [solve [auto with effects] | intros]
    | solve [auto with effects] ].

Lemma get_students_read_only : read_only (app.get_students current_user).
Proof.
  unfold app.get_students.
  destruct (String.eqb _ _); [|apply read_only_query].
  apply read_only_bind; [apply read_only_query|].
  intros a. apply read_only_ret.
Qed.

Lemma get_exams_read_only : read_only (app.get_exams current_user).
Proof. apply read_only_query. Qed.

Lemma get_results_read_only : read_only (app.get_results current_user).
Proof.
  unfold app.get_results.
  apply read_only_bind; [apply read_only_query|]. intros db0.
  destruct (String.eqb _ _); [|apply read_only_ret].
  destruct (student_by_account _ db0); apply read_only_ret.
Qed.

Lemma add_student_clean now student :
  fails_clean (app.add_student now student current_user).
Proof. unfold app.add_student. sequence. Qed.

Lemma update_student_clean i student :
  fails_clean (app.update_student i student current_user).
Proof. unfold app.update_student. sequence. Qed.

Lemma delete_student_clean i :
  fails_clean (app.delete_student i current_user).
Proof.
  unfold app.delete_student. sequence.
  apply fails_clean_then; [auto with effects|].
  intros [] db db' _. now eexists.
Qed.

Lemma add_exam_clean now exam :
  fails_clean (app.add_exam now exam current_user).
Proof. unfold app.add_exam. sequence. Qed.

Lemma update_exam_clean i exam :
  fails_clean (app.update_exam i exam current_user).
Proof. unfold app.update_exam. sequence. Qed.

Lemma delete_exam_clean i :
  fails_clean (app.delete_exam i current_user).
Proof.
  unfold app.delete_exam. sequence.
  apply fails_clean_then; [auto with effects|].
  intros [] db db' _. now eexists.
Qed.

Lemma add_result_clean now result :
  fails_clean (app.add_result now result current_user).
Proof.
  unfold app.add_result. sequence.
  apply fails_clean_then; [auto with effects|].
  intros r db db' Hins. apply insert_result_ok in Hins.
  destruct Hins as (_ & Hdb & Hs & He).
  destruct (result_out_ok db' r) as (s & e & _ & _ & E);
    [subst db'; exact Hs|subst db'; exact He|].
  eexists. exact E.
Qed.

Lemma update_result_clean i result :
  fails_clean (app.update_result i result current_user).
Proof.
  unfold app.update_result. sequence.
  apply fails_clean_then; [auto with effects|].
  intros r db db' Hupd. apply update_result_row_ok in Hupd.
  destruct Hupd as (Hr & Hdb & Hs & He).
  destruct (result_out_ok db' r) as (s & e & _ & _ & E);
    [subst db' r; exact Hs|subst db' r; exact He|].
  eexists. exact E.
Qed.

Lemma delete_result_clean i :
  fails_clean (app.delete_result i current_user).
Proof.
  unfold app.delete_result. sequence.
  apply fails_clean_then; [auto with effects|].
  intros [] db db' _. now eexists.
Qed.

Lemma handler_clean now op : fails_clean (app.handler now op current_user).
Proof.
  destruct op; simpl; apply fails_clean_fmap;
    auto using read_only_fails_clean, get_students_read_only,
      get_exams_read_only, get_results_read_only, add_student_clean,
      update_student_clean, delete_student_clean, add_exam_clean,
      update_exam_clean, delete_exam_clean, add_result_clean,
      update_result_clean, delete_result_clean.
Qed.

Lemma handler_get_read_only now op :
  is_get op = true -> read_only (app.handler now op current_user).
Proof.
  destruct op; simpl; try discriminate; intros _; apply read_only_fmap.
  - apply get_students_read_only.
  - apply get_exams_read_only.
  - apply get_results_read_only.
Qed.
End HandlerEffects.

Lemma app_guard_read_only {env : Env} now token :
  read_only (app.get_current_account now token).
Proof.
  unfold app.get_current_account.
  destruct (jwt_decode now token SECRET_KEY) as [p|];
    [|apply read_only_raise].
  destruct (user_id p) as [u|]; [|apply read_only_raise].
  destruct (negb (truthy_int u)); [apply read_only_raise|].
  apply read_only_first_or_raise.
Qed.

Lemma route_fails_clean {env : Env} now token op :
  fails_clean (app.route now token op).
Proof.
  unfold app.route. apply fails_clean_bind.
  - apply app_guard_read_only.
  - intros a. apply handler_clean.
Qed.

(** X1.  A protected request of [app.py] that fails, at the guard, at a
    check of its handler or at the commit, leaves every table as it was:
    no row of accounts, students, exams or results is added, changed or
    removed. *)
Theorem route_failure_writes_nothing {env : Env} now token op db e db' :
  app.route now token op db = (Raise e, db') ->
  accounts db' = accounts db
  /\ students db' = students db
  /\ exams db' = exams db
  /\ results db' = results db.
Proof.
  intros Hfail. apply route_fails_clean in Hfail. subst db'.
  now repeat split.
Qed.

Section RouteChecks.
#[local] Existing Instance Demo.env.

Lemma route_failure_writes_nothing_witness :
  exists e db',
    app.route 200 Demo.admin_token (app.POST_students Demo.new_student)
      Demo.db = (Raise e, db')
    /\ accounts db' = accounts Demo.db
    /\ students db' = students Demo.db
    /\ exams db' = exams Demo.db
    /\ results db' = results Demo.db.
Proof.
  eexists. eexists. split.
  - reflexivity.
  - apply (route_failure_writes_nothing 200 Demo.admin_token
             (app.POST_students Demo.new_student) Demo.db
             (HTTPException 400
                ("No account found for cy@x.com."
                 ++ " Please create the account first."))).
    reflexivity.
Defined.
End RouteChecks.

(** X2.  A caller whose role is neither admin nor teacher cannot change
    the store: whatever the operation and its arguments the handler leaves
    the database as it was, and every [POST], [PUT] and [DELETE] ends in a
    403 or a 404. *)
Theorem non_staff_never_writes (current_user : Account.t) now op db :
  Account.role current_user <> "admin" ->
  Account.role current_user <> "teacher" ->
  snd (app.handler now op current_user db) = db
  /\ (is_get op = false ->
      exists status detail,
        fst (app.handler now op current_user db)
        = Raise (HTTPException status detail)
        /\ (status = 403 \/ status = 404)).
Proof.
  intros Ha Ht. pose proof (other_role_no_permission _ Ha Ht) as Hperm.
  assert (Hgate : is_get op = false ->
            exists status detail,
              app.handler now op current_user db
              = (Raise (HTTPException status detail), db)
              /\ (status = 403 \/ status = 404)).
  { destruct op; simpl; try discriminate; intros _;
      unfold app.fmap, app.add_student, app.update_student,
        app.delete_student, app.add_exam, app.update_exam, app.delete_exam,
        app.add_result, app.update_result, app.delete_result,
        bind, raise_if, first_or_raise; rewrite ?Hperm; simpl;
      try match goal with
          | |- context [student_by_id ?i ?d] => destruct (student_by_id i d)
          | |- context [exam_by_id ?i ?d] => destruct (exam_by_id i d)
          | |- context [result_by_id ?i ?d] => destruct (result_by_id i d)
          end; rewrite ?Hperm; simpl;
      eexists; eexists; (split; [reflexivity|]); auto. }
  destruct (is_get op) eqn:Eg.
  - split; [now apply handler_get_read_only|discriminate].
  - destruct (Hgate eq_refl) as (status & detail & E & Hst).
    rewrite E. split; [reflexivity|].
    intros _. now exists status, detail.
Qed.

(** The three list routes never write and never fail, whoever the
    authenticated caller is. *)
Theorem get_routes_total (current_user : Account.t) now op db :
  is_get op = true ->
  exists response, app.handler now op current_user db = (Ok response, db).
Proof.
  destruct op; simpl; try discriminate; intros _;
    unfold app.fmap, app.get_students, app.get_exams, app.get_results,
      bind, query, ret.
  - destruct (String.eqb _ _); simpl; eexists; reflexivity.
  - eexists; reflexivity.
  - destruct (String.eqb _ _); [destruct (student_by_account _ db)|];
      eexists; reflexivity.
Qed.

Section EffectChecks.
#[local] Existing Instance Demo.env.

Lemma non_staff_never_writes_witness :
  snd (app.handler 100 (app.DELETE_results 1) Demo.ann_account Demo.db)
  = Demo.db
  /\ (is_get (app.DELETE_results 1) = false ->
      exists status detail,
        fst (app.handler 100 (app.DELETE_results 1) Demo.ann_account Demo.db)
        = Raise (HTTPException status detail)
        /\ (status = 403 \/ status = 404)).
Proof.
  apply (non_staff_never_writes Demo.ann_account 100 (app.DELETE_results 1)
           Demo.db); discriminate.
Defined.

Lemma get_routes_total_witness :
  exists response,
    app.handler 100 app.GET_results Demo.ann_account Demo.db
    = (Ok response, Demo.db).
Proof.
  apply (get_routes_total Demo.ann_account 100 app.GET_results Demo.db).
  reflexivity.
Defined.
End EffectChecks.

(** ** Who the guard admits *)

Lemma find_unique_key {A} (key : A -> Z) (l : list A) (a : A) :
  NoDup (map key l) -> In a l -> find (fun x => key x =? key a) l = Some a.
Proof.
  induction l as [|b l IH]; simpl; intros Hnd Hin; [contradiction|].
  inversion Hnd as [|k ks Hnotin Hnd']; subst.
  destruct Hin as [->|Hin]; [now rewrite Z.eqb_refl|].
  destruct (key b =? key a) eqn:E; [|now apply IH].
  apply Z.eqb_eq in E. exfalso. apply Hnotin. rewrite E. now apply in_map.
Qed.

Lemma find_app_last {A} (f : A -> bool) (l : list A) (a : A) :
  find f l = None -> f a = true -> find f (l ++ [a])%list = Some a.
Proof.
  induction l as [|b l IH]; simpl; intros Hn Ha; [now rewrite Ha|].
  destruct (f b); [discriminate|]. now apply IH.
Qed.

Lemma existsb_false_find {A} (f : A -> bool) (l : list A) :
  existsb f l = false -> find f l = None.
Proof.
  induction l as [|b l IH]; simpl; [reflexivity|].
  destruct (f b); [discriminate|]. exact IH.
Qed.

Section GuardSound.
Context {env : Env}.


End GuardSound.


(** X4.  The token [login] and [register] hand out for an account
    authenticates that account, and no other, at both guards for as long as
    it has not expired, and is refused with 401 "Invalid token" from the
    second after its expiry on, the account still being there.  It takes
    an account id other than 0 and, at the stricter guard, a non-empty
    contact and role. *)
Theorem issued_token_authenticates {env : Env} now now' (a : Account.t) db :
  NoDup (map Account.id (accounts db)) ->
  In a (accounts db) ->
  let token := routes_auth.access_token (routes_auth.token_for now a) in
  let expiry := now + 60 * ACCESS_TOKEN_EXPIRE_MINUTES in
  (now' <= expiry ->
   Account.id a <> 0 ->
   app.get_current_account now' token db = (Ok a, db)
   /\ (Account.contact a <> "" -> Account.role a <> "" ->
       auth_utils.get_current_account now' token db = (Ok a, db)))
  /\ (expiry < now' ->
      app.get_current_account now' token db
      = (Raise (HTTPException 401 "Invalid token"), db)
      /\ auth_utils.get_current_account now' token db
         = (Raise (HTTPException 401 "Invalid token"), db)).
Proof.
  intros Hnd Hin token expiry. split.
  - intros Hle Hid.
    assert (Hdec : jwt_decode now' token SECRET_KEY
                   = Some {| sub := Some (Account.contact a);
                             user_id := Some (Account.id a);
                             role := Some (Account.role a);
                             exp := Some expiry |})
      by now apply routes_auth_token_round_trip.
    split.
    + unfold app.get_current_account. rewrite Hdec. simpl.
      rewrite (truthy_int_nonzero _ Hid). simpl.
      unfold first_or_raise, account_by_id.
      now rewrite (find_unique_key Account.id).
    + intros Hc Hr. unfold auth_utils.get_current_account.
      rewrite Hdec. simpl.
      rewrite (truthy_str_nonempty _ Hc), (truthy_int_nonzero _ Hid),
        (truthy_str_nonempty _ Hr). simpl.
      unfold first_or_raise, account_by_id_contact.
      destruct (find _ (accounts db)) as [a'|] eqn:Ef.
      * apply find_some in Ef. destruct Ef as [Hin' E].
        apply andb_true_iff in E. destruct E as [Ei _].
        apply Z.eqb_eq in Ei.
        now rewrite (NoDup_key_inj Account.id (accounts db) a' a Hnd Hin'
                       Hin Ei).
      * apply find_none with (x := a) in Ef; [|exact Hin].
        now rewrite Z.eqb_refl, String.eqb_refl in Ef.
  - intros Hlt.
    assert (Hdec : jwt_decode now' token SECRET_KEY = None).
    { exact (jwt_expired
               {| sub := Some (Account.contact a);
                  user_id := Some (Account.id a);
                  role := Some (Account.role a);
                  exp := Some expiry |} SECRET_KEY now' expiry eq_refl Hlt). }
    unfold app.get_current_account, auth_utils.get_current_account.
    now rewrite Hdec.
Qed.

Section GuardSoundChecks.
#[local] Existing Instance Demo.env.


Lemma issued_token_authenticates_witness :
  (app.get_current_account 200 Demo.ann_token Demo.db
   = (Ok Demo.ann_account, Demo.db)
   /\ auth_utils.get_current_account 200 Demo.ann_token Demo.db
      = (Ok Demo.ann_account, Demo.db))
  /\ (app.get_current_account 1901 Demo.ann_token Demo.db
      = (Raise (HTTPException 401 "Invalid token"), Demo.db)
      /\ auth_utils.get_current_account 1901 Demo.ann_token Demo.db
         = (Raise (HTTPException 401 "Invalid token"), Demo.db)).
Proof.
  assert (Hnd : NoDup (map Account.id (accounts Demo.db)))
    by (simpl; repeat constructor; simpl; intuition lia).
  assert (Hin : In Demo.ann_account (accounts Demo.db))
    by (simpl; tauto).
  split.
  - destruct (proj1 (issued_token_authenticates 100 200 Demo.ann_account
                       Demo.db Hnd Hin))
      as [Happ Hutils]; [simpl; lia|simpl; lia|].
    split; [exact Happ|]. apply Hutils; discriminate.
  - apply (proj2 (issued_token_authenticates 100 1901 Demo.ann_account
                    Demo.db Hnd Hin)).
    simpl. lia.
Defined.
End GuardSoundChecks.

(** ** Login and registration *)

Section AuthFlows.
Context {env : Env}.

Lemma login_read_only now data : read_only (routes_auth.login now data).
Proof.
  unfold routes_auth.login.
  apply read_only_bind; [apply read_only_raise_if|]. intros _.
  apply read_only_bind; [apply read_only_query|]. intros [a|].
  - destruct (negb _); [apply read_only_raise|apply read_only_ret].
  - apply read_only_raise.
Qed.

Lemma login_ok_inv now (data : UserLogin) db out db' :
  routes_auth.login now data db = (Ok out, db') ->
  db' = db
  /\ ul_contact data <> "" /\ ul_password data <> ""
  /\ exists a,
       account_by_contact (Some (ul_contact data)) db = Some a
       /\ pwd_verify (ul_password data) (Account.password_hash a) = true
       /\ out = routes_auth.token_for now a.
Proof.
  unfold routes_auth.login, bind, raise_if, query,
    routes_auth.verify_password.
  destruct (truthy_str (ul_contact data)) eqn:Hc; simpl; [|discriminate].
  destruct (truthy_str (ul_password data)) eqn:Hp; simpl; [|discriminate].
  destruct (account_by_contact _ db) as [a|] eqn:Ea; [|discriminate].
  destruct (pwd_verify _ _) eqn:Hv; simpl; [|discriminate].
  intros [= <- <-]. split; [reflexivity|].
  unfold truthy_str in Hc, Hp. apply negb_true_iff in Hc, Hp.
  apply String.eqb_neq in Hc, Hp.
  split; [exact Hc|]. split; [exact Hp|]. now exists a.
Qed.

(** What a successful [register] did, step by step. *)
Lemma register_ok_inv now (data : UserRegister) db out db' :
  routes_auth.register now data db = (Ok out, db') ->
  let account :=
    Account.mk (accounts_seq db) (ur_contact data)
      (strip (ur_fullname data)) (pwd_hash (ur_password data))
      (ur_role data) now in
  (ur_role data = "student" \/ ur_role data = "teacher")
  /\ account_by_contact (Some (ur_contact data)) db = None
  /\ (6 <= len (ur_password data))
  /\ has_account db (accounts_seq db) = false
  /\ accounts db' = (accounts db ++ [account])%list
  /\ out = routes_auth.token_for now account.
Proof.
  unfold routes_auth.register, routes_auth.validate_role,
    routes_auth.hash_password, bind, raise_if, query, ret, raise.
  destruct (str_in (ur_role data) ["student"; "teacher"]) eqn:Hrole;
    simpl; [|discriminate].
  destruct (account_by_contact (Some (ur_contact data)) db) eqn:Ec;
    [discriminate|].
  destruct (negb (truthy_str (ur_password data)) || _) eqn:Hpw;
    [discriminate|].
  unfold insert_account. simpl.
  destruct (has_account db (accounts_seq db)) eqn:Hpk; simpl;
    [discriminate|].
  destruct (existsb _ (accounts db)); [discriminate|].
  assert (Hvalid : ur_role data = "student" \/ ur_role data = "teacher").
  { unfold str_in in Hrole. simpl in Hrole.
    destruct (String.eqb (ur_role data) "student") eqn:E1;
      [left; now apply String.eqb_eq|].
    destruct (String.eqb (ur_role data) "teacher") eqn:E2;
      [right; now apply String.eqb_eq|discriminate]. }
  assert (Hlen : 6 <= len (ur_password data)).
  { apply orb_false_iff in Hpw. destruct Hpw as [_ Hlt].
    apply Z.ltb_ge in Hlt. exact Hlt. }
  destruct (String.eqb (ur_role data) "student").
  - unfold insert_student.
    destruct (student_row_ok _ _ _); [|discriminate].
    simpl. intros [= <- <-]. now repeat split.
  - intros [= <- <-]. now repeat split.
Qed.
End AuthFlows.

(** X5.  [login] never writes to the store.  When it succeeds, contact and
    password are non-empty, the first account of the store under that
    contact verifies the password, and the response names that account: its
    id, its role, and a bearer token carrying its contact, id and role and
    expiring after the default lifetime. *)
Theorem login_names_verified_account {env : Env} now (data : UserLogin) db :
  snd (routes_auth.login now data db) = db
  /\ forall out,
       fst (routes_auth.login now data db) = Ok out ->
       ul_contact data <> "" /\ ul_password data <> ""
       /\ exists a,
            In a (accounts db)
            /\ Account.contact a = ul_contact data
            /\ pwd_verify (ul_password data) (Account.password_hash a) = true
            /\ routes_auth.out_user_id out = Account.id a
            /\ routes_auth.out_role out = Account.role a
            /\ routes_auth.token_type out = "bearer"
            /\ get_unverified_claims (routes_auth.access_token out)
               = Some {| sub := Some (Account.contact a);
                         user_id := Some (Account.id a);
                         role := Some (Account.role a);
                         exp := Some (now
                                      + 60 * ACCESS_TOKEN_EXPIRE_MINUTES) |}.
Proof.
  split; [apply login_read_only|].
  intros out Hout.
  destruct (routes_auth.login now data db) as [o db'] eqn:E.
  simpl in Hout. subst o.
  destruct (login_ok_inv _ _ _ _ _ E) as (_ & Hc & Hp & a & Ha & Hv & ->).
  split; [exact Hc|]. split; [exact Hp|].
  apply account_by_contact_found in Ha. destruct Ha as [Hin Hca].
  exists a. split; [exact Hin|]. split; [congruence|].
  split; [exact Hv|]. now repeat split.
Qed.

Section LoginOkChecks.
#[local] Existing Instance Demo.env.

Lemma login_names_verified_account_witness :
  exists out,
    routes_auth.login 100 {| ul_contact := "s1@x.com";
                             ul_password := "pass123" |} Demo.db
    = (Ok out, Demo.db)
    /\ routes_auth.out_user_id out = 3
    /\ routes_auth.out_role out = "student".
Proof.
  destruct (login_names_verified_account 100
              {| ul_contact := "s1@x.com"; ul_password := "pass123" |}
              Demo.db) as [Hro Hok].
  eexists. split; [reflexivity|].
  destruct (Hok _ eq_refl) as (_ & _ & a & Hin & Hc & _ & Hid & Hrole & _).
  simpl in Hin.
  destruct Hin as [<-|[<-|[<-|[<-|[]]]]]; try discriminate Hc.
  split; reflexivity.
Defined.
End LoginOkChecks.

Lemma account_by_contact_appended db db' (a : Account.t) :
  account_by_contact (Some (Account.contact a)) db = None ->
  accounts db' = (accounts db ++ [a])%list ->
  account_by_contact (Some (Account.contact a)) db' = Some a.
Proof.
  intros Hnone Happ. unfold account_by_contact. rewrite Happ.
  apply find_app_last; [exact Hnone|]. simpl. apply String.eqb_refl.
Qed.

Lemma account_by_id_appended db db' (a : Account.t) :
  has_account db (Account.id a) = false ->
  accounts db' = (accounts db ++ [a])%list ->
  account_by_id (Account.id a) db' = Some a.
Proof.
  intros Hnone Happ. unfold account_by_id. rewrite Happ.
  apply find_app_last; [|apply Z.eqb_refl].
  now apply existsb_false_find.
Qed.

Lemma long_password_truthy (p : string) :
  6 <= len p -> truthy_str p = true.
Proof.
  intros Hlen. apply truthy_str_nonempty. intros ->.
  unfold len in Hlen. simpl in Hlen. lia.
Qed.

(** X6.  The credentials just registered log in: after a successful
    [register], [login] with the same contact and password succeeds on the
    resulting store and names the same account id and the registered role.
    It takes a non-empty contact and a password context that verifies the
    hash it made of this password. *)
Theorem register_then_login {env : Env} now now' (data : UserRegister)
    db out db' :
  pwd_verify (ur_password data) (pwd_hash (ur_password data)) = true ->
  ur_contact data <> "" ->
  routes_auth.register now data db = (Ok out, db') ->
  exists out',
    routes_auth.login now'
      {| ul_contact := ur_contact data; ul_password := ur_password data |} db'
    = (Ok out', db')
    /\ routes_auth.out_user_id out' = routes_auth.out_user_id out
    /\ routes_auth.out_role out' = ur_role data.
Proof.
  intros Hverify Hc Hreg.
  destruct (register_ok_inv _ _ _ _ _ Hreg)
    as (_ & Hfresh & Hlen & _ & Haccs & ->).
  eexists. split.
  - unfold routes_auth.login, bind, raise_if, query,
      routes_auth.verify_password. simpl.
    rewrite (truthy_str_nonempty _ Hc), (long_password_truthy _ Hlen). simpl.
    match type of Haccs with
    | _ = (_ ++ [?a])%list =>
        pose proof (account_by_contact_appended db db' a Hfresh Haccs)
          as Hfind
    end.
    simpl in Hfind. rewrite Hfind. simpl.
    rewrite Hverify. reflexivity.
  - split; reflexivity.
Qed.

(** X7.  The token [register] returns authenticates at once: presented to
    the guard of [app.py] on the resulting store before it expires, it
    yields the account just created, with the registered contact and role,
    provided the id the account was given is not 0. *)
Theorem register_then_authenticated {env : Env} now now'
    (data : UserRegister) db out db' :
  routes_auth.register now data db = (Ok out, db') ->
  accounts_seq db <> 0 ->
  now' <= now + 60 * ACCESS_TOKEN_EXPIRE_MINUTES ->
  exists account,
    app.get_current_account now' (routes_auth.access_token out) db'
    = (Ok account, db')
    /\ Account.id account = routes_auth.out_user_id out
    /\ Account.contact account = ur_contact data
    /\ Account.role account = ur_role data.
Proof.
  intros Hreg Hseq Hle.
  destruct (register_ok_inv _ _ _ _ _ Hreg)
    as (_ & _ & _ & Hpk & Haccs & ->).
  match type of Haccs with _ = (_ ++ [?a])%list => exists a end.
  split; [|now repeat split].
  unfold app.get_current_account.
  rewrite routes_auth_token_round_trip by exact Hle. simpl.
  rewrite (truthy_int_nonzero _ Hseq). simpl.
  unfold first_or_raise.
  match type of Haccs with
  | _ = (_ ++ [?a])%list =>
      pose proof (account_by_id_appended db db' a Hpk Haccs) as Hfind
  end.
  simpl in Hfind. now rewrite Hfind.
Qed.

(** X8.  No admin can be self-registered, and [register] touches no
    existing account: the accounts table after a successful call is the
    old table followed by one account whose role is "student" or
    "teacher", whose password hash is the context's hash of a password of
    at least 6 characters, and whose creation time is the time of the
    call. *)
Theorem register_adds_no_admin {env : Env} now (data : UserRegister)
    db out db' :
  routes_auth.register now data db = (Ok out, db') ->
  exists account,
    accounts db' = (accounts db ++ [account])%list
    /\ (Account.role account = "student"
        \/ Account.role account = "teacher")
    /\ Account.role account <> "admin"
    /\ Account.password_hash account = pwd_hash (ur_password data)
    /\ 6 <= len (ur_password data)
    /\ Account.created_at account = now
    /\ routes_auth.out_role out = Account.role account.
Proof.
  intros Hreg.
  destruct (register_ok_inv _ _ _ _ _ Hreg)
    as (Hrole & _ & Hlen & _ & Haccs & ->).
  eexists. split; [exact Haccs|]. simpl.
  split; [exact Hrole|]. split; [|now repeat split].
  destruct Hrole as [-> | ->]; discriminate.
Qed.

Section RegisterFlowChecks.
#[local] Existing Instance Demo.env.

Lemma register_then_login_witness :
  exists out db' out',
    routes_auth.register 100 Demo.zed_registration Demo.db = (Ok out, db')
    /\ routes_auth.login 500
         {| ul_contact := "s9@x.com"; ul_password := "pass123" |} db'
       = (Ok out', db')
    /\ routes_auth.out_user_id out' = routes_auth.out_user_id out
    /\ routes_auth.out_role out' = "student".
Proof.
  destruct (register_then_login (env := Demo.env) 100 500
              Demo.zed_registration Demo.db _ _
              eq_refl ltac:(discriminate) eq_refl)
    as (out' & Hlogin & Hid & Hrole).
  eexists. eexists. exists out'.
  split; [reflexivity|]. split; [exact Hlogin|]. split; assumption.
Defined.

Lemma register_then_authenticated_witness :
  exists out db' account,
    routes_auth.register 100 Demo.zed_registration Demo.db = (Ok out, db')
    /\ app.get_current_account 500 (routes_auth.access_token out) db'
       = (Ok account, db')
    /\ Account.id account = routes_auth.out_user_id out
    /\ Account.contact account = "s9@x.com"
    /\ Account.role account = "student".
Proof.
  destruct (register_then_authenticated (env := Demo.env) 100 500
              Demo.zed_registration Demo.db _ _ eq_refl ltac:(simpl; lia)
              ltac:(simpl; lia))
    as (account & Hguard & Hid & Hc & Hr).
  eexists. eexists. exists account.
  split; [reflexivity|]. split; [exact Hguard|]. now repeat split.
Defined.

Lemma register_adds_no_admin_witness :
  exists out db' account,
    routes_auth.register 100 Demo.six_euro_registration Demo.db
    = (Ok out, db')
    /\ accounts db' = (accounts Demo.db ++ [account])%list
    /\ Account.role account <> "admin"
    /\ Account.password_hash account = pwd_hash Demo.six_euros
    /\ 6 <= len Demo.six_euros.
Proof.
  destruct (register_adds_no_admin (env := Demo.env) 100
              Demo.six_euro_registration Demo.db _ _ eq_refl)
    as (account & Haccs & _ & Hrole & Hhash & Hlen & _).
  eexists. eexists. exists account.
  split; [reflexivity|]. split; [exact Haccs|]. now repeat split.
Defined.
End RegisterFlowChecks.

Section RegisterFailures.
Context {env : Env}.

Lemma register_http_error now (data : UserRegister) db status detail db' :
  routes_auth.register now data db
  = (Raise (HTTPException status detail), db') ->
  db' = db /\ status = 400
  /\ (detail = "Role must be 'student' or 'teacher'"
      \/ detail = "Contact already registered"
      \/ detail = "Password must be at least 6 characters").
Proof.
  unfold routes_auth.register, routes_auth.validate_role,
    routes_auth.hash_password, bind, raise_if, query, ret, raise.
  destruct (negb (str_in (ur_role data) ["student"; "teacher"])); simpl.
  { intros [= <- <- <-]. auto. }
  destruct (account_by_contact (Some (ur_contact data)) db); simpl.
  { intros [= <- <- <-]. auto. }
  destruct (negb (truthy_str (ur_password data)) || _).
  { intros [= <- <- <-]. auto. }
  unfold insert_account.
  destruct (has_account db _ || _); [discriminate|].
  destruct (String.eqb (ur_role data) "student"); [|discriminate].
  unfold insert_student. simpl.
  destruct (student_row_ok _ _ _); discriminate.
Qed.

Lemma register_short_password now (data : UserRegister) db :
  ur_role data = "student" \/ ur_role data = "teacher" ->
  (forall a, In a (accounts db) -> Account.contact a <> ur_contact data) ->
  len (ur_password data) < 6 ->
  routes_auth.register now data db
  = (Raise (HTTPException 400 "Password must be at least 6 characters"),
     db).
Proof.
  intros Hrole Hfresh Hlen.
  unfold routes_auth.register, routes_auth.validate_role,
    routes_auth.hash_password, bind, raise_if, query.
  assert (Hvalid : negb (str_in (ur_role data) ["student"; "teacher"])
                   = false)
    by (now destruct Hrole as [-> | ->]).
  rewrite Hvalid. simpl.
  rewrite account_by_contact_absent
    by (intros a Ha E; apply (Hfresh a Ha); congruence).
  simpl. apply Z.ltb_lt in Hlen. rewrite Hlen.
  now rewrite orb_true_r.
Qed.
End RegisterFailures.

(** X9.  [register] answers with an HTTP error only before it has written
    anything: the status is then 400, the detail is one of the three
    validation messages, and the store is as it was.  In particular a
    password shorter than 6 characters, the empty one included, is refused
    for a fresh contact and a valid role, and nothing is stored. *)
Theorem register_validation_writes_nothing {env : Env} now
    (data : UserRegister) db :
  (forall status detail db',
     routes_auth.register now data db
     = (Raise (HTTPException status detail), db') ->
     db' = db /\ status = 400
     /\ (detail = "Role must be 'student' or 'teacher'"
         \/ detail = "Contact already registered"
         \/ detail = "Password must be at least 6 characters"))
  /\ (ur_role data = "student" \/ ur_role data = "teacher" ->
      (forall a, In a (accounts db) ->
                 Account.contact a <> ur_contact data) ->
      len (ur_password data) < 6 ->
      routes_auth.register now data db
      = (Raise (HTTPException 400 "Password must be at least 6 characters"),
         db)).
Proof.
  split.
  - intros status detail db'. apply register_http_error.
  - apply register_short_password.
Qed.

Section RegisterFailureChecks.
#[local] Existing Instance Demo.env.

Lemma register_validation_writes_nothing_witness :
  len Demo.five_euros = 5
  /\ routes_auth.register 100 Demo.five_euro_registration Demo.db
     = (Raise (HTTPException 400 "Password must be at least 6 characters"),
        Demo.db).
Proof.
  split; [reflexivity|].
  apply (proj2 (register_validation_writes_nothing 100
                  Demo.five_euro_registration Demo.db)).
  - right. reflexivity.
  - simpl. intros a [<-|[<-|[<-|[<-|[]]]]]; simpl; discriminate.
  - reflexivity.
Defined.
End RegisterFailureChecks.

Lemma student_number_taken db others (s row : Student.t) :
  In s others ->
  Student.student_number s = Student.student_number row ->
  student_row_ok db others row = false.
Proof.
  intros Hin Hnum. unfold student_row_ok.
  assert (Hdup : existsb (fun x => String.eqb (Student.student_number x)
                                     (Student.student_number row)) others
                 = true).
  { apply existsb_exists. exists s. split; [exact Hin|].
    now apply String.eqb_eq. }
  rewrite Hdup. simpl. now rewrite andb_false_r.
Qed.

Lemma has_account_absent db i :
  (forall a, In a (accounts db) -> Account.id a <> i) ->
  has_account db i = false.
Proof.
  intros Hno. unfold has_account.
  destruct (existsb _ (accounts db)) eqn:E; [|reflexivity].
  apply existsb_exists in E. destruct E as (a & Ha & Ei).
  apply Z.eqb_eq in Ei. now apply Hno in Ha.
Qed.

Lemma contact_absent_existsb db c :
  (forall a, In a (accounts db) -> Account.contact a <> c) ->
  existsb (fun x => String.eqb (Account.contact x) c) (accounts db) = false.
Proof.
  intros Hno.
  destruct (existsb _ (accounts db)) eqn:E; [|reflexivity].
  apply existsb_exists in E. destruct E as (a & Ha & Ec).
  apply String.eqb_eq in Ec. now apply Hno in Ha.
Qed.

Lemma account_by_contact_none_existsb db c :
  account_by_contact (Some c) db = None ->
  existsb (fun x => String.eqb (Account.contact x) c) (accounts db) = false.
Proof.
  intros Hnone. apply contact_absent_existsb. intros a Ha E.
  apply find_none with (x := a) in Hnone; [|exact Ha].
  simpl in Hnone. apply String.eqb_neq in Hnone. contradiction.
Qed.

(** X10.  The two writes of a student registration are not one unit.
    Whenever [register] ends in an integrity error, the next account id
    being unused, the role was "student" and the new account has already
    been committed: it is the last row of the accounts table, no Student
    row was added for it, and registering again with the same data, in
    any store that holds these accounts, is refused with 400 "Contact
    already registered" and writes nothing. *)
Theorem register_integrity_error_keeps_account {env : Env} now now'
    (data : UserRegister) db db1 :
  (forall a, In a (accounts db) -> Account.id a <> accounts_seq db) ->
  routes_auth.register now data db = (Raise IntegrityError, db1) ->
  ur_role data = "student"
  /\ accounts db1
     = (accounts db
        ++ [Account.mk (accounts_seq db) (ur_contact data)
              (strip (ur_fullname data)) (pwd_hash (ur_password data))
              "student" now])%list
  /\ students db1 = students db
  /\ (forall db2,
        accounts db2 = accounts db1 ->
        routes_auth.register now' data db2
        = (Raise (HTTPException 400 "Contact already registered"), db2)).
Proof.
  intros Hpk.
  unfold routes_auth.register at 1, routes_auth.validate_role,
    routes_auth.hash_password, bind, raise_if, query, ret, raise.
  destruct (negb (str_in (ur_role data) ["student"; "teacher"])) eqn:Hvalid;
    simpl; [discriminate|].
  destruct (account_by_contact (Some (ur_contact data)) db) eqn:Ec;
    [discriminate|]. simpl.
  destruct (negb (truthy_str (ur_password data)) || _); [discriminate|].
  unfold insert_account. simpl.
  rewrite (has_account_absent _ _ Hpk),
    (account_by_contact_none_existsb _ _ Ec). simpl.
  destruct (String.eqb (ur_role data) "student") eqn:Erole; [|discriminate].
  apply String.eqb_eq in Erole.
  unfold insert_student. simpl.
  destruct (student_row_ok _ _ _); [discriminate|].
  intros [= <-]. split; [exact Erole|]. simpl. rewrite Erole.
  split; [reflexivity|]. split; [reflexivity|].
  intros db2 Haccs.
  unfold routes_auth.register, routes_auth.validate_role, bind, raise_if,
    query.
  rewrite Erole. simpl. unfold account_by_contact. rewrite Haccs. simpl.
  rewrite find_app_last; [reflexivity| |simpl; apply String.eqb_refl].
  exact Ec.
Qed.

Section SeedAdmin.
Context {env : Env}.
Variables (c n p : string).

End SeedAdmin.


Section SeedChecks.
#[local] Existing Instance Demo.env.

Lemma register_integrity_error_keeps_account_witness :
  exists db1,
    routes_auth.register 100 Demo.clash_registration Demo.db
    = (Raise IntegrityError, db1)
    /\ accounts db1
       = (accounts Demo.db
          ++ [Account.mk 5 "2024-002" "Bo" "argon2:pass789" "student"
                100])%list
    /\ students db1 = students Demo.db
    /\ routes_auth.register 200 Demo.clash_registration db1
       = (Raise (HTTPException 400 "Contact already registered"), db1).
Proof.
  eexists. split; [reflexivity|].
  destruct (register_integrity_error_keeps_account (env := Demo.env)
              100 200 Demo.clash_registration Demo.db _
              ltac:(simpl; intros a [<-|[<-|[<-|[<-|[]]]]]; simpl; lia)
              eq_refl)
    as (_ & Haccs & Hstudents & Hretry).
  split; [exact Haccs|]. split; [exact Hstudents|].
  exact (Hretry _ eq_refl).
Defined.

End SeedChecks.

(** ** Listing students *)

Lemma students_router_same (current_user : Account.t) :
  routes_students.get_students
    {| routes_students.id_role := Account.role current_user;
       routes_students.id_user_id := Account.id current_user |}
  = app.get_students current_user.
Proof. reflexivity. Qed.

(** X12.  What [GET /students] returns, never writing, in [app.py] and in
    the router of [routes/students.py] alike, the order of the rows left
    open: to a caller whose role is "student", at most one row, which is a
    row of the table linked to the caller's account, and exactly one
    whenever such a row exists; to any other caller, the rows of the
    table, each once. *)
Theorem get_students_scope (current_user : Account.t) (db : DB)
    (listing : M (list Student.t)) :
  listing = app.get_students current_user
  \/ listing
     = routes_students.get_students
         {| routes_students.id_role := Account.role current_user;
            routes_students.id_user_id := Account.id current_user |} ->
  (Account.role current_user = "student" ->
   exists rows,
     listing db = (Ok rows, db)
     /\ (length rows <= 1)%nat
     /\ (forall s, In s rows ->
                   In s (students db)
                   /\ Student.account_id s = Some (Account.id current_user))
     /\ ((exists s, In s (students db)
                    /\ Student.account_id s
                       = Some (Account.id current_user)) ->
         length rows = 1%nat))
  /\ (Account.role current_user <> "student" ->
      exists rows,
        listing db = (Ok rows, db) /\ Permutation rows (students db)).
Proof.
  intros Hlisting.
  assert (listing = app.get_students current_user) as ->
    by (destruct Hlisting as [->| ->];
        [reflexivity|apply students_router_same]).
  split.
  - intros Hrole. unfold app.get_students, bind, query, ret.
    rewrite Hrole. simpl.
    destruct (student_by_account (Account.id current_user) db) as [s|] eqn:Es.
    + exists [s]. split; [reflexivity|]. split; [simpl; lia|]. split.
      * intros s' [<-|[]]. apply find_some in Es. destruct Es as [Hin E].
        split; [exact Hin|]. now apply opt_Z_eqb_spec.
      * reflexivity.
    + exists []. split; [reflexivity|]. split; [simpl; lia|]. split.
      * intros s' [].
      * intros (s & Hin & Hacc).
        destruct (student_by_account_linked db _ s Hin Hacc) as (s' & E & _).
        congruence.
  - intros Hrole. exists (students db). split; [|apply Permutation_refl].
    unfold app.get_students, query.
    apply String.eqb_neq in Hrole. now rewrite Hrole.
Qed.

Section StudentsChecks.
#[local] Existing Instance Demo.env.

Lemma get_students_scope_witness :
  (exists rows,
     app.get_students Demo.ann_account Demo.db = (Ok rows, Demo.db)
     /\ (length rows <= 1)%nat
     /\ (forall s, In s rows ->
                   In s (students Demo.db)
                   /\ Student.account_id s = Some 3)
     /\ ((exists s, In s (students Demo.db)
                    /\ Student.account_id s = Some 3) ->
         length rows = 1%nat))
  /\ (exists rows,
        routes_students.get_students
          {| routes_students.id_role := "teacher";
             routes_students.id_user_id := 2 |} Demo.db
        = (Ok rows, Demo.db)
        /\ Permutation rows [Demo.ann; Demo.bob]).
Proof.
  split.
  - apply (proj1 (get_students_scope Demo.ann_account Demo.db
                    (app.get_students Demo.ann_account)
                    (or_introl eq_refl))).
    reflexivity.
  - apply (proj2 (get_students_scope Demo.teacher Demo.db
                    (routes_students.get_students
                       {| routes_students.id_role := "teacher";
                          routes_students.id_user_id := 2 |})
                    (or_intror eq_refl))).
    discriminate.
Defined.
End StudentsChecks.

(** ** Exams: create, look up, update *)

Lemma has_exam_absent db i :
  (forall e, In e (exams db) -> Exam.id e <> i) -> has_exam db i = false.
Proof.
  intros Hno. unfold has_exam.
  destruct (existsb _ (exams db)) eqn:E; [|reflexivity].
  apply existsb_exists in E. destruct E as (e & He & Ei).
  apply Z.eqb_eq in Ei. now apply Hno in He.
Qed.

Lemma map_replace_absent {A} (key : A -> Z) (l : list A) (i : Z) (a : A) :
  existsb (fun x => key x =? i) l = false ->
  map (fun x => if key x =? i then a else x) l = l.
Proof.
  induction l as [|b l IH]; simpl; [reflexivity|].
  destruct (key b =? i); [discriminate|]. intros H. now rewrite IH.
Qed.

Lemma add_exam_ok_inv (current_user : Account.t) now (exam : ExamCreate)
    db e db1 :
  app.add_exam now exam current_user db = (Ok e, db1) ->
  app.no_permission current_user = false
  /\ has_exam db (exams_seq db) = false
  /\ e = Exam.mk (exams_seq db) (ec_title exam) (ec_total_marks exam) now
  /\ db1 = set_exams db (exams db ++ [e])%list (exams_seq db + 1).
Proof.
  unfold app.add_exam, bind, raise_if, insert_exam.
  destruct (app.no_permission current_user); [discriminate|]. simpl.
  destruct (has_exam db (exams_seq db)); [discriminate|].
  intros [= <- <-]. now repeat split.
Qed.

(** X13.  When [POST /exams] succeeds, the exam it returns has the
    request's title and total marks and the current time as creation time,
    it is the one row added to the exams table, and a lookup by its id
    finds it.  When a [PUT /exams/{id}] on that id then succeeds, it
    returns that row with the new title and total marks and the same id
    and creation time; the exams table then holds that row and the rows
    it held before the [POST], and no other table changes. *)
Theorem exam_create_then_update (current_user : Account.t) now
    (exam exam' : ExamCreate) db e db1 :
  app.add_exam now exam current_user db = (Ok e, db1) ->
  (Exam.title e = ec_title exam
   /\ Exam.total_marks e = ec_total_marks exam
   /\ Exam.created_at e = now
   /\ exams db1 = (exams db ++ [e])%list
   /\ exam_by_id (Exam.id e) db1 = Some e
   /\ accounts db1 = accounts db /\ students db1 = students db
   /\ results db1 = results db)
  /\ (forall e' db2,
        app.update_exam (Exam.id e) exam' current_user db1 = (Ok e', db2) ->
        e' = Exam.mk (Exam.id e) (ec_title exam') (ec_total_marks exam')
               (Exam.created_at e)
        /\ Permutation (exams db2) (e' :: exams db)
        /\ accounts db2 = accounts db /\ students db2 = students db
        /\ results db2 = results db).
Proof.
  intros Hadd. apply add_exam_ok_inv in Hadd.
  destruct Hadd as (Hperm & Hpk & He & Hdb1).
  assert (Hfind : exam_by_id (Exam.id e) db1 = Some e).
  { subst db1. unfold exam_by_id. simpl.
    apply find_app_last; [|apply Z.eqb_refl].
    apply existsb_false_find. now rewrite He. }
  split.
  - subst e db1. simpl in *. now repeat split.
  - intros e' db2.
    unfold app.update_exam, bind, raise_if, first_or_raise.
    rewrite Hfind, Hperm. simpl. unfold update_exam_row.
    intros [= <- <-]. split; [reflexivity|].
    subst db1. simpl. rewrite map_app. simpl. rewrite Z.eqb_refl.
    rewrite map_replace_absent by (now rewrite He).
    split; [|now repeat split].
    apply Permutation_sym, Permutation_cons_append.
Qed.

(** ** Deleting rows *)

Lemma find_filter_out {A} (key : A -> Z) (l : list A) (i : Z) :
  find (fun x => key x =? i) (filter (fun x => negb (key x =? i)) l) = None.
Proof.
  apply find_all_false. intros x Hx. apply filter_In in Hx.
  destruct Hx as [_ Hx]. now apply negb_true_iff in Hx.
Qed.

Section Deletes.
Variable current_user : Account.t.

Lemma delete_student_ok_inv i msg db db' :
  app.delete_student i current_user db = (Ok msg, db') ->
  app.no_permission current_user = false
  /\ (exists s, student_by_id i db = Some s)
  /\ (forall r, In r (results db) -> Result.student_id r <> i)
  /\ db' = set_students db
             (filter (fun x => negb (Student.id x =? i)) (students db))
             (students_seq db).
Proof.
  unfold app.delete_student, bind, raise_if, first_or_raise.
  destruct (student_by_id i db) as [s|] eqn:Es; [|discriminate].
  destruct (app.no_permission current_user); [discriminate|]. simpl.
  apply find_some in Es. destruct Es as [Hin Hid].
  apply Z.eqb_eq in Hid. subst i.
  unfold delete_student_row.
  destruct (existsb _ (results db)) eqn:Eref; [discriminate|].
  intros [= _ <-]. split; [reflexivity|]. split; [eauto|].
  split; [|reflexivity].
  intros r Hr E. apply Z.eqb_eq in E.
  assert (existsb (fun r => Result.student_id r =? Student.id s)
            (results db) = true)
    by (apply existsb_exists; eauto).
  congruence.
Qed.

Lemma delete_exam_ok_inv i msg db db' :
  app.delete_exam i current_user db = (Ok msg, db') ->
  app.no_permission current_user = false
  /\ (exists e, exam_by_id i db = Some e)
  /\ (forall r, In r (results db) -> Result.exam_id r <> i)
  /\ db' = set_exams db
             (filter (fun x => negb (Exam.id x =? i)) (exams db))
             (exams_seq db).
Proof.
  unfold app.delete_exam, bind, raise_if, first_or_raise.
  destruct (exam_by_id i db) as [e|] eqn:Es; [|discriminate].
  destruct (app.no_permission current_user); [discriminate|]. simpl.
  apply find_some in Es. destruct Es as [Hin Hid].
  apply Z.eqb_eq in Hid. subst i.
  unfold delete_exam_row.
  destruct (existsb _ (results db)) eqn:Eref; [discriminate|].
  intros [= _ <-]. split; [reflexivity|]. split; [eauto|].
  split; [|reflexivity].
  intros r Hr E. apply Z.eqb_eq in E.
  assert (existsb (fun r => Result.exam_id r =? Exam.id e)
            (results db) = true)
    by (apply existsb_exists; eauto).
  congruence.
Qed.

Lemma delete_result_ok_inv i msg db db' :
  app.delete_result i current_user db = (Ok msg, db') ->
  app.no_permission current_user = false
  /\ (exists r, result_by_id i db = Some r)
  /\ db' = set_results db
             (filter (fun x => negb (Result.id x =? i)) (results db))
             (results_seq db).
Proof.
  unfold app.delete_result, bind, raise_if, first_or_raise.
  destruct (result_by_id i db) as [r|] eqn:Es; [|discriminate].
  destruct (app.no_permission current_user); [discriminate|]. simpl.
  apply find_some in Es. destruct Es as [Hin Hid].
  apply Z.eqb_eq in Hid. subst i.
  intros [= _ <-]. split; [reflexivity|]. split; [eauto|reflexivity].
Qed.
End Deletes.

(** X14.  A successful [DELETE] removes the rows with the target id from
    its table and nothing else: the other rows stay in order, the other
    tables are untouched, a lookup of the id then finds nothing, and
    repeating the request answers 404.  A student or an exam is deleted
    only if no result row points to it. *)
Theorem delete_removes_target (current_user : Account.t) (target : Z)
    msg db db' :
  (app.delete_student target current_user db = (Ok msg, db') ->
   students db' = filter (fun s => negb (Student.id s =? target))
                    (students db)
   /\ student_by_id target db' = None
   /\ (forall r, In r (results db) -> Result.student_id r <> target)
   /\ accounts db' = accounts db /\ exams db' = exams db
   /\ results db' = results db
   /\ app.delete_student target current_user db'
      = (Raise (HTTPException 404 "Student not found"), db'))
  /\ (app.delete_exam target current_user db = (Ok msg, db') ->
      exams db' = filter (fun e => negb (Exam.id e =? target)) (exams db)
      /\ exam_by_id target db' = None
      /\ (forall r, In r (results db) -> Result.exam_id r <> target)
      /\ accounts db' = accounts db /\ students db' = students db
      /\ results db' = results db
      /\ app.delete_exam target current_user db'
         = (Raise (HTTPException 404 "Exam not found"), db'))
  /\ (app.delete_result target current_user db = (Ok msg, db') ->
      results db' = filter (fun r => negb (Result.id r =? target))
                      (results db)
      /\ result_by_id target db' = None
      /\ accounts db' = accounts db /\ students db' = students db
      /\ exams db' = exams db
      /\ app.delete_result target current_user db'
         = (Raise (HTTPException 404 "Result not found"), db')).
Proof.
  split; [|split]; intros Hdel.
  - apply delete_student_ok_inv in Hdel.
    destruct Hdel as (_ & _ & Hrefs & ->).
    pose proof (find_filter_out Student.id (students db) target) as Hgone.
    split; [reflexivity|]. split; [exact Hgone|]. split; [exact Hrefs|].
    repeat (split; [reflexivity|]).
    unfold app.delete_student, bind, first_or_raise, student_by_id. simpl.
    now rewrite Hgone.
  - apply delete_exam_ok_inv in Hdel.
    destruct Hdel as (_ & _ & Hrefs & ->).
    pose proof (find_filter_out Exam.id (exams db) target) as Hgone.
    split; [reflexivity|]. split; [exact Hgone|]. split; [exact Hrefs|].
    repeat (split; [reflexivity|]).
    unfold app.delete_exam, bind, first_or_raise, exam_by_id. simpl.
    now rewrite Hgone.
  - apply delete_result_ok_inv in Hdel.
    destruct Hdel as (_ & _ & ->).
    pose proof (find_filter_out Result.id (results db) target) as Hgone.
    split; [reflexivity|]. split; [exact Hgone|].
    repeat (split; [reflexivity|]).
    unfold app.delete_result, bind, first_or_raise, result_by_id. simpl.
    now rewrite Hgone.
Qed.

Section ExamDeleteChecks.
#[local] Existing Instance Demo.env.

Lemma exam_create_then_update_witness :
  exists e db1 e' db2,
    app.add_exam 100 Demo.quiz Demo.teacher Demo.db = (Ok e, db1)
    /\ e = Exam.mk 3 "Quiz" 20 100
    /\ app.update_exam 3 {| ec_title := "Quiz 1"; ec_total_marks := 25 |}
         Demo.teacher db1
       = (Ok e', db2)
    /\ e' = Exam.mk 3 "Quiz 1" 25 100
    /\ Permutation (exams db2)
         [Exam.mk 3 "Quiz 1" 25 100; Demo.midterm; Demo.final].
Proof.
  eexists. eexists. eexists. eexists.
  split; [reflexivity|]. split; [reflexivity|]. split; [reflexivity|].
  destruct (exam_create_then_update Demo.teacher 100 Demo.quiz
              {| ec_title := "Quiz 1"; ec_total_marks := 25 |} Demo.db
              _ _ eq_refl) as [_ Hupd].
  destruct (Hupd _ _ eq_refl) as (He' & Hexams & _).
  split; [exact He'|exact Hexams].
Defined.

Lemma delete_removes_target_witness :
  exists db',
    app.delete_result 2 Demo.teacher Demo.db = (Ok "Result deleted", db')
    /\ results db' = [Demo.r1; Demo.r3]
    /\ app.delete_result 2 Demo.teacher db'
       = (Raise (HTTPException 404 "Result not found"), db').
Proof.
  eexists. split; [reflexivity|].
  destruct (proj2 (proj2 (delete_removes_target Demo.teacher 2
                            "Result deleted" Demo.db _)) eq_refl)
    as (Hrows & _ & _ & _ & _ & Hagain).
  split; [exact Hrows|exact Hagain].
Defined.
End ExamDeleteChecks.

(** ** Writing results *)

Lemma student_by_id_id i db s : student_by_id i db = Some s -> Student.id s = i.
Proof.
  intros Hf. apply find_some in Hf. destruct Hf as [_ E].
  now apply Z.eqb_eq.
Qed.

Lemma exam_by_id_id i db e : exam_by_id i db = Some e -> Exam.id e = i.
Proof.
  intros Hf. apply find_some in Hf. destruct Hf as [_ E].
  now apply Z.eqb_eq.
Qed.

Lemma result_by_id_id i db r : result_by_id i db = Some r -> Result.id r = i.
Proof.
  intros Hf. apply find_some in Hf. destruct Hf as [_ E].
  now apply Z.eqb_eq.
Qed.

(** X15.  A successful [POST /results] appends one row, with the next
    result id, the request's student id, exam id and score and the current
    time, and touches nothing else; its response repeats the row and joins
    in the name of the student and the title of the exam the row points
    to. *)
Theorem add_result_stores_and_joins (current_user : Account.t) now
    (result : ResultCreate) db out db' :
  app.add_result now result current_user db = (Ok out, db') ->
  exists s e,
    student_by_id (rc_student_id result) db = Some s
    /\ exam_by_id (rc_exam_id result) db = Some e
    /\ results db'
       = (results db
          ++ [Result.mk (results_seq db) (rc_student_id result)
                (rc_exam_id result) (rc_score result) now])%list
    /\ out = {| ro_id := results_seq db;
                ro_student_id := rc_student_id result;
                ro_student_name := Student.name s;
                ro_exam_id := rc_exam_id result;
                ro_exam_title := Exam.title e;
                ro_score := rc_score result |}
    /\ accounts db' = accounts db /\ students db' = students db
    /\ exams db' = exams db.
Proof.
  unfold app.add_result, bind, raise_if, first_or_raise.
  destruct (app.no_permission current_user); [discriminate|]. simpl.
  destruct (student_by_id _ db) as [s|] eqn:Es; [|discriminate].
  destruct (exam_by_id _ db) as [e|] eqn:Ee; [|discriminate].
  rewrite (student_by_id_id _ _ _ Es), (exam_by_id_id _ _ _ Ee).
  destruct (insert_result _ db) as [[r|err] db1] eqn:Eins; [|discriminate].
  apply insert_result_ok in Eins. destruct Eins as (Hr & Hdb1 & _ & _).
  intros Hout. exists s, e. split; [reflexivity|]. split; [reflexivity|].
  assert (Hs1 : student_by_id (Result.student_id r) db1 = Some s)
    by (subst r db1; exact Es).
  assert (He1 : exam_by_id (Result.exam_id r) db1 = Some e)
    by (subst r db1; exact Ee).
  unfold app.result_out, bind, query, app.result_student, app.result_exam
    in Hout.
  rewrite Hs1, He1 in Hout. injection Hout as <- <-.
  subst r db1. now repeat split.
Qed.

Lemma update_result_ok_inv (current_user : Account.t) i
    (result : ResultCreate) db out db' :
  app.update_result i result current_user db = (Ok out, db') ->
  exists r s e,
    result_by_id i db = Some r
    /\ student_by_id (rc_student_id result) db = Some s
    /\ exam_by_id (rc_exam_id result) db = Some e
    /\ db' = set_results db
               (map (fun x => if Result.id x =? i
                              then Result.mk i (rc_student_id result)
                                     (rc_exam_id result) (rc_score result)
                                     (Result.taken_at r)
                              else x) (results db))
               (results_seq db)
    /\ out = {| ro_id := i;
                ro_student_id := rc_student_id result;
                ro_student_name := Student.name s;
                ro_exam_id := rc_exam_id result;
                ro_exam_title := Exam.title e;
                ro_score := rc_score result |}.
Proof.
  unfold app.update_result, bind, raise_if, first_or_raise.
  destruct (result_by_id i db) as [r|] eqn:Er; [|discriminate].
  destruct (app.no_permission current_user); [discriminate|]. simpl.
  destruct (student_by_id _ db) as [s|] eqn:Es; [|discriminate].
  destruct (exam_by_id _ db) as [e|] eqn:Ee; [|discriminate].
  rewrite (student_by_id_id _ _ _ Es), (exam_by_id_id _ _ _ Ee),
    (result_by_id_id _ _ _ Er).
  destruct (update_result_row _ db) as [[r'|err] db1] eqn:Eupd;
    [|discriminate].
  apply update_result_row_ok in Eupd. destruct Eupd as (Hr & Hdb1 & _ & _).
  simpl in Hdb1.
  intros Hout. exists r, s, e.
  split; [reflexivity|]. split; [reflexivity|]. split; [reflexivity|].
  assert (Hs1 : student_by_id (Result.student_id r') db1 = Some s)
    by (subst r' db1; exact Es).
  assert (He1 : exam_by_id (Result.exam_id r') db1 = Some e)
    by (subst r' db1; exact Ee).
  unfold app.result_out, bind, query, app.result_student, app.result_exam
    in Hout.
  rewrite Hs1, He1 in Hout. injection Hout as <- <-.
  subst r' db1. now split.
Qed.

(** X16.  After a successful [PUT /results/{result_id}] every result row
    but the target is what it was, and so are the other tables; the target
    keeps its id and the time it was taken and takes its student id, exam
    id and score from the request; the response repeats them and joins in
    the name of that student and the title of that exam. *)
Theorem update_result_frame (current_user : Account.t) (result_id : Z)
    (result : ResultCreate) db out db' :
  NoDup (map Result.id (results db)) ->
  app.update_result result_id result current_user db = (Ok out, db') ->
  Forall2 (result_row_after result_id result) (results db) (results db')
  /\ accounts db' = accounts db
  /\ students db' = students db
  /\ exams db' = exams db
  /\ exists s e,
       student_by_id (rc_student_id result) db = Some s
       /\ exam_by_id (rc_exam_id result) db = Some e
       /\ out = {| ro_id := result_id;
                   ro_student_id := rc_student_id result;
                   ro_student_name := Student.name s;
                   ro_exam_id := rc_exam_id result;
                   ro_exam_title := Exam.title e;
                   ro_score := rc_score result |}.
Proof.
  intros Hpk Hupd.
  destruct (update_result_ok_inv _ _ _ _ _ _ Hupd)
    as (r & s & e & Er & Es & Ee & -> & ->).
  split; [|split; [reflexivity|split; [reflexivity|split; [reflexivity|]]]].
  - simpl. apply Forall2_map_self. intros x Hx. unfold result_row_after.
    destruct (Result.id x =? result_id) eqn:Ex; [|reflexivity].
    apply Z.eqb_eq in Ex.
    apply find_some in Er. destruct Er as [Hr Eid]. apply Z.eqb_eq in Eid.
    assert (x = r) as ->
      by (apply (NoDup_key_inj Result.id (results db)); auto; congruence).
    simpl. now repeat split.
  - now exists s, e.
Qed.

Section ResultStoreChecks.
#[local] Existing Instance Demo.env.

Lemma add_result_stores_and_joins_witness :
  exists out db',
    app.add_result 100 Demo.ann_final_retake Demo.teacher Demo.db
    = (Ok out, db')
    /\ ro_student_name out = "Ann" /\ ro_exam_title out = "Final"
    /\ results db'
       = [Demo.r1; Demo.r2; Demo.r3; Result.mk 4 1 2 95%float 100].
Proof.
  eexists. eexists. split; [reflexivity|].
  destruct (add_result_stores_and_joins Demo.teacher 100
              Demo.ann_final_retake Demo.db _ _ eq_refl)
    as (s & e & Hs & He & Hrows & Hout & _).
  injection Hs as <-. injection He as <-.
  split; [reflexivity|]. split; [reflexivity|exact Hrows].
Defined.

Lemma update_result_frame_witness :
  exists out db',
    app.update_result 2 Demo.ann_final_retake Demo.teacher Demo.db
    = (Ok out, db')
    /\ Forall2 (result_row_after 2 Demo.ann_final_retake)
         (results Demo.db) (results db')
    /\ ro_student_name out = "Ann".
Proof.
  eexists. eexists. split; [reflexivity|].
  destruct (update_result_frame Demo.teacher 2 Demo.ann_final_retake
              Demo.db _ _
              ltac:(simpl; repeat constructor; simpl; intuition lia)
              eq_refl)
    as (Hrows & _ & _ & _ & s & e & Hs & He & Hout).
  split; [exact Hrows|reflexivity].
Defined.
End ResultStoreChecks.

(** ** The constraints of the schema are kept *)

Section Preserves.
Variable P : DB -> Prop.

Lemma preserves_read_only {A} (m : M A) : read_only m -> preserves P m.
Proof. intros Hm db Hdb. now rewrite Hm. Qed.

Lemma preserves_bind {A B} (m : M A) (k : A -> M B) :
  preserves P m -> (forall a, preserves P (k a)) -> preserves P (bind m k).
Proof.
  intros Hm Hk db Hdb. unfold bind. specialize (Hm db Hdb).
  destruct (m db) as [[a|e] db1]; simpl in Hm; [now apply Hk|exact Hm].
Qed.

Lemma preserves_fmap {A B} (f : A -> B) (m : M A) :
  preserves P m -> preserves P (app.fmap f m).
Proof.
  intros Hm. unfold app.fmap. apply preserves_bind; [exact Hm|].
  intros a. apply preserves_read_only, read_only_ret.
Qed.
End Preserves.

Section KeyLemmas.
Context {A K : Type}.
Variable key : A -> K.

Lemma NoDup_map_snoc (l : list A) (a : A) :
  NoDup (map key l) -> (forall x, In x l -> key x <> key a) ->
  NoDup (map key (l ++ [a])).
Proof.
  induction l as [|b l IH]; simpl; intros Hnd Hfresh.
  - constructor; [intros []|constructor].
  - inversion Hnd as [|k ks Hnotin Hnd']; subst. constructor.
    + intros Hin. apply in_map_iff in Hin. destruct Hin as (y & E & Hy).
      apply in_app_iff in Hy. destruct Hy as [Hy|[<-|[]]].
      * apply Hnotin. apply in_map_iff. now exists y.
      * apply (Hfresh b); auto.
    + apply IH; auto.
Qed.

Lemma NoDup_map_filter (p : A -> bool) (l : list A) :
  NoDup (map key l) -> NoDup (map key (filter p l)).
Proof.
  induction l as [|a l IH]; simpl; intros Hnd; [constructor|].
  inversion Hnd as [|k ks Hnotin Hnd']; subst.
  destruct (p a); simpl; [|now apply IH].
  constructor; [|now apply IH].
  intros Hin. apply Hnotin. apply in_map_iff in Hin.
  destruct Hin as (x & E & Hx). apply filter_In in Hx.
  apply in_map_iff. exists x. tauto.
Qed.

Variable id : A -> Z.

Lemma in_replace (l : list A) (s y : A) :
  In y (map (fun x => if id x =? id s then s else x) l) ->
  (y = s /\ exists x, In x l /\ id x = id s)
  \/ (In y l /\ id y <> id s).
Proof.
  intros Hin. apply in_map_iff in Hin. destruct Hin as (x & E & Hx).
  destruct (id x =? id s) eqn:Ex.
  - left. split; [now symmetry|]. exists x. split; [exact Hx|].
    now apply Z.eqb_eq.
  - right. subst y. split; [exact Hx|]. now apply Z.eqb_neq.
Qed.

Lemma map_id_replace (l : list A) (s : A) :
  map id (map (fun x => if id x =? id s then s else x) l) = map id l.
Proof.
  rewrite map_map. apply map_ext. intros x.
  destruct (id x =? id s) eqn:Ex; [|reflexivity].
  apply Z.eqb_eq in Ex. now symmetry.
Qed.

Lemma NoDup_map_replace (l : list A) (s : A) :
  NoDup (map id l) -> NoDup (map key l) ->
  (forall x, In x l -> id x <> id s -> key x <> key s) ->
  NoDup (map key (map (fun x => if id x =? id s then s else x) l)).
Proof.
  induction l as [|a l IH]; simpl; intros Hid Hkey Hother; [constructor|].
  inversion Hid as [|i ids Hinotin Hid']; subst.
  inversion Hkey as [|k ks Hknotin Hkey']; subst.
  constructor; [|apply IH; auto].
  intros Hin. apply in_map_iff in Hin. destruct Hin as (y & E & Hy).
  apply in_replace in Hy.
  destruct (id a =? id s) eqn:Ea.
  - apply Z.eqb_eq in Ea.
    destruct Hy as [(_ & x & Hx & Eid)|[Hy Hne]].
    + apply Hinotin. apply in_map_iff. exists x. split; [congruence|exact Hx].
    + apply (Hother y); auto.
  - apply Z.eqb_neq in Ea.
    destruct Hy as [(-> & _)|[Hy Hne]].
    + apply (Hother a); auto.
    + apply Hknotin. apply in_map_iff. now exists y.
Qed.
End KeyLemmas.

Lemma existsb_false_forall {A} (f : A -> bool) (l : list A) :
  existsb f l = false -> forall x, In x l -> f x = false.
Proof.
  intros Hex x Hx. destruct (f x) eqn:E; [|reflexivity].
  assert (existsb f l = true) by (apply existsb_exists; eauto).
  congruence.
Qed.

Lemma student_row_ok_inv db others (s : Student.t) :
  student_row_ok db others s = true ->
  (forall x, In x others -> Student.id x <> Student.id s)
  /\ (forall x, In x others ->
                Student.student_number x <> Student.student_number s)
  /\ (forall x a, Student.account_id s = Some a -> In x others ->
                  Student.account_id x <> Some a)
  /\ (forall a, Student.account_id s = Some a -> has_account db a = true).
Proof.
  unfold student_row_ok. intros Hok.
  apply andb_true_iff in Hok. destruct Hok as [Hok Hacc].
  apply andb_true_iff in Hok. destruct Hok as [Hid Hnum].
  apply negb_true_iff in Hid, Hnum.
  split; [|split; [|split]].
  - intros x Hx. apply Z.eqb_neq.
    exact (existsb_false_forall _ _ Hid x Hx).
  - intros x Hx. apply String.eqb_neq.
    exact (existsb_false_forall _ _ Hnum x Hx).
  - intros x a Ha Hx Hxa. rewrite Ha in Hacc.
    apply andb_true_iff in Hacc. destruct Hacc as [_ Hlink].
    apply negb_true_iff in Hlink.
    pose proof (existsb_false_forall _ _ Hlink x Hx) as E. simpl in E.
    rewrite Hxa in E. simpl in E. now rewrite Z.eqb_refl in E.
  - intros a Ha. rewrite Ha in Hacc.
    apply andb_true_iff in Hacc. now destruct Hacc.
Qed.

Lemma result_row_ok_inv db others (r : Result.t) :
  result_row_ok db others r = true ->
  (forall x, In x others -> Result.id x <> Result.id r)
  /\ has_student db (Result.student_id r) = true
  /\ has_exam db (Result.exam_id r) = true.
Proof.
  unfold result_row_ok. intros Hok.
  apply andb_true_iff in Hok. destruct Hok as [Hok He].
  apply andb_true_iff in Hok. destruct Hok as [Hid Hs].
  apply negb_true_iff in Hid.
  split; [|now split].
  intros x Hx. apply Z.eqb_neq. exact (existsb_false_forall _ _ Hid x Hx).
Qed.

Section KeysKept.

Lemma insert_account_keys row : preserves keys_ok (insert_account row).
Proof.
  intros db (Ha & Hc & Hrest).
  unfold insert_account. unfold keys_ok.
  destruct (has_account db _ || existsb _ (accounts db)) eqn:E;
    [simpl; now repeat split|].
  apply orb_false_iff in E. destruct E as [Eid Ec]. simpl.
  split; [|split; [|exact Hrest]].
  - apply NoDup_map_snoc; [exact Ha|].
    intros x Hx. apply Z.eqb_neq.
    exact (existsb_false_forall _ _ Eid x Hx).
  - apply NoDup_map_snoc; [exact Hc|].
    intros x Hx. apply String.eqb_neq.
    exact (existsb_false_forall _ _ Ec x Hx).
Qed.

Lemma insert_student_keys row : preserves keys_ok (insert_student row).
Proof.
  intros db (Ha & Hc & Hs & Hn & Hl & Hrest).
  unfold insert_student. unfold keys_ok.
  destruct (student_row_ok db (students db) _) eqn:E;
    [|simpl; now repeat split].
  apply student_row_ok_inv in E. destruct E as (Eid & Enum & Elink & _).
  simpl. split; [exact Ha|]. split; [exact Hc|].
  split; [now apply NoDup_map_snoc|]. split; [now apply NoDup_map_snoc|].
  split; [|exact Hrest].
  intros x y a Hx Hy Hxa Hya.
  apply in_app_iff in Hx, Hy.
  destruct Hx as [Hx|[<-|[]]], Hy as [Hy|[<-|[]]].
  - now apply (Hl x y a).
  - now destruct (Elink x a Hya Hx).
  - now destruct (Elink y a Hxa Hy).
  - reflexivity.
Qed.

Lemma insert_exam_keys row : preserves keys_ok (insert_exam row).
Proof.
  intros db (Ha & Hc & Hs & Hn & Hl & He & Hr).
  unfold insert_exam. unfold keys_ok.
  destruct (has_exam db _) eqn:E; [simpl; now repeat split|].
  simpl. repeat (split; [assumption|]). split; [|exact Hr].
  apply NoDup_map_snoc; [exact He|].
  intros x Hx. apply Z.eqb_neq. exact (existsb_false_forall _ _ E x Hx).
Qed.

Lemma insert_result_keys row : preserves keys_ok (insert_result row).
Proof.
  intros db (Ha & Hc & Hs & Hn & Hl & He & Hr).
  unfold insert_result. unfold keys_ok.
  destruct (result_row_ok db (results db) _) eqn:E;
    [|simpl; now repeat split].
  apply result_row_ok_inv in E. destruct E as (Eid & _).
  simpl. repeat (split; [assumption|]).
  now apply NoDup_map_snoc.
Qed.

Lemma update_student_row_keys s : preserves keys_ok (update_student_row s).
Proof.
  intros db (Ha & Hc & Hs & Hn & Hl & Hrest).
  unfold update_student_row. unfold keys_ok.
  destruct (student_row_ok db _ s) eqn:E; [|simpl; now repeat split].
  apply student_row_ok_inv in E. destruct E as (_ & Enum & Elink & _).
  assert (Hothers : forall x, In x (students db) ->
                      Student.id x <> Student.id s ->
                      In x (filter (fun x => negb (Student.id x
                                                   =? Student.id s))
                              (students db))).
  { intros x Hx Hne. apply filter_In. split; [exact Hx|].
    apply negb_true_iff. now apply Z.eqb_neq. }
  simpl. split; [exact Ha|]. split; [exact Hc|].
  split; [now rewrite (map_id_replace Student.id)|].
  split; [apply (NoDup_map_replace _ Student.id); auto|].
  split; [|exact Hrest].
  intros x y a Hx Hy Hxa Hya.
  apply in_replace in Hx, Hy.
  destruct Hx as [(-> & _)|[Hx Hxne]], Hy as [(-> & _)|[Hy Hyne]].
  - reflexivity.
  - now destruct (Elink y a Hxa (Hothers y Hy Hyne)).
  - now destruct (Elink x a Hya (Hothers x Hx Hxne)).
  - now apply (Hl x y a).
Qed.

Lemma update_exam_row_keys e : preserves keys_ok (update_exam_row e).
Proof.
  intros db (Ha & Hc & Hs & Hn & Hl & He & Hr).
  unfold update_exam_row. unfold keys_ok.
  simpl. repeat (split; [assumption|]). split; [|exact Hr].
  now rewrite (map_id_replace Exam.id).
Qed.

Lemma update_result_row_keys r : preserves keys_ok (update_result_row r).
Proof.
  intros db (Ha & Hc & Hs & Hn & Hl & He & Hr).
  unfold update_result_row. unfold keys_ok.
  destruct (result_row_ok db _ r); [|simpl; now repeat split].
  simpl. repeat (split; [assumption|]).
  now rewrite (map_id_replace Result.id).
Qed.

Lemma delete_student_row_keys s : preserves keys_ok (delete_student_row s).
Proof.
  intros db (Ha & Hc & Hs & Hn & Hl & Hrest).
  unfold delete_student_row. unfold keys_ok.
  destruct (existsb _ (results db)); [simpl; now repeat split|].
  simpl. split; [exact Ha|]. split; [exact Hc|].
  split; [now apply NoDup_map_filter|].
  split; [now apply NoDup_map_filter|].
  split; [|exact Hrest].
  intros x y a Hx Hy. apply filter_In in Hx, Hy.
  apply (Hl x y a); tauto.
Qed.

Lemma delete_exam_row_keys e : preserves keys_ok (delete_exam_row e).
Proof.
  intros db (Ha & Hc & Hs & Hn & Hl & He & Hr).
  unfold delete_exam_row. unfold keys_ok.
  destruct (existsb _ (results db)); [simpl; now repeat split|].
  simpl. repeat (split; [assumption|]). split; [|exact Hr].
  now apply NoDup_map_filter.
Qed.

Lemma delete_result_row_keys r : preserves keys_ok (delete_result_row r).
Proof.
  intros db (Ha & Hc & Hs & Hn & Hl & He & Hr).
  unfold delete_result_row. unfold keys_ok.
  simpl. repeat (split; [assumption|]).
  now apply NoDup_map_filter.
Qed.
End KeysKept.

Lemma hash_password_read_only {env : Env} password :
  read_only (routes_auth.hash_password password).
Proof.
  unfold routes_auth.hash_password.
  destruct (negb _ || _); [apply read_only_raise|apply read_only_ret].
Qed.

Section HandlersKeep.
Context {env : Env}.
Variable P : DB -> Prop.
Hypothesis insert_account_keeps : forall row, preserves P (insert_account row).
Hypothesis insert_student_keeps : forall row, preserves P (insert_student row).
Hypothesis insert_exam_keeps : forall row, preserves P (insert_exam row).
Hypothesis insert_result_keeps : forall row, preserves P (insert_result row).
Hypothesis update_student_keeps : forall s, preserves P (update_student_row s).
Hypothesis update_exam_keeps : forall e, preserves P (update_exam_row e).
Hypothesis update_result_keeps : forall r, preserves P (update_result_row r).
Hypothesis delete_student_keeps : forall s, preserves P (delete_student_row s).
Hypothesis delete_exam_keeps : forall e, preserves P (delete_exam_row e).
Hypothesis delete_result_keeps : forall r, preserves P (delete_result_row r).

Lemma result_out_read_only r : read_only (app.result_out r).
Proof.
  unfold app.result_out. apply read_only_bind; [apply read_only_query|].
  intros db0.
  destruct (app.result_student db0 r); [|apply read_only_raise].
  destruct (app.result_exam db0 r);
    [apply read_only_ret|apply read_only_raise].
Qed.

Ltac keeps :=
  repeat first
    [ solve [apply preserves_read_only; auto with effects]
    | solve [apply preserves_read_only, result_out_read_only]
    | solve [auto]
    | apply preserves_bind; [|intros] ].

(** Every handler keeps whatever every commit keeps. *)
Lemma handler_keeps now op current_user :
  preserves P (app.handler now op current_user).
Proof.
  destruct op; simpl; apply preserves_fmap.
  - apply preserves_read_only, get_students_read_only.
  - unfold app.add_student. keeps.
  - unfold app.update_student. keeps.
  - unfold app.delete_student. keeps.
  - apply preserves_read_only, get_exams_read_only.
  - unfold app.add_exam. keeps.
  - unfold app.update_exam. keeps.
  - unfold app.delete_exam. keeps.
  - apply preserves_read_only, get_results_read_only.
  - unfold app.add_result. keeps.
  - unfold app.update_result. keeps.
  - unfold app.delete_result. keeps.
Qed.

Lemma route_keeps now token op : preserves P (app.route now token op).
Proof.
  unfold app.route. apply preserves_bind.
  - apply preserves_read_only, app_guard_read_only.
  - intros a. apply handler_keeps.
Qed.

Lemma register_keeps now data : preserves P (routes_auth.register now data).
Proof.
  unfold routes_auth.register, routes_auth.validate_role. keeps.
  - apply preserves_read_only, hash_password_read_only.
  - destruct (String.eqb _ _); keeps.
Qed.

Lemma login_keeps now data : preserves P (routes_auth.login now data).
Proof. apply preserves_read_only, login_read_only. Qed.

Lemma seed_admin_keeps now c n p : preserves P (app.seed_admin now c n p).
Proof.
  unfold app.seed_admin. keeps.
  match goal with |- preserves _ (match ?x with _ => _ end) => destruct x end;
    keeps.
Qed.

Lemma students_router_keeps now student user :
  preserves P (routes_students.add_student now student user).
Proof. unfold routes_students.add_student. keeps. Qed.
End HandlersKeep.

(** X17.  Every operation keeps the key constraints of the schema: if
    account ids, account contacts, student ids, student numbers, exam ids
    and result ids are pairwise distinct and no account has two Student
    rows, then the same holds of the store left behind by any protected
    request, any [register], any [login], the admin seeding and the
    students router, whether the operation succeeded or raised. *)
Theorem schema_keys_kept {env : Env} db :
  keys_ok db ->
  (forall now token op, keys_ok (snd (app.route now token op db)))
  /\ (forall now data, keys_ok (snd (routes_auth.register now data db)))
  /\ (forall now data, keys_ok (snd (routes_auth.login now data db)))
  /\ (forall now c n p, keys_ok (snd (app.seed_admin now c n p db)))
  /\ (forall now student user,
        keys_ok (snd (routes_students.add_student now student user db))).
Proof.
  intros Hok.
  split; [|split; [|split; [|split]]]; intros.
  - apply (route_keeps keys_ok); auto using insert_student_keys,
      insert_exam_keys, insert_result_keys, update_student_row_keys,
      update_exam_row_keys, update_result_row_keys, delete_student_row_keys,
      delete_exam_row_keys, delete_result_row_keys.
  - apply (register_keeps keys_ok); auto using insert_account_keys,
      insert_student_keys.
  - now apply (login_keeps keys_ok).
  - apply (seed_admin_keeps keys_ok); auto using insert_account_keys.
  - apply (students_router_keeps keys_ok); auto using insert_student_keys.
Qed.

Section KeysChecks.
#[local] Existing Instance Demo.env.

Lemma demo_keys_ok : keys_ok Demo.db.
Proof.
  unfold keys_ok. simpl.
  repeat split;
    try (repeat constructor; simpl; intuition (lia || discriminate)).
  intros x y a [<-|[<-|[]]] [<-|[<-|[]]]; simpl; intros Hx Hy;
    try reflexivity; congruence.
Defined.

Lemma schema_keys_kept_witness :
  keys_ok (snd (routes_auth.register 100 Demo.zed_registration Demo.db))
  /\ keys_ok (snd (app.route 200 Demo.teacher_token
                     (app.POST_results Demo.ann_final_retake) Demo.db)).
Proof.
  destruct (schema_keys_kept (env := Demo.env) Demo.db demo_keys_ok)
    as (Hroute & Hregister & _).
  split; [apply Hregister|apply Hroute].
Defined.
End KeysChecks.

(** ** References stay resolvable *)

Section ExistsKey.
Context {A : Type}.
Variable id : A -> Z.

Lemma existsb_snoc (f : A -> bool) (l : list A) (a : A) :
  existsb f l = true -> existsb f (l ++ [a]) = true.
Proof. intros H. rewrite existsb_app, H. reflexivity. Qed.

Lemma existsb_replace (l : list A) (s : A) (i : Z) :
  existsb (fun x => id x =? i)
    (map (fun x => if id x =? id s then s else x) l)
  = existsb (fun x => id x =? i) l.
Proof.
  induction l as [|a l IH]; simpl; [reflexivity|]. rewrite IH.
  destruct (id a =? id s) eqn:Ea; [|reflexivity].
  apply Z.eqb_eq in Ea. now rewrite Ea.
Qed.

Lemma existsb_filter_other (l : list A) (k i : Z) :
  i <> k ->
  existsb (fun x => id x =? i) (filter (fun x => negb (id x =? k)) l)
  = existsb (fun x => id x =? i) l.
Proof.
  intros Hne. induction l as [|a l IH]; simpl; [reflexivity|].
  destruct (id a =? k) eqn:Ea; simpl; rewrite IH; [|reflexivity].
  apply Z.eqb_eq in Ea.
  assert ((id a =? i) = false) as -> by (apply Z.eqb_neq; congruence).
  reflexivity.
Qed.
End ExistsKey.

Section RefsKept.

Lemma insert_account_refs row : preserves refs_ok (insert_account row).
Proof.
  intros db (Hl & Hr). unfold insert_account.
  destruct (has_account db _ || _); [simpl; now split|].
  unfold refs_ok. simpl. split; [|exact Hr].
  intros s a Hs Ha. unfold has_account. simpl.
  apply existsb_snoc. now apply (Hl s a).
Qed.

Lemma insert_student_refs row : preserves refs_ok (insert_student row).
Proof.
  intros db (Hl & Hr). unfold insert_student.
  destruct (student_row_ok db (students db) _) eqn:E;
    [|simpl; now split].
  apply student_row_ok_inv in E. destruct E as (_ & _ & _ & Hacc).
  unfold refs_ok. simpl. split.
  - intros s a Hs Ha. apply in_app_iff in Hs.
    destruct Hs as [Hs|[<-|[]]]; [now apply (Hl s a)|now apply Hacc].
  - intros r Hin. destruct (Hr r Hin) as [Hs He]. split; [|exact He].
    unfold has_student. simpl. now apply existsb_snoc.
Qed.

Lemma insert_exam_refs row : preserves refs_ok (insert_exam row).
Proof.
  intros db (Hl & Hr). unfold insert_exam.
  destruct (has_exam db _); [simpl; now split|].
  unfold refs_ok. simpl. split; [exact Hl|].
  intros r Hin. destruct (Hr r Hin) as [Hs He]. split; [exact Hs|].
  unfold has_exam. simpl. now apply existsb_snoc.
Qed.

Lemma insert_result_refs row : preserves refs_ok (insert_result row).
Proof.
  intros db (Hl & Hr). unfold insert_result.
  destruct (result_row_ok db (results db) _) eqn:E; [|simpl; now split].
  apply result_row_ok_inv in E. destruct E as (_ & Hs & He).
  unfold refs_ok. simpl. split; [exact Hl|].
  intros r Hin. apply in_app_iff in Hin.
  destruct Hin as [Hin|[<-|[]]]; [now apply Hr|now split].
Qed.

Lemma update_student_row_refs s : preserves refs_ok (update_student_row s).
Proof.
  intros db (Hl & Hr). unfold update_student_row.
  destruct (student_row_ok db _ s) eqn:E; [|simpl; now split].
  apply student_row_ok_inv in E. destruct E as (_ & _ & _ & Hacc).
  unfold refs_ok. simpl. split.
  - intros y a Hy Ha. apply (in_replace Student.id) in Hy.
    destruct Hy as [(-> & _)|[Hy _]]; [now apply Hacc|now apply (Hl y a)].
  - intros r Hin. destruct (Hr r Hin) as [Hs He]. split; [|exact He].
    unfold has_student. simpl. now rewrite (existsb_replace Student.id).
Qed.

Lemma update_exam_row_refs e : preserves refs_ok (update_exam_row e).
Proof.
  intros db (Hl & Hr). unfold update_exam_row, refs_ok. simpl.
  split; [exact Hl|].
  intros r Hin. destruct (Hr r Hin) as [Hs He]. split; [exact Hs|].
  unfold has_exam. simpl. now rewrite (existsb_replace Exam.id).
Qed.

Lemma update_result_row_refs r : preserves refs_ok (update_result_row r).
Proof.
  intros db (Hl & Hr). unfold update_result_row.
  destruct (result_row_ok db _ r) eqn:E; [|simpl; now split].
  apply result_row_ok_inv in E. destruct E as (_ & Hs & He).
  unfold refs_ok. simpl. split; [exact Hl|].
  intros y Hy. apply (in_replace Result.id) in Hy.
  destruct Hy as [(-> & _)|[Hy _]]; [now split|now apply Hr].
Qed.

Lemma delete_student_row_refs s : preserves refs_ok (delete_student_row s).
Proof.
  intros db (Hl & Hr). unfold delete_student_row.
  destruct (existsb _ (results db)) eqn:E; [simpl; now split|].
  unfold refs_ok. simpl. split.
  - intros y a Hy. apply filter_In in Hy. now apply Hl.
  - intros r Hin. destruct (Hr r Hin) as [Hs He]. split; [|exact He].
    unfold has_student. simpl.
    rewrite (existsb_filter_other Student.id); [exact Hs|].
    apply Z.eqb_neq. exact (existsb_false_forall _ _ E r Hin).
Qed.

Lemma delete_exam_row_refs e : preserves refs_ok (delete_exam_row e).
Proof.
  intros db (Hl & Hr). unfold delete_exam_row.
  destruct (existsb _ (results db)) eqn:E; [simpl; now split|].
  unfold refs_ok. simpl. split; [exact Hl|].
  intros r Hin. destruct (Hr r Hin) as [Hs He]. split; [exact Hs|].
  unfold has_exam. simpl.
  rewrite (existsb_filter_other Exam.id); [exact He|].
  apply Z.eqb_neq. exact (existsb_false_forall _ _ E r Hin).
Qed.

Lemma delete_result_row_refs r : preserves refs_ok (delete_result_row r).
Proof.
  intros db (Hl & Hr). unfold delete_result_row, refs_ok. simpl.
  split; [exact Hl|].
  intros y Hy. apply filter_In in Hy. now apply Hr.
Qed.
End RefsKept.

(** X18.  Every operation keeps the references of the store resolvable: if
    every Student row's account link names an account and every Result row
    names a Student row and an Exam row, the same holds of the store left
    behind by any protected request, any [register], any [login], the
    admin seeding and the students router, whether the operation succeeded
    or raised. *)
Theorem schema_refs_kept {env : Env} db :
  refs_ok db ->
  (forall now token op, refs_ok (snd (app.route now token op db)))
  /\ (forall now data, refs_ok (snd (routes_auth.register now data db)))
  /\ (forall now data, refs_ok (snd (routes_auth.login now data db)))
  /\ (forall now c n p, refs_ok (snd (app.seed_admin now c n p db)))
  /\ (forall now student user,
        refs_ok (snd (routes_students.add_student now student user db))).
Proof.
  intros Hok.
  split; [|split; [|split; [|split]]]; intros.
  - apply (route_keeps refs_ok); auto using insert_student_refs,
      insert_exam_refs, insert_result_refs, update_student_row_refs,
      update_exam_row_refs, update_result_row_refs, delete_student_row_refs,
      delete_exam_row_refs, delete_result_row_refs.
  - apply (register_keeps refs_ok); auto using insert_account_refs,
      insert_student_refs.
  - now apply (login_keeps refs_ok).
  - apply (seed_admin_keeps refs_ok); auto using insert_account_refs.
  - apply (students_router_keeps refs_ok); auto using insert_student_refs.
Qed.

Lemma get_results_rows (current_user : Account.t) db rows db' :
  app.get_results current_user db = (Ok rows, db') ->
  forall out, In out rows ->
    exists r, In r (results db) /\ out = app.result_out_or_unknown db r.
Proof.
  unfold app.get_results, bind, query, ret.
  destruct (String.eqb _ _).
  - destruct (student_by_account _ db) as [s|]; intros [= <- <-] out Hout.
    + apply in_map_iff in Hout. destruct Hout as (r & E & Hr).
      apply filter_In in Hr. exists r. split; [tauto|now symmetry].
    + destruct Hout.
  - intros [= <- <-] out Hout.
    apply in_map_iff in Hout. destruct Hout as (r & E & Hr).
    exists r. split; [exact Hr|now symmetry].
Qed.

(** X19.  On a store whose references resolve, [GET /results] never falls
    back to "Unknown": every row it returns repeats a Result row of the
    table and carries the name of the Student row and the title of the Exam
    row that row points to. *)
Theorem get_results_joins_names (current_user : Account.t) db rows db' :
  refs_ok db ->
  app.get_results current_user db = (Ok rows, db') ->
  forall out, In out rows ->
    exists r s e,
      In r (results db) /\ In s (students db) /\ In e (exams db)
      /\ Student.id s = Result.student_id r
      /\ Exam.id e = Result.exam_id r
      /\ out = {| ro_id := Result.id r;
                  ro_student_id := Result.student_id r;
                  ro_student_name := Student.name s;
                  ro_exam_id := Result.exam_id r;
                  ro_exam_title := Exam.title e;
                  ro_score := Result.score r |}.
Proof.
  intros (_ & Hrefs) Hget out Hout.
  destruct (get_results_rows _ _ _ _ Hget out Hout) as (r & Hr & ->).
  destruct (Hrefs r Hr) as [Hs He].
  apply existsb_find in Hs. destruct Hs as [s Hs].
  apply existsb_find in He. destruct He as [e He].
  exists r, s, e.
  pose proof (find_some _ _ Hs) as [Hins Eids].
  pose proof (find_some _ _ He) as [Hine Eide].
  apply Z.eqb_eq in Eids, Eide.
  repeat (split; [assumption|]).
  unfold app.result_out_or_unknown, app.result_student, app.result_exam,
    student_by_id, exam_by_id.
  now rewrite Hs, He.
Qed.

Section RefsChecks.
#[local] Existing Instance Demo.env.

Lemma demo_refs_ok : refs_ok Demo.db.
Proof.
  unfold refs_ok. simpl. split.
  - intros s a [<-|[<-|[]]] [= <-]; reflexivity.
  - intros r [<-|[<-|[<-|[]]]]; split; reflexivity.
Defined.

Lemma schema_refs_kept_witness :
  refs_ok (snd (app.route 200 Demo.teacher_token (app.DELETE_students 2)
                  Demo.db))
  /\ refs_ok (snd (routes_auth.register 100 Demo.zed_registration Demo.db)).
Proof.
  destruct (schema_refs_kept (env := Demo.env) Demo.db demo_refs_ok)
    as (Hroute & Hregister & _).
  split; [apply Hroute|apply Hregister].
Defined.

Lemma get_results_joins_names_witness :
  exists r s e,
    In r (results Demo.db) /\ In s (students Demo.db)
    /\ In e (exams Demo.db)
    /\ Student.id s = Result.student_id r
    /\ Exam.id e = Result.exam_id r
    /\ app.result_out_or_unknown Demo.db Demo.r3
       = {| ro_id := Result.id r;
            ro_student_id := Result.student_id r;
            ro_student_name := Student.name s;
            ro_exam_id := Result.exam_id r;
            ro_exam_title := Exam.title e;
            ro_score := Result.score r |}.
Proof.
  apply (get_results_joins_names Demo.ann_account Demo.db
           (map (app.result_out_or_unknown Demo.db) [Demo.r1; Demo.r3])
           Demo.db demo_refs_ok eq_refl).
  simpl. tauto.
Defined.
End RefsChecks.

(** ** Edges of the student and exam writes *)

(** X20.  The email of a student is optional in the request schema but
    not for [POST /students] of [app.py]: submitted without one by an admin
    or a teacher, a student is refused with
    400 "No account found for None. Please create the account first.",
    whatever the store holds, and nothing is written. *)
Theorem add_student_without_email now (student : StudentCreate)
    (current_user : Account.t) db :
  Account.role current_user = "admin"
  \/ Account.role current_user = "teacher" ->
  sc_email student = None ->
  app.add_student now student current_user db
  = (Raise (HTTPException 400
       "No account found for None. Please create the account first."),
     db).
Proof.
  intros Hstaff Hemail.
  unfold app.add_student, bind, raise_if, first_or_raise.
  rewrite (staff_has_permission _ Hstaff), Hemail. simpl.
  rewrite account_by_contact_absent; [reflexivity|].
  intros a _. discriminate.
Qed.

Lemma existsb_witness {A} (f : A -> bool) (l : list A) (x : A) :
  In x l -> f x = true -> existsb f l = true.
Proof. intros Hin Hf. apply existsb_exists. eauto. Qed.

(** X21.  The handlers do not check the constraints the commit enforces,
    so a violation surfaces as an integrity error, not as an HTTP error,
    and changes nothing: a [PUT /students/{id}] that asks for the student
    number of another row, a [DELETE /students/{id}] of a student that has
    results, and a [DELETE /exams/{id}] of an exam that has results. *)
Theorem constraint_violations_raise (current_user : Account.t) db :
  Account.role current_user = "admin"
  \/ Account.role current_user = "teacher" ->
  (forall target student s other,
     student_by_id target db = Some s ->
     In other (students db) ->
     Student.id other <> target ->
     Student.student_number other = sc_student_number student ->
     app.update_student target student current_user db
     = (Raise IntegrityError, db))
  /\ (forall target s r,
        student_by_id target db = Some s ->
        In r (results db) -> Result.student_id r = target ->
        app.delete_student target current_user db
        = (Raise IntegrityError, db))
  /\ (forall target e r,
        exam_by_id target db = Some e ->
        In r (results db) -> Result.exam_id r = target ->
        app.delete_exam target current_user db
        = (Raise IntegrityError, db)).
Proof.
  intros Hstaff. pose proof (staff_has_permission _ Hstaff) as Hperm.
  split; [|split].
  - intros target student s other Hs Hin Hne Hnum.
    unfold app.update_student, bind, raise_if, first_or_raise.
    rewrite Hs, Hperm. simpl. unfold update_student_row.
    pose proof (student_by_id_id _ _ _ Hs) as Hid.
    rewrite (student_number_taken db _ other); [reflexivity| |exact Hnum].
    apply filter_In. split; [exact Hin|].
    apply negb_true_iff. apply Z.eqb_neq. simpl. congruence.
  - intros target s r Hs Hr Href.
    unfold app.delete_student, bind, raise_if, first_or_raise.
    rewrite Hs, Hperm. simpl. unfold delete_student_row.
    rewrite (existsb_witness _ _ r Hr); [reflexivity|].
    apply Z.eqb_eq. rewrite (student_by_id_id _ _ _ Hs). exact Href.
  - intros target e r He Hr Href.
    unfold app.delete_exam, bind, raise_if, first_or_raise.
    rewrite He, Hperm. simpl. unfold delete_exam_row.
    rewrite (existsb_witness _ _ r Hr); [reflexivity|].
    apply Z.eqb_eq. rewrite (exam_by_id_id _ _ _ He). exact Href.
Qed.

Section EdgeChecks.
#[local] Existing Instance Demo.env.

Lemma add_student_without_email_witness :
  app.add_student 100 Demo.no_email_student Demo.admin Demo.db
  = (Raise (HTTPException 400
       "No account found for None. Please create the account first."),
     Demo.db).
Proof.
  apply (add_student_without_email 100 Demo.no_email_student Demo.admin
           Demo.db).
  - left. reflexivity.
  - reflexivity.
Defined.

Lemma constraint_violations_raise_witness :
  app.update_student 1 Demo.ann_takes_bobs_number Demo.admin Demo.db
  = (Raise IntegrityError, Demo.db)
  /\ app.delete_student 2 Demo.admin Demo.db
     = (Raise IntegrityError, Demo.db)
  /\ app.delete_exam 1 Demo.admin Demo.db
     = (Raise IntegrityError, Demo.db).
Proof.
  destruct (constraint_violations_raise Demo.admin Demo.db
              (or_introl eq_refl)) as (Hupd & Hdels & Hdele).
  split; [|split].
  - apply (Hupd 1 Demo.ann_takes_bobs_number Demo.ann Demo.bob).
    + reflexivity.
    + simpl. tauto.
    + simpl. lia.
    + reflexivity.
  - apply (Hdels 2 Demo.bob Demo.r2); [reflexivity|simpl; tauto|reflexivity].
  - apply (Hdele 1 Demo.midterm Demo.r1);
      [reflexivity|simpl; tauto|reflexivity].
Defined.
End EdgeChecks.
